(** * SuiviScolaire: the in-memory repository and its reporting queries

    A shallow embedding of
    - [server/storage.ts] (class [MemStorage]),
    - the [/api/statistics/top-absentees] handler of [server/routes.ts],
    - the threshold report of [client/src/pages/absences/AbsenceReports.tsx],
    followed by the properties of the specification that concern them.

    Modelling choices.
    - Numbers.  Every numeric column of [shared/schema.ts] is [serial] or
      [integer]; identifiers and foreign keys are modelled as [Z].  The
      counters of [nextIds] start at 1 and only grow by [++], so they stay
      integers; JavaScript represents them exactly below 2^53.
    - Objects.  The storage never looks at the shape of a record: it builds
      [{ ...data, id }] and [{ ...existing, ...partial }] and compares a
      few foreign keys with [===].  A record is therefore a finite map from
      field names to values, [undefined] being the absence of a key.
    - [Map].  A JavaScript [Map] iterates in insertion order, [set] on an
      existing key keeps its position and [delete] removes the entry.  It is
      modelled as an association list whose keys are pairwise distinct.
    - Values.  The fields the code reads are numbers and strings; a
      timestamp (the [date] of a session) is only stored and handed back,
      and is carried as its JSON value.
    - [async].  No method of [MemStorage] suspends between the read and the
      write of a record; [batchCreateAbsences] awaits [createAbsence] between
      two turns of its loop and nothing else of the store runs in between
      (one writer at a time).  A call is one state transition, modelled as a
      function from the store to a result and the next store. *)

From Stdlib Require Import ZArith List Lia Permutation Sorted.
From stdpp Require Import base decidable option list sorting gmap strings.
From stdpp Require Import pretty.

Local Open Scope Z_scope.

(** ** JavaScript values, objects and [Map] *)

Module Js.

Inductive Val : Type :=
  | VNum (n : Z)
  | VStr (s : string)
  | VBool (b : bool)
  | VNull.

#[global] Instance Val_eq_dec : EqDecision Val.
Proof. solve_decision. Defined.

(** An object literal: field name to value; a missing key reads as
    [undefined], which is [None] below. *)
Abbreviation Obj := (gmap string Val).

(** [o.f] *)
Definition field (o : Obj) (f : string) : option Val := o !! f.

(** [a === b] on primitive values and [undefined]. *)
Definition strict_eq (a b : option Val) : bool := bool_decide (a = b).

(** [{ ...o, id }] *)
Definition with_id (o : Obj) (id : Z) : Obj := <["id" := VNum id]> o.

(** [{ ...a, ...b }]: the keys of [b] win. *)
Definition spread (a b : Obj) : Obj := b ∪ a.

(** [xs.includes(x)] *)
Definition includes (xs : list (option Val)) (x : option Val) : bool :=
  existsb (strict_eq x) xs.

(** [String(v)] as used by a template literal. *)
Definition to_string (v : option Val) : string :=
  match v with
  | None => "undefined"
  | Some VNull => "null"
  | Some (VBool true) => "true"
  | Some (VBool false) => "false"
  | Some (VStr s) => s
  | Some (VNum n) => pretty n
  end.

Section JsMap.
Context {K V : Type} `{EqDecision K}.

(** [m.get(k)] *)
Fixpoint map_get (k : K) (m : list (K * V)) : option V :=
  match m with
  | [] => None
  | (k', v) :: m' => if decide (k' = k) then Some v else map_get k m'
  end.

(** [m.has(k)] *)
Definition map_has (k : K) (m : list (K * V)) : bool :=
  match map_get k m with Some _ => true | None => false end.

(** [m.set(k, v)]: an existing key keeps its place, a new one goes last. *)
Fixpoint map_set (k : K) (v : V) (m : list (K * V)) : list (K * V) :=
  match m with
  | [] => [(k, v)]
  | (k', v') :: m' =>
      if decide (k' = k) then (k, v) :: m' else (k', v') :: map_set k v m'
  end.

(** The entries left by [m.delete(k)]. *)
Fixpoint map_remove (k : K) (m : list (K * V)) : list (K * V) :=
  match m with
  | [] => []
  | (k', v) :: m' =>
      if decide (k' = k) then map_remove k m' else (k', v) :: map_remove k m'
  end.

(** [m.delete(k)]: whether the key was there, and the map afterwards. *)
Definition map_delete (k : K) (m : list (K * V)) : bool * list (K * V) :=
  (map_has k m, map_remove k m).

(** [Array.from(m.values())] *)
Definition map_values (m : list (K * V)) : list V := map snd m.

(** [Array.from(m.entries())] *)
Definition map_entries (m : list (K * V)) : list (K * V) := m.

Definition map_keys (m : list (K * V)) : list K := map fst m.
End JsMap.

(** [xs.find(p)] *)
Definition find {A} (p : A → bool) (xs : list A) : option A := List.find p xs.

(** Field reads and spreads are reasoned about by their lemmas, never by
    unfolding the finite maps underneath. *)
#[global] Arguments field : simpl never.
#[global] Arguments with_id : simpl never.
#[global] Arguments spread : simpl never.
#[global] Arguments strict_eq : simpl never.
#[global] Arguments includes : simpl never.

End Js.

Import Js.

(** ** The repository: [MemStorage] of [server/storage.ts] *)

Module Storage.

Record NextIds : Type := mkNextIds {
  next_users : Z;
  next_departments : Z;
  next_courses : Z;
  next_modules : Z;
  next_moduleElements : Z;
  next_teacherModuleElements : Z;
  next_students : Z;
  next_studentGroups : Z;
  next_studentGroupAssignments : Z;
  next_sessions : Z;
  next_absences : Z
}.

Record MemStorage : Type := mkMemStorage {
  users : list (Z * Obj);
  departments : list (Z * Obj);
  courses : list (Z * Obj);
  modules : list (Z * Obj);
  moduleElements : list (Z * Obj);
  teacherModuleElements : list (Z * Obj);
  students : list (Z * Obj);
  studentGroups : list (Z * Obj);
  studentGroupAssignments : list (Z * Obj);
  sessions : list (Z * Obj);
  absences : list (Z * Obj);
  nextIds : NextIds
}.

(** Field assignments [this.nextIds.c = n] and [this.c = m]. *)
Definition set_next_users (n : Z) (i : NextIds) : NextIds :=
  mkNextIds n (next_departments i) (next_courses i) (next_modules i)
    (next_moduleElements i) (next_teacherModuleElements i) (next_students i)
    (next_studentGroups i) (next_studentGroupAssignments i)
    (next_sessions i) (next_absences i).
Definition set_next_departments (n : Z) (i : NextIds) : NextIds :=
  mkNextIds (next_users i) n (next_courses i) (next_modules i)
    (next_moduleElements i) (next_teacherModuleElements i) (next_students i)
    (next_studentGroups i) (next_studentGroupAssignments i)
    (next_sessions i) (next_absences i).
Definition set_next_courses (n : Z) (i : NextIds) : NextIds :=
  mkNextIds (next_users i) (next_departments i) n (next_modules i)
    (next_moduleElements i) (next_teacherModuleElements i) (next_students i)
    (next_studentGroups i) (next_studentGroupAssignments i)
    (next_sessions i) (next_absences i).
Definition set_next_modules (n : Z) (i : NextIds) : NextIds :=
  mkNextIds (next_users i) (next_departments i) (next_courses i) n
    (next_moduleElements i) (next_teacherModuleElements i) (next_students i)
    (next_studentGroups i) (next_studentGroupAssignments i)
    (next_sessions i) (next_absences i).
Definition set_next_moduleElements (n : Z) (i : NextIds) : NextIds :=
  mkNextIds (next_users i) (next_departments i) (next_courses i)
    (next_modules i) n (next_teacherModuleElements i) (next_students i)
    (next_studentGroups i) (next_studentGroupAssignments i)
    (next_sessions i) (next_absences i).
Definition set_next_teacherModuleElements (n : Z) (i : NextIds) : NextIds :=
  mkNextIds (next_users i) (next_departments i) (next_courses i)
    (next_modules i) (next_moduleElements i) n (next_students i)
    (next_studentGroups i) (next_studentGroupAssignments i)
    (next_sessions i) (next_absences i).
Definition set_next_students (n : Z) (i : NextIds) : NextIds :=
  mkNextIds (next_users i) (next_departments i) (next_courses i)
    (next_modules i) (next_moduleElements i) (next_teacherModuleElements i)
    n (next_studentGroups i) (next_studentGroupAssignments i)
    (next_sessions i) (next_absences i).
Definition set_next_studentGroups (n : Z) (i : NextIds) : NextIds :=
  mkNextIds (next_users i) (next_departments i) (next_courses i)
    (next_modules i) (next_moduleElements i) (next_teacherModuleElements i)
    (next_students i) n (next_studentGroupAssignments i) (next_sessions i)
    (next_absences i).
Definition set_next_studentGroupAssignments (n : Z) (i : NextIds) : NextIds :=
  mkNextIds (next_users i) (next_departments i) (next_courses i)
    (next_modules i) (next_moduleElements i) (next_teacherModuleElements i)
    (next_students i) (next_studentGroups i) n (next_sessions i)
    (next_absences i).
Definition set_next_sessions (n : Z) (i : NextIds) : NextIds :=
  mkNextIds (next_users i) (next_departments i) (next_courses i)
    (next_modules i) (next_moduleElements i) (next_teacherModuleElements i)
    (next_students i) (next_studentGroups i)
    (next_studentGroupAssignments i) n (next_absences i).
Definition set_next_absences (n : Z) (i : NextIds) : NextIds :=
  mkNextIds (next_users i) (next_departments i) (next_courses i)
    (next_modules i) (next_moduleElements i) (next_teacherModuleElements i)
    (next_students i) (next_studentGroups i)
    (next_studentGroupAssignments i) (next_sessions i) n.

Definition set_users (m : list (Z * Obj)) (s : MemStorage) : MemStorage :=
  mkMemStorage m (departments s) (courses s) (modules s) (moduleElements s)
    (teacherModuleElements s) (students s) (studentGroups s)
    (studentGroupAssignments s) (sessions s) (absences s) (nextIds s).
Definition set_departments (m : list (Z * Obj)) (s : MemStorage)
  : MemStorage :=
  mkMemStorage (users s) m (courses s) (modules s) (moduleElements s)
    (teacherModuleElements s) (students s) (studentGroups s)
    (studentGroupAssignments s) (sessions s) (absences s) (nextIds s).
Definition set_courses (m : list (Z * Obj)) (s : MemStorage) : MemStorage :=
  mkMemStorage (users s) (departments s) m (modules s) (moduleElements s)
    (teacherModuleElements s) (students s) (studentGroups s)
    (studentGroupAssignments s) (sessions s) (absences s) (nextIds s).
Definition set_modules (m : list (Z * Obj)) (s : MemStorage) : MemStorage :=
  mkMemStorage (users s) (departments s) (courses s) m (moduleElements s)
    (teacherModuleElements s) (students s) (studentGroups s)
    (studentGroupAssignments s) (sessions s) (absences s) (nextIds s).
Definition set_moduleElements (m : list (Z * Obj)) (s : MemStorage)
  : MemStorage :=
  mkMemStorage (users s) (departments s) (courses s) (modules s) m
    (teacherModuleElements s) (students s) (studentGroups s)
    (studentGroupAssignments s) (sessions s) (absences s) (nextIds s).
Definition set_teacherModuleElements (m : list (Z * Obj)) (s : MemStorage)
  : MemStorage :=
  mkMemStorage (users s) (departments s) (courses s) (modules s)
    (moduleElements s) m (students s) (studentGroups s)
    (studentGroupAssignments s) (sessions s) (absences s) (nextIds s).
Definition set_students (m : list (Z * Obj)) (s : MemStorage) : MemStorage :=
  mkMemStorage (users s) (departments s) (courses s) (modules s)
    (moduleElements s) (teacherModuleElements s) m (studentGroups s)
    (studentGroupAssignments s) (sessions s) (absences s) (nextIds s).
Definition set_studentGroups (m : list (Z * Obj)) (s : MemStorage)
  : MemStorage :=
  mkMemStorage (users s) (departments s) (courses s) (modules s)
    (moduleElements s) (teacherModuleElements s) (students s) m
    (studentGroupAssignments s) (sessions s) (absences s) (nextIds s).
Definition set_studentGroupAssignments (m : list (Z * Obj)) (s : MemStorage)
  : MemStorage :=
  mkMemStorage (users s) (departments s) (courses s) (modules s)
    (moduleElements s) (teacherModuleElements s) (students s)
    (studentGroups s) m (sessions s) (absences s) (nextIds s).
Definition set_sessions (m : list (Z * Obj)) (s : MemStorage) : MemStorage :=
  mkMemStorage (users s) (departments s) (courses s) (modules s)
    (moduleElements s) (teacherModuleElements s) (students s)
    (studentGroups s) (studentGroupAssignments s) m (absences s) (nextIds s).
Definition set_absences (m : list (Z * Obj)) (s : MemStorage) : MemStorage :=
  mkMemStorage (users s) (departments s) (courses s) (modules s)
    (moduleElements s) (teacherModuleElements s) (students s)
    (studentGroups s) (studentGroupAssignments s) (sessions s) m (nextIds s).

Definition set_nextIds (i : NextIds) (s : MemStorage) : MemStorage :=
  mkMemStorage (users s) (departments s) (courses s) (modules s)
    (moduleElements s) (teacherModuleElements s) (students s)
    (studentGroups s) (studentGroupAssignments s) (sessions s) (absences s)
    i.

(** *** User operations *)

Definition getUser (id : Z) (s : MemStorage) : option Obj :=
  map_get id (users s).

Definition getUserByUsername (username : string) (s : MemStorage)
  : option Obj :=
  find (λ user, strict_eq (field user "username") (Some (VStr username)))
    (map_values (users s)).

Definition createUser (user : Obj) (s : MemStorage) : Obj * MemStorage :=
  let id := next_users (nextIds s) in
  let s := set_nextIds (set_next_users (id + 1) (nextIds s)) s in
  let newUser := with_id user id in
  (newUser, set_users (map_set id newUser (users s)) s).

Definition updateUser (id : Z) (user : Obj) (s : MemStorage)
  : option Obj * MemStorage :=
  match map_get id (users s) with
  | None => (None, s)
  | Some existingUser =>
      let updatedUser := spread existingUser user in
      (Some updatedUser,
       set_users (map_set id updatedUser (users s)) s)
  end.

Definition deleteUser (id : Z) (s : MemStorage) : bool * MemStorage :=
  let (found, m) := map_delete id (users s) in
  (found, set_users m s).

Definition listUsers (s : MemStorage) : list Obj :=
  map_values (users s).

(** *** Department operations *)

Definition getDepartment (id : Z) (s : MemStorage) : option Obj :=
  map_get id (departments s).

Definition createDepartment (department : Obj) (s : MemStorage)
  : Obj * MemStorage :=
  let id := next_departments (nextIds s) in
  let s := set_nextIds (set_next_departments (id + 1) (nextIds s)) s in
  let newDepartment := with_id department id in
  (newDepartment, set_departments (map_set id newDepartment (departments s)) s).

Definition updateDepartment (id : Z) (department : Obj) (s : MemStorage)
  : option Obj * MemStorage :=
  match map_get id (departments s) with
  | None => (None, s)
  | Some existingDepartment =>
      let updatedDepartment := spread existingDepartment department in
      (Some updatedDepartment,
       set_departments (map_set id updatedDepartment (departments s)) s)
  end.

Definition deleteDepartment (id : Z) (s : MemStorage) : bool * MemStorage :=
  let (found, m) := map_delete id (departments s) in
  (found, set_departments m s).

Definition listDepartments (s : MemStorage) : list Obj :=
  map_values (departments s).

(** *** Course operations *)

Definition getCourse (id : Z) (s : MemStorage) : option Obj :=
  map_get id (courses s).

Definition createCourse (course : Obj) (s : MemStorage) : Obj * MemStorage :=
  let id := next_courses (nextIds s) in
  let s := set_nextIds (set_next_courses (id + 1) (nextIds s)) s in
  let newCourse := with_id course id in
  (newCourse, set_courses (map_set id newCourse (courses s)) s).

Definition updateCourse (id : Z) (course : Obj) (s : MemStorage)
  : option Obj * MemStorage :=
  match map_get id (courses s) with
  | None => (None, s)
  | Some existingCourse =>
      let updatedCourse := spread existingCourse course in
      (Some updatedCourse,
       set_courses (map_set id updatedCourse (courses s)) s)
  end.

Definition deleteCourse (id : Z) (s : MemStorage) : bool * MemStorage :=
  let (found, m) := map_delete id (courses s) in
  (found, set_courses m s).

Definition listCourses (s : MemStorage) : list Obj :=
  map_values (courses s).

Definition listCoursesByDepartment (departmentId : Z) (s : MemStorage)
  : list Obj :=
  List.filter
    (λ course,
       strict_eq (field course "departmentId") (Some (VNum departmentId)))
    (map_values (courses s)).

(** *** Module operations *)

Definition getModule (id : Z) (s : MemStorage) : option Obj :=
  map_get id (modules s).

Definition createModule (module : Obj) (s : MemStorage) : Obj * MemStorage :=
  let id := next_modules (nextIds s) in
  let s := set_nextIds (set_next_modules (id + 1) (nextIds s)) s in
  let newModule := with_id module id in
  (newModule, set_modules (map_set id newModule (modules s)) s).

Definition updateModule (id : Z) (module : Obj) (s : MemStorage)
  : option Obj * MemStorage :=
  match map_get id (modules s) with
  | None => (None, s)
  | Some existingModule =>
      let updatedModule := spread existingModule module in
      (Some updatedModule,
       set_modules (map_set id updatedModule (modules s)) s)
  end.

Definition deleteModule (id : Z) (s : MemStorage) : bool * MemStorage :=
  let (found, m) := map_delete id (modules s) in
  (found, set_modules m s).

Definition listModules (s : MemStorage) : list Obj :=
  map_values (modules s).

Definition listModulesByCourse (courseId : Z) (s : MemStorage) : list Obj :=
  List.filter
    (λ module, strict_eq (field module "courseId") (Some (VNum courseId)))
    (map_values (modules s)).

(** *** Module element operations *)

Definition getModuleElement (id : Z) (s : MemStorage) : option Obj :=
  map_get id (moduleElements s).

Definition createModuleElement (moduleElement : Obj) (s : MemStorage)
  : Obj * MemStorage :=
  let id := next_moduleElements (nextIds s) in
  let s := set_nextIds (set_next_moduleElements (id + 1) (nextIds s)) s in
  let newModuleElement := with_id moduleElement id in
  (newModuleElement,
   set_moduleElements (map_set id newModuleElement (moduleElements s)) s).

Definition updateModuleElement (id : Z) (moduleElement : Obj) (s : MemStorage)
  : option Obj * MemStorage :=
  match map_get id (moduleElements s) with
  | None => (None, s)
  | Some existingModuleElement =>
      let updatedModuleElement := spread existingModuleElement moduleElement in
      (Some updatedModuleElement,
       set_moduleElements
         (map_set id updatedModuleElement (moduleElements s)) s)
  end.

Definition deleteModuleElement (id : Z) (s : MemStorage) : bool * MemStorage :=
  let (found, m) := map_delete id (moduleElements s) in
  (found, set_moduleElements m s).

Definition listModuleElements (s : MemStorage) : list Obj :=
  map_values (moduleElements s).

Definition listModuleElementsByModule (moduleId : Z) (s : MemStorage)
  : list Obj :=
  List.filter
    (λ element, strict_eq (field element "moduleId") (Some (VNum moduleId)))
    (map_values (moduleElements s)).

(** *** Teacher / module element assignments *)

Definition assignTeacherToModuleElement (assignment : Obj) (s : MemStorage)
  : Obj * MemStorage :=
  let id := next_teacherModuleElements (nextIds s) in
  let s :=
    set_nextIds (set_next_teacherModuleElements (id + 1) (nextIds s)) s in
  let newAssignment := with_id assignment id in
  (newAssignment,
   set_teacherModuleElements
     (map_set id newAssignment (teacherModuleElements s)) s).

Definition removeTeacherFromModuleElement (teacherId moduleElementId : Z)
    (s : MemStorage) : bool * MemStorage :=
  let assignment :=
    find (λ a, strict_eq (field a "teacherId") (Some (VNum teacherId))
               && strict_eq (field a "moduleElementId")
                    (Some (VNum moduleElementId)))
      (map_values (teacherModuleElements s)) in
  match assignment with
  | None => (false, s)
  | Some assignment =>
      match field assignment "id" with
      | Some (VNum id) =>
          let (found, m) := map_delete id (teacherModuleElements s) in
          (found, set_teacherModuleElements m s)
      | _ => (false, s)
      end
  end.

Definition listTeacherModuleElements (teacherId : Z) (s : MemStorage)
  : list Obj :=
  List.filter
    (λ assignment,
       strict_eq (field assignment "teacherId") (Some (VNum teacherId)))
    (map_values (teacherModuleElements s)).

(** *** Student operations *)

Definition getStudent (id : Z) (s : MemStorage) : option Obj :=
  map_get id (students s).

Definition createStudent (student : Obj) (s : MemStorage)
  : Obj * MemStorage :=
  let id := next_students (nextIds s) in
  let s := set_nextIds (set_next_students (id + 1) (nextIds s)) s in
  let newStudent := with_id student id in
  (newStudent, set_students (map_set id newStudent (students s)) s).

Definition updateStudent (id : Z) (student : Obj) (s : MemStorage)
  : option Obj * MemStorage :=
  match map_get id (students s) with
  | None => (None, s)
  | Some existingStudent =>
      let updatedStudent := spread existingStudent student in
      (Some updatedStudent,
       set_students (map_set id updatedStudent (students s)) s)
  end.

Definition deleteStudent (id : Z) (s : MemStorage) : bool * MemStorage :=
  let (found, m) := map_delete id (students s) in
  (found, set_students m s).

Definition listStudents (s : MemStorage) : list Obj :=
  map_values (students s).

Definition listStudentsByCourse (courseId : Z) (s : MemStorage) : list Obj :=
  List.filter
    (λ student, strict_eq (field student "courseId") (Some (VNum courseId)))
    (map_values (students s)).

(** *** Student group operations *)

Definition getStudentGroup (id : Z) (s : MemStorage) : option Obj :=
  map_get id (studentGroups s).

Definition createStudentGroup (group : Obj) (s : MemStorage)
  : Obj * MemStorage :=
  let id := next_studentGroups (nextIds s) in
  let s := set_nextIds (set_next_studentGroups (id + 1) (nextIds s)) s in
  let newGroup := with_id group id in
  (newGroup, set_studentGroups (map_set id newGroup (studentGroups s)) s).

Definition updateStudentGroup (id : Z) (group : Obj) (s : MemStorage)
  : option Obj * MemStorage :=
  match map_get id (studentGroups s) with
  | None => (None, s)
  | Some existingGroup =>
      let updatedGroup := spread existingGroup group in
      (Some updatedGroup,
       set_studentGroups (map_set id updatedGroup (studentGroups s)) s)
  end.

Definition deleteStudentGroup (id : Z) (s : MemStorage) : bool * MemStorage :=
  let (found, m) := map_delete id (studentGroups s) in
  (found, set_studentGroups m s).

Definition listStudentGroups (s : MemStorage) : list Obj :=
  map_values (studentGroups s).

Definition listStudentGroupsByCourse (courseId : Z) (s : MemStorage)
  : list Obj :=
  List.filter
    (λ group, strict_eq (field group "courseId") (Some (VNum courseId)))
    (map_values (studentGroups s)).

(** *** Student / group assignments *)

Definition assignStudentToGroup (assignment : Obj) (s : MemStorage)
  : Obj * MemStorage :=
  let id := next_studentGroupAssignments (nextIds s) in
  let s :=
    set_nextIds (set_next_studentGroupAssignments (id + 1) (nextIds s)) s in
  let newAssignment := with_id assignment id in
  (newAssignment,
   set_studentGroupAssignments
     (map_set id newAssignment (studentGroupAssignments s)) s).

Definition removeStudentFromGroup (studentId groupId : Z) (s : MemStorage)
  : bool * MemStorage :=
  let assignment :=
    find (λ a, strict_eq (field a "studentId") (Some (VNum studentId))
               && strict_eq (field a "groupId") (Some (VNum groupId)))
      (map_values (studentGroupAssignments s)) in
  match assignment with
  | None => (false, s)
  | Some assignment =>
      match field assignment "id" with
      | Some (VNum id) =>
          let (found, m) := map_delete id (studentGroupAssignments s) in
          (found, set_studentGroupAssignments m s)
      | _ => (false, s)
      end
  end.

Definition listStudentGroupAssignments (groupId : Z) (s : MemStorage)
  : list Obj :=
  List.filter
    (λ assignment,
       strict_eq (field assignment "groupId") (Some (VNum groupId)))
    (map_values (studentGroupAssignments s)).

Definition listStudentsByGroup (groupId : Z) (s : MemStorage) : list Obj :=
  let assignments := listStudentGroupAssignments groupId s in
  let studentIds :=
    map (λ assignment, field assignment "studentId") assignments in
  List.filter (λ student, includes studentIds (field student "id"))
    (map_values (students s)).

(** *** Session operations *)

Definition getSession (id : Z) (s : MemStorage) : option Obj :=
  map_get id (sessions s).

Definition createSession (session : Obj) (s : MemStorage)
  : Obj * MemStorage :=
  let id := next_sessions (nextIds s) in
  let s := set_nextIds (set_next_sessions (id + 1) (nextIds s)) s in
  let newSession := with_id session id in
  (newSession, set_sessions (map_set id newSession (sessions s)) s).

Definition updateSession (id : Z) (session : Obj) (s : MemStorage)
  : option Obj * MemStorage :=
  match map_get id (sessions s) with
  | None => (None, s)
  | Some existingSession =>
      let updatedSession := spread existingSession session in
      (Some updatedSession,
       set_sessions (map_set id updatedSession (sessions s)) s)
  end.

Definition deleteSession (id : Z) (s : MemStorage) : bool * MemStorage :=
  let (found, m) := map_delete id (sessions s) in
  (found, set_sessions m s).

Definition listSessions (s : MemStorage) : list Obj :=
  map_values (sessions s).

Definition listSessionsByTeacher (teacherId : Z) (s : MemStorage)
  : list Obj :=
  List.filter
    (λ session, strict_eq (field session "teacherId") (Some (VNum teacherId)))
    (map_values (sessions s)).

Definition listSessionsByModuleElement (moduleElementId : Z) (s : MemStorage)
  : list Obj :=
  List.filter
    (λ session,
       strict_eq (field session "moduleElementId")
         (Some (VNum moduleElementId)))
    (map_values (sessions s)).

(** *** Absence operations *)

Definition getAbsence (id : Z) (s : MemStorage) : option Obj :=
  map_get id (absences s).

Definition createAbsence (absence : Obj) (s : MemStorage)
  : Obj * MemStorage :=
  let id := next_absences (nextIds s) in
  let s := set_nextIds (set_next_absences (id + 1) (nextIds s)) s in
  let newAbsence := with_id absence id in
  (newAbsence, set_absences (map_set id newAbsence (absences s)) s).

Definition updateAbsence (id : Z) (absence : Obj) (s : MemStorage)
  : option Obj * MemStorage :=
  match map_get id (absences s) with
  | None => (None, s)
  | Some existingAbsence =>
      let updatedAbsence := spread existingAbsence absence in
      (Some updatedAbsence,
       set_absences (map_set id updatedAbsence (absences s)) s)
  end.

Definition deleteAbsence (id : Z) (s : MemStorage) : bool * MemStorage :=
  let (found, m) := map_delete id (absences s) in
  (found, set_absences m s).

Definition listAbsences (s : MemStorage) : list Obj :=
  map_values (absences s).

Definition listAbsencesBySession (sessionId : Z) (s : MemStorage)
  : list Obj :=
  List.filter
    (λ absence, strict_eq (field absence "sessionId") (Some (VNum sessionId)))
    (map_values (absences s)).

Definition listAbsencesByStudent (studentId : Z) (s : MemStorage)
  : list Obj :=
  List.filter
    (λ absence, strict_eq (field absence "studentId") (Some (VNum studentId)))
    (map_values (absences s)).



(** [batchCreateAbsences]: the [for ... of] loop, with the array
    [createdAbsences] it pushes to. *)
Fixpoint batchCreateAbsences_loop (absences createdAbsences : list Obj)
    (s : MemStorage) : list Obj * MemStorage :=
  match absences with
  | [] => (createdAbsences, s)
  | absence :: rest =>
      let (createdAbsence, s) := createAbsence absence s in
      batchCreateAbsences_loop rest (createdAbsences ++ [createdAbsence]) s
  end.

Definition batchCreateAbsences (absences : list Obj) (s : MemStorage)
  : list Obj * MemStorage :=
  batchCreateAbsences_loop absences [] s.

(** *** The constructor *)

(** The fields as the first two blocks of the constructor leave them: empty
    maps, every counter at 1. *)
Definition fresh : MemStorage :=
  mkMemStorage [] [] [] [] [] [] [] [] [] [] []
    (mkNextIds 1 1 1 1 1 1 1 1 1 1 1).

Definition admin_user : Obj :=
  list_to_map [("username", VStr "admin"); ("password", VStr "admin");
               ("fullName", VStr "Administrator");
               ("email", VStr "admin@example.com"); ("role", VStr "admin")].

Definition teacher_user : Obj :=
  list_to_map [("username", VStr "teacher"); ("password", VStr "teacher");
               ("fullName", VStr "Teacher");
               ("email", VStr "teacher@example.com");
               ("role", VStr "teacher")].

Definition head_user : Obj :=
  list_to_map [("username", VStr "head_d"); ("password", VStr "head_d");
               ("fullName", VStr "Department Head");
               ("email", VStr "head_d@example.com");
               ("role", VStr "departmentHead")].

(** [new MemStorage()] *)
Definition new_MemStorage : MemStorage :=
  let s := fresh in
  let (_, s) := createUser admin_user s in
  let (_, s) := createUser teacher_user s in
  let (_, s) := createUser head_user s in
  s.

End Storage.

Import Storage.

(** ** [GET /api/statistics/top-absentees] of [server/routes.ts] *)

Module Routes.

(** The value of [parseInt(req.query.limit, 10)]. *)
Inductive Parsed : Type :=
  | NaN
  | Int (n : Z).

(** [req.query.limit ? parseInt(req.query.limit, 10) : 5]; the argument is
    [None] when the query has no (or an empty) [limit]. *)
Definition limit_of (query_limit : option Parsed) : Parsed :=
  match query_limit with
  | Some p => p
  | None => Int 5
  end.

(** [v || 0] for the count read back from the grouping map. *)
Definition or_zero (v : option Z) : Z :=
  match v with
  | Some c => if c =? 0 then 0 else c
  | None => 0
  end.

(** The loop that fills [absencesByStudent]. *)
Definition count_step (absencesByStudent : list (option Val * Z))
    (absence : Obj) : list (option Val * Z) :=
  if strict_eq (field absence "status") (Some (VStr "absent")) then
    let count := or_zero (map_get (field absence "studentId")
                                  absencesByStudent) in
    map_set (field absence "studentId") (count + 1) absencesByStudent
  else absencesByStudent.

Definition absencesByStudent (absences : list Obj)
  : list (option Val * Z) :=
  fold_left count_step absences [].

(** The objects of the response. *)
Record Absentee : Type := mkAbsentee {
  studentId : option Val;
  studentName : string;
  absenceCount : Z
}.

Definition to_absentee (students : list Obj) (entry : option Val * Z)
  : Absentee :=
  let (studentId, count) := entry in
  let student := find (λ s, strict_eq (field s "id") studentId) students in
  mkAbsentee studentId
    (match student with
     | Some student =>
         to_string (field student "firstName") +:+ " "
           +:+ to_string (field student "lastName")
     | None => "Unknown"
     end)
    count.

(** [xs.sort(cmp)].  The sort of an array is stable, and for a comparator
    that is a total preorder the stable arrangement is unique; it is
    computed here by insertion from the right. *)
Fixpoint sort_insert {A} (cmp : A → A → Z) (x : A) (l : list A) : list A :=
  match l with
  | [] => [x]
  | y :: l' => if cmp x y <=? 0 then x :: l else y :: sort_insert cmp x l'
  end.

Definition sort {A} (cmp : A → A → Z) (l : list A) : list A :=
  foldr (sort_insert cmp) [] l.

(** [xs.slice(0, end)]: NaN counts as 0 and a negative [end] is taken from
    the end of the array. *)
Definition slice0 {A} (end_ : Parsed) (xs : list A) : list A :=
  let len := Z.of_nat (length xs) in
  let e := match end_ with NaN => 0 | Int n => n end in
  let final := if e <? 0 then Z.max (len + e) 0 else Z.min e len in
  take (Z.to_nat final) xs.

(** [Array.from(absencesByStudent.entries()).map(...).sort(...)]: the
    array before [slice]. *)
Definition ranked (absences students : list Obj) : list Absentee :=
  sort (λ a b, absenceCount b - absenceCount a)
    (map (to_absentee students)
       (map_entries (absencesByStudent absences))).

(** The array sent by the handler, from the query parameter and the two
    lists read from the storage. *)
Definition topAbsentees (query_limit : option Parsed)
    (absences students : list Obj) : list Absentee :=
  let limit := limit_of query_limit in
  slice0 limit (ranked absences students).

Definition handler (query_limit : option Parsed) (s : MemStorage)
  : list Absentee :=
  topAbsentees query_limit (listAbsences s) (listStudents s).

(** *** Authentication and the role guards *)

(** What the guards read of a request: the answer of
    [req.isAuthenticated()] and [req.user]. *)
Record Request : Type := mkRequest {
  req_isAuthenticated : bool;
  req_user : option Obj
}.

(** A guard calls [next()] or answers with a status and a message. *)
Inductive Outcome : Type :=
  | Next
  | Reject (status : Z) (message : string).

Definition isAuthenticated (req : Request) : Outcome :=
  if req_isAuthenticated req then Next else Reject 401 "Unauthorized".

Definition isAdmin (req : Request) : Outcome :=
  if req_isAuthenticated req
     && match req_user req with
        | Some user => strict_eq (field user "role") (Some (VStr "admin"))
        | None => false
        end
  then Next
  else Reject 403 "Forbidden - Admin access required".

Definition isDepartmentHead (req : Request) : Outcome :=
  if req_isAuthenticated req
     && match req_user req with
        | Some user =>
            strict_eq (field user "role") (Some (VStr "departmentHead"))
            || strict_eq (field user "role") (Some (VStr "admin"))
        | None => false
        end
  then Next
  else Reject 403 "Forbidden - Department Head access required".

Definition isTeacher (req : Request) : Outcome :=
  if req_isAuthenticated req
     && match req_user req with
        | Some user =>
            strict_eq (field user "role") (Some (VStr "teacher"))
            || strict_eq (field user "role") (Some (VStr "departmentHead"))
            || strict_eq (field user "role") (Some (VStr "admin"))
        | None => false
        end
  then Next
  else Reject 403 "Forbidden - Teacher access required".

(** The routes registered by [registerRoutes], in order, each with the
    guard given between its path and its handler. *)
Inductive Method : Type := GET | POST | PUT | DELETE.

Inductive Guard : Type :=
  | Open | Authenticated | Teacher | DepartmentHead | Admin.

#[global] Instance Method_eq_dec : EqDecision Method.
Proof. solve_decision. Defined.

#[global] Instance Guard_eq_dec : EqDecision Guard.
Proof. solve_decision. Defined.

Definition routes : list (Method * string * Guard) :=
  [
   (POST, "/api/auth/login", Open);
   (POST, "/api/auth/logout", Open);
   (GET, "/api/auth/session", Open);
   (GET, "/api/users", Admin);
   (POST, "/api/users", Admin);
   (GET, "/api/users/:id", Admin);
   (PUT, "/api/users/:id", Admin);
   (DELETE, "/api/users/:id", Admin);
   (GET, "/api/departments", Authenticated);
   (POST, "/api/departments", Admin);
   (GET, "/api/departments/:id", Authenticated);
   (PUT, "/api/departments/:id", Admin);
   (DELETE, "/api/departments/:id", Admin);
   (GET, "/api/courses", Authenticated);
   (POST, "/api/courses", Admin);
   (GET, "/api/courses/:id", Authenticated);
   (PUT, "/api/courses/:id", Admin);
   (DELETE, "/api/courses/:id", Admin);
   (GET, "/api/modules", Authenticated);
   (POST, "/api/modules", Admin);
   (GET, "/api/modules/:id", Authenticated);
   (PUT, "/api/modules/:id", Admin);
   (DELETE, "/api/modules/:id", Admin);
   (GET, "/api/module-elements", Authenticated);
   (POST, "/api/module-elements", Admin);
   (GET, "/api/module-elements/:id", Authenticated);
   (PUT, "/api/module-elements/:id", Admin);
   (DELETE, "/api/module-elements/:id", Admin);
   (POST, "/api/teacher-module-elements", Admin);
   (DELETE, "/api/teacher-module-elements", Admin);
   (GET, "/api/teacher-module-elements", Authenticated);
   (GET, "/api/students", Authenticated);
   (POST, "/api/students", Admin);
   (GET, "/api/students/:id", Authenticated);
   (PUT, "/api/students/:id", Admin);
   (DELETE, "/api/students/:id", Admin);
   (GET, "/api/student-groups", Authenticated);
   (POST, "/api/student-groups", DepartmentHead);
   (GET, "/api/student-groups/:id", Authenticated);
   (PUT, "/api/student-groups/:id", DepartmentHead);
   (DELETE, "/api/student-groups/:id", DepartmentHead);
   (POST, "/api/student-group-assignments", DepartmentHead);
   (DELETE, "/api/student-group-assignments", DepartmentHead);
   (GET, "/api/student-groups/:groupId/students", Authenticated);
   (GET, "/api/sessions", Teacher);
   (POST, "/api/sessions", Teacher);
   (GET, "/api/sessions/:id", Teacher);
   (PUT, "/api/sessions/:id", Teacher);
   (DELETE, "/api/sessions/:id", Teacher);
   (GET, "/api/absences", Authenticated);
   (POST, "/api/absences", Teacher);
   (POST, "/api/absences/batch", Teacher);
   (GET, "/api/absences/:id", Authenticated);
   (PUT, "/api/absences/:id", Teacher);
   (DELETE, "/api/absences/:id", Teacher);
   (GET, "/api/statistics", Authenticated);
   (GET, "/api/statistics/top-absentees", Authenticated);
   (GET, "/api/statistics/recent-activities", Authenticated)
  ].

Definition guard (g : Guard) (req : Request) : Outcome :=
  match g with
  | Open => Next
  | Authenticated => isAuthenticated req
  | Teacher => isTeacher req
  | DepartmentHead => isDepartmentHead req
  | Admin => isAdmin req
  end.

(** The verify callback of the local strategy: [done(null, user)] or
    [done(null, false, { message })]. *)
Inductive Verdict : Type :=
  | Done (user : Obj)
  | Failed (message : string).

Definition verify (username password : string) (s : MemStorage) : Verdict :=
  match getUserByUsername username s with
  | None => Failed "Invalid username"
  | Some user =>
      if negb (strict_eq (field user "password") (Some (VStr password)))
      then Failed "Invalid password"
      else Done user
  end.

(** *** Responses *)

(** A property of an object literal in a JSON response: a value that is
    [undefined] leaves the key out. *)
Definition property (k : string) (v : option Val) (o : Obj) : Obj :=
  match v with
  | Some v => <[k := v]> o
  | None => o
  end.

(** The object every user route answers with:
    [{ id, username, fullName, email, role, departmentId }]. *)
Definition public_user (user : Obj) : Obj :=
  property "id" (field user "id")
    (property "username" (field user "username")
       (property "fullName" (field user "fullName")
          (property "email" (field user "email")
             (property "role" (field user "role")
                (property "departmentId" (field user "departmentId") ∅))))).

Inductive Body : Type :=
  | Message (message : string)
  | One (o : Obj)
  | Many (l : list Obj).

Record Response : Type := mkResponse {
  status : Z;
  body : Body
}.

(** [res.json(x)] answers with status 200. *)
Definition json (b : Body) : Response := mkResponse 200 b.

Definition guarded (g : Outcome) (handler : Response) : Response :=
  match g with
  | Next => handler
  | Reject status message => mkResponse status (Message message)
  end.

(** [storage.get...(id)] and [storage.delete...(id)] with the [id] that
    [parseInt(req.params.id, 10)] gave: no key of a [Map] of the storage is
    NaN. *)
Definition get_by (get : Z → MemStorage → option Obj) (id : Parsed)
    (s : MemStorage) : option Obj :=
  match id with
  | Int n => get n s
  | NaN => None
  end.

Definition delete_by (delete : Z → MemStorage → bool * MemStorage)
    (id : Parsed) (s : MemStorage) : bool * MemStorage :=
  match id with
  | Int n => delete n s
  | NaN => (false, s)
  end.

(** [GET /api/users] *)
Definition get_users (req : Request) (s : MemStorage) : Response :=
  guarded (isAdmin req) (json (Many (map public_user (listUsers s)))).

(** [GET /api/users/:id] *)
Definition get_user (req : Request) (id : Parsed) (s : MemStorage)
  : Response :=
  guarded (isAdmin req)
    (match get_by getUser id s with
     | None => mkResponse 404 (Message "User not found")
     | Some user => json (One (public_user user))
     end).

(** [DELETE /api/users/:id] *)
Definition delete_user (req : Request) (id : Parsed) (s : MemStorage)
  : Response * MemStorage :=
  match isAdmin req with
  | Reject status message => (mkResponse status (Message message), s)
  | Next =>
      let (success, s') := delete_by deleteUser id s in
      if negb success
      then (mkResponse 404 (Message "User not found"), s')
      else (json (Message "User deleted successfully"), s')
  end.

(** A numeric query parameter, [req.query.x ? parseInt(req.query.x, 10) :
    undefined], as the handlers test it with [if (x)]: [Some n] when the
    parameter is there and parses to a number other than 0. *)
Definition query_id (x : option Parsed) : option Z :=
  match x with
  | Some (Int n) => if n =? 0 then None else Some n
  | Some NaN => None
  | None => None
  end.

(** [GET /api/courses] *)
Definition get_courses (req : Request) (departmentId : option Parsed)
    (s : MemStorage) : Response :=
  guarded (isAuthenticated req)
    (json (Many
       (match query_id departmentId with
        | Some departmentId => listCoursesByDepartment departmentId s
        | None => listCourses s
        end))).

(** [GET /api/sessions] *)
Definition get_sessions (req : Request)
    (teacherId moduleElementId : option Parsed) (s : MemStorage)
  : Response :=
  guarded (isTeacher req)
    (json (Many
       (match query_id teacherId, query_id moduleElementId with
        | Some teacherId, _ => listSessionsByTeacher teacherId s
        | None, Some moduleElementId =>
            listSessionsByModuleElement moduleElementId s
        | None, None => listSessions s
        end))).

(** [GET /api/absences] *)
Definition get_absences (req : Request) (sessionId studentId : option Parsed)
    (s : MemStorage) : Response :=
  guarded (isAuthenticated req)
    (json (Many
       (match query_id sessionId, query_id studentId with
        | Some sessionId, _ => listAbsencesBySession sessionId s
        | None, Some studentId => listAbsencesByStudent studentId s
        | None, None => listAbsences s
        end))).

(** [GET /api/statistics]: the six counts of the answer. *)
Record Statistics : Type := mkStatistics {
  studentsCount : nat;
  departmentsCount : nat;
  coursesCount : nat;
  teachersCount : nat;
  modulesCount : nat;
  absencesCount : nat
}.

Definition statistics (s : MemStorage) : Statistics :=
  mkStatistics
    (length (listStudents s))
    (length (listDepartments s))
    (length (listCourses s))
    (length (List.filter
               (λ user, strict_eq (field user "role") (Some (VStr "teacher")))
               (listUsers s)))
    (length (listModules s))
    (length (listAbsences s)).

(** The three routes of [/api/auth], and the test that a path lies under
    [/api/sessions] or [/api/absences]. *)
Definition auth_paths : list string :=
  ["/api/auth/login"; "/api/auth/logout"; "/api/auth/session"].

Definition attendance_path (path : string) : bool :=
  String.prefix "/api/sessions" path || String.prefix "/api/absences" path.

(** What the table of routes says of one entry: only the routes of
    [/api/auth] are open, and every other route that is not a [GET] asks
    for a role, the teacher role sufficing only for sessions and
    absences. *)
Definition entry_guarded (entry : Method * string * Guard) : bool :=
  let '(m, path, g) := entry in
  bool_decide (g = Open ↔ path ∈ auth_paths)
  && (bool_decide (m = GET) || bool_decide (g ≠ Authenticated))
  && (bool_decide (m = GET) || bool_decide (g ≠ Teacher)
      || attendance_path path).

(** The keys of the object the user routes answer with. *)
Definition public_fields : list string :=
  ["id"; "username"; "fullName"; "email"; "role"; "departmentId"].

End Routes.

(** ** The threshold report of [AbsenceReports.tsx] *)

Module AbsenceReports.

(** The interfaces declared at the top of the page. *)
Module Course.
Record t : Type := mk {
  id : Z;
  name : string;
  code : string;
  departmentId : Z;
  absenceThreshold : option Z
}.
End Course.

Module Student.
Record t : Type := mk {
  id : Z;
  studentId : string;
  firstName : string;
  lastName : string;
  email : string;
  courseId : Z
}.
End Student.

Module Absence.
Record t : Type := mk {
  id : Z;
  sessionId : Z;
  studentId : Z;
  status : string;
  notes : option string
}.
End Absence.

(** [ABSENCE_STATUSES.ABSENT] of the shared constants. *)
Definition ABSENT : string := "absent".

(** [!n] and [n || d] for an optional number. *)
Definition falsy (n : option Z) : bool :=
  match n with
  | Some n => n =? 0
  | None => true
  end.

Definition or_else (n : option Z) (d : Z) : Z :=
  if falsy n then d else default d n.

(** [getStudentAbsences]; [absences] is [None] while the query has no
    data. *)
Definition getStudentAbsences (absences : option (list Absence.t))
    (studentId : Z) : Z :=
  match absences with
  | Some absences =>
      Z.of_nat (length (List.filter
        (λ absence, bool_decide (Absence.studentId absence = studentId)
                    && bool_decide (Absence.status absence = ABSENT))
        absences))
  | None => 0
  end.

(** The body of [courses?.map(course => ...)] up to the markup: [None] is
    [return null], otherwise the students listed in the card. *)
Definition studentsExceedingThreshold (students : option (list Student.t))
    (absences : option (list Absence.t)) (course : Course.t)
  : option (list Student.t) :=
  if falsy (Course.absenceThreshold course) then None
  else
    let courseStudents :=
      match students with
      | Some students =>
          List.filter
            (λ s, bool_decide (Student.courseId s = Course.id course))
            students
      | None => []
      end in
    Some (List.filter
            (λ student, getStudentAbsences absences (Student.id student)
                        >? or_else (Course.absenceThreshold course) 3)
            courseStudents).

Definition thresholdCards (courses : option (list Course.t))
    (students : option (list Student.t))
    (absences : option (list Absence.t))
  : option (list (Course.t * option (list Student.t))) :=
  match courses with
  | Some courses =>
      Some (map (λ course,
                   (course, studentsExceedingThreshold students absences
                              course))
              courses)
  | None => None
  end.

(** A student is flagged for a course when the course has a card and the
    student is listed in it. *)
Definition flagged (students : option (list Student.t))
    (absences : option (list Absence.t)) (course : Course.t)
    (student : Student.t) : Prop :=
  ∃ l, studentsExceedingThreshold students absences course = Some l
       ∧ In student l.

(** *** The filters and the charts of the page *)

(** The value of the two selects when nothing is chosen. *)
Definition ALL : string := "all".

(** [filteredCourses] and [filteredStudents]: the selected value is
    ["all"] or the [toString()] of an identifier. *)
Definition filteredCourses (courses : option (list Course.t))
    (selectedDepartment : string) : list Course.t :=
  match courses with
  | Some courses =>
      List.filter
        (λ course,
           bool_decide (selectedDepartment = ALL)
           || bool_decide (pretty (Course.departmentId course)
                           = selectedDepartment))
        courses
  | None => []
  end.

Definition filteredStudents (students : option (list Student.t))
    (selectedCourse : string) : list Student.t :=
  match students with
  | Some students =>
      List.filter
        (λ student,
           bool_decide (selectedCourse = ALL)
           || bool_decide (pretty (Student.courseId student)
                           = selectedCourse))
        students
  | None => []
  end.

(** [getCourseName] *)
Definition getCourseName (courses : option (list Course.t)) (id : Z)
  : string :=
  match courses with
  | Some courses =>
      match find (λ c, bool_decide (Course.id c = id)) courses with
      | Some course => Course.name course
      | None => "Filière inconnue"
      end
  | None => "Filière inconnue"
  end.

(** [Math.max(...xs)] on integers: the maximum of no number is
    [-Infinity]. *)
Inductive Num : Type :=
  | MinusInfinity
  | Finite (n : Z).

Definition math_max (xs : list Z) : Num :=
  foldr (λ x acc,
           match acc with
           | MinusInfinity => Finite x
           | Finite m => Finite (Z.max x m)
           end)
    MinusInfinity xs.

Definition highestAbsenceCount (absences : option (list Absence.t))
    (filteredStudents : list Student.t) : Num :=
  math_max (map (λ student, getStudentAbsences absences (Student.id student))
              filteredStudents).

(** [topAbsentees] of the page: the selected students by decreasing count,
    the first five. *)
Definition topAbsentees (absences : option (list Absence.t))
    (filteredStudents : list Student.t) : list Student.t :=
  Routes.slice0 (Routes.Int 5)
    (Routes.sort
       (λ a b, getStudentAbsences absences (Student.id b)
               - getStudentAbsences absences (Student.id a))
       filteredStudents).

(** [absencesByCourseData]: the [name], [absences] and [students] of each
    entry (the [ratio], a quotient formatted with [toFixed], is left
    out). *)
Record CourseData : Type := mkCourseData {
  cd_name : string;
  cd_absences : Z;
  cd_students : Z
}.

Definition courseData (students : option (list Student.t))
    (absences : option (list Absence.t)) (course : Course.t) : CourseData :=
  let courseStudents :=
    match students with
    | Some students =>
        List.filter
          (λ s, bool_decide (Student.courseId s = Course.id course))
          students
    | None => []
    end in
  let studentIds := map Student.id courseStudents in
  let absenceCount :=
    match absences with
    | Some absences =>
        Z.of_nat (length (List.filter
          (λ a, bool_decide (Absence.studentId a ∈ studentIds)
                && bool_decide (Absence.status a = ABSENT))
          absences))
    | None => 0
    end in
  mkCourseData (Course.code course) absenceCount
    (Z.of_nat (length courseStudents)).

Definition absencesByCourseData (courses : option (list Course.t))
    (students : option (list Student.t))
    (absences : option (list Absence.t)) : list CourseData :=
  match courses with
  | Some courses => map (courseData students absences) courses
  | None => []
  end.

End AbsenceReports.

(** ** The status options of [client/src/lib/constants.ts] *)

Module Constants.

Record StatusOption : Type := mkStatusOption {
  value : string;
  label : string;
  colorClass : string
}.

Definition ABSENCE_STATUS_OPTIONS : list StatusOption :=
  [mkStatusOption "present" "Présent" "text-green-700 bg-green-100";
   mkStatusOption "absent" "Absent" "text-red-700 bg-red-100";
   mkStatusOption "justified" "Absence Justifiée"
     "text-blue-700 bg-blue-100";
   mkStatusOption "unjustified" "Absence Non-Justifiée"
     "text-yellow-700 bg-yellow-100"].

Definition getStatusOption (v : string) : StatusOption :=
  match find (λ option, bool_decide (value option = v))
          ABSENCE_STATUS_OPTIONS with
  | Some option => option
  | None => mkStatusOption v v "text-gray-700 bg-gray-100"
  end.

(** [USER_ROLES] *)
Definition ADMIN : string := "admin".
Definition DEPARTMENT_HEAD : string := "departmentHead".
Definition TEACHER : string := "teacher".

(** [Object.values(ABSENCE_STATUSES)] *)
Definition ABSENCE_STATUSES : list string :=
  ["present"; "absent"; "justified"; "unjustified"].

End Constants.

(** ** The router of [client/src/App.tsx] *)

Module App.

(** The [User] of [useAuth]. *)
Record User : Type := mkUser {
  id : Z;
  username : string;
  fullName : string;
  email : string;
  role : string;
  departmentId : option Z
}.

(** What [ProtectedRoute] renders: its children, the loading indicator, the
    login form or the notice ["Accès non autorisé"]. *)
Inductive View : Type :=
  | Children
  | Loading
  | LoginForm
  | Forbidden.

Definition ProtectedRoute (isLoading previouslyAuthenticated : bool)
    (user : option User) (requiredRoles : option (list string)) : View :=
  if isLoading then
    if previouslyAuthenticated then Children else Loading
  else
    match user with
    | None => LoginForm
    | Some user =>
        match requiredRoles with
        | Some requiredRoles =>
            if negb (bool_decide (role user ∈ requiredRoles))
            then Forbidden
            else Children
        | None => Children
        end
    end.

(** The routes of [Router] that have a path, in order: the component, and
    for a protected route its [requiredRoles]. *)
Inductive Route : Type :=
  | Public (component : string)
  | Protected (component : string) (requiredRoles : option (list string)).

Definition routes : list (string * Route) :=
  [("/login", Public "LoginForm");
   ("/", Protected "Dashboard" None);
   ("/departments", Protected "DepartmentsList" (Some ["admin"]));
   ("/courses", Protected "CoursesList" (Some ["admin"]));
   ("/modules", Protected "ModulesList" (Some ["admin"]));
   ("/teachers", Protected "TeachersList" (Some ["admin"]));
   ("/students", Protected "StudentsList" (Some ["admin"]));
   ("/student-groups",
    Protected "StudentGroups" (Some ["admin"; "departmentHead"]));
   ("/absence-reports",
    Protected "AbsenceReports" (Some ["admin"; "departmentHead"]));
   ("/my-modules",
    Protected "TeacherModules" (Some ["admin"; "departmentHead"; "teacher"]));
   ("/record-absences",
    Protected "RecordAbsences" (Some ["admin"; "departmentHead"; "teacher"]));
   ("/absence-history",
    Protected "AbsenceHistory" (Some ["admin"; "departmentHead"; "teacher"]))].

End App.

(** ** The sidebar of [components/layout/Sidebar.tsx] *)

Module Sidebar.

(** The paths of the [NavItem]s rendered for a user, from top to bottom. *)
Definition navItems (user : option App.User) : list string :=
  match user with
  | None => []
  | Some user =>
      let role := App.role user in
      (if bool_decide (role = Constants.ADMIN)
       then ["/"; "/departments"; "/courses"; "/modules"; "/teachers";
             "/students"]
       else [])
      ++ (if bool_decide (role = Constants.DEPARTMENT_HEAD)
             || bool_decide (role = Constants.ADMIN)
          then (if bool_decide (role = Constants.DEPARTMENT_HEAD)
                then ["/"] else [])
               ++ ["/student-groups"; "/absence-reports"]
          else [])
      ++ (if bool_decide (role = Constants.TEACHER)
             || bool_decide (role = Constants.DEPARTMENT_HEAD)
             || bool_decide (role = Constants.ADMIN)
          then (if bool_decide (role = Constants.TEACHER)
                then ["/"] else [])
               ++ ["/my-modules"; "/record-absences"; "/absence-history"]
          else [])
  end.

End Sidebar.

(** ** [handleAbsenceRecording] of [pages/absences/RecordAbsences.tsx] *)

Module RecordAbsences.

(** [absencesData.map(absence => ({ ...absence, sessionId: session.id }))]
    as it is sent: a [sessionId] that is [undefined] is left out of the
    JSON body. *)
Definition absencesPayload (session : Obj) (absencesData : list Obj)
  : list Obj :=
  map (λ absence,
         match field session "id" with
         | Some id => <["sessionId" := id]> absence
         | None => delete "sessionId" absence
         end)
    absencesData.

End RecordAbsences.

(** ** The grouping and the status chart of
    [pages/absences/AbsenceHistory.tsx] *)

Module AbsenceHistory.

Import AbsenceReports.

(** The body of [absences?.forEach(...)]: a session seen for the first time
    gets an empty array, then the absence is pushed on the session's
    array. *)
Definition group_step (absencesBySession : list (Z * list Absence.t))
    (absence : Absence.t) : list (Z * list Absence.t) :=
  let absencesBySession :=
    if negb (map_has (Absence.sessionId absence) absencesBySession)
    then map_set (Absence.sessionId absence) [] absencesBySession
    else absencesBySession in
  match map_get (Absence.sessionId absence) absencesBySession with
  | Some l =>
      map_set (Absence.sessionId absence) (l ++ [absence]) absencesBySession
  | None => absencesBySession
  end.

Definition absencesBySession (absences : option (list Absence.t))
  : list (Z * list Absence.t) :=
  match absences with
  | Some absences => fold_left group_step absences []
  | None => []
  end.

(** [absencesBySession.get(sessionId) || []] *)
Definition getSessionAbsences (absences : option (list Absence.t))
    (sessionId : Z) : list Absence.t :=
  match map_get sessionId (absencesBySession absences) with
  | Some l => l
  | None => []
  end.

(** [absenceStatusData]: the [name] and the [value] of each slice. *)
Definition absenceStatusData (absences : option (list Absence.t))
  : list (string * Z) :=
  match absences with
  | Some absences =>
      map (λ status,
             let count :=
               Z.of_nat (length (List.filter
                 (λ absence, bool_decide (Absence.status absence = status))
                 absences)) in
             (if bool_decide (status = "present") then "Présent"
              else if bool_decide (status = "absent") then "Absent"
              else if bool_decide (status = "justified")
                   then "Absence Justifiée"
                   else "Absence Non-Justifiée",
              count))
        Constants.ABSENCE_STATUSES
  | None => []
  end.

End AbsenceHistory.

(** ** Calls and traces

    The methods that write to the store, as one transition function, so that
    properties can be stated over every collection and every sequence of
    calls.  The reading methods ([get...], [list...]) return no store: they
    leave it as it is by construction. *)

Module Trace.

(** The collections of the store. *)
Inductive Coll : Type :=
  | Users
  | Departments
  | Courses
  | Modules
  | ModuleElements
  | TeacherModuleElements
  | Students
  | StudentGroups
  | StudentGroupAssignments
  | Sessions
  | Absences.

#[global] Instance Coll_eq_dec : EqDecision Coll.
Proof. solve_decision. Defined.

Definition table (c : Coll) (s : MemStorage) : list (Z * Obj) :=
  match c with
  | Users => users s
  | Departments => departments s
  | Courses => courses s
  | Modules => modules s
  | ModuleElements => moduleElements s
  | TeacherModuleElements => teacherModuleElements s
  | Students => students s
  | StudentGroups => studentGroups s
  | StudentGroupAssignments => studentGroupAssignments s
  | Sessions => sessions s
  | Absences => absences s
  end.

Definition counter (c : Coll) (s : MemStorage) : Z :=
  match c with
  | Users => next_users (nextIds s)
  | Departments => next_departments (nextIds s)
  | Courses => next_courses (nextIds s)
  | Modules => next_modules (nextIds s)
  | ModuleElements => next_moduleElements (nextIds s)
  | TeacherModuleElements => next_teacherModuleElements (nextIds s)
  | Students => next_students (nextIds s)
  | StudentGroups => next_studentGroups (nextIds s)
  | StudentGroupAssignments => next_studentGroupAssignments (nextIds s)
  | Sessions => next_sessions (nextIds s)
  | Absences => next_absences (nextIds s)
  end.

(** A call of one of the methods of [IStorage] that write to the store,
    with its arguments. *)
Inductive Call : Type :=
  | CreateUser (user : Obj)
  | CreateDepartment (department : Obj)
  | CreateCourse (course : Obj)
  | CreateModule (module : Obj)
  | CreateModuleElement (moduleElement : Obj)
  | AssignTeacherToModuleElement (assignment : Obj)
  | CreateStudent (student : Obj)
  | CreateStudentGroup (group : Obj)
  | AssignStudentToGroup (assignment : Obj)
  | CreateSession (session : Obj)
  | CreateAbsence (absence : Obj)
  | UpdateUser (id : Z) (user : Obj)
  | UpdateDepartment (id : Z) (department : Obj)
  | UpdateCourse (id : Z) (course : Obj)
  | UpdateModule (id : Z) (module : Obj)
  | UpdateModuleElement (id : Z) (moduleElement : Obj)
  | UpdateStudent (id : Z) (student : Obj)
  | UpdateStudentGroup (id : Z) (group : Obj)
  | UpdateSession (id : Z) (session : Obj)
  | UpdateAbsence (id : Z) (absence : Obj)
  | DeleteUser (id : Z)
  | DeleteDepartment (id : Z)
  | DeleteCourse (id : Z)
  | DeleteModule (id : Z)
  | DeleteModuleElement (id : Z)
  | DeleteStudent (id : Z)
  | DeleteStudentGroup (id : Z)
  | DeleteSession (id : Z)
  | DeleteAbsence (id : Z)
  | RemoveTeacherFromModuleElement (teacherId moduleElementId : Z)
  | RemoveStudentFromGroup (studentId groupId : Z)
  | BatchCreateAbsences (absences : list Obj).

(** What a call resolves to. *)
Inductive Result : Type :=
  | RObj (o : Obj)
  | ROpt (o : option Obj)
  | RBool (b : bool)
  | RObjs (l : list Obj).

Definition exec (call : Call) (s : MemStorage) : Result * MemStorage :=
  match call with
  | CreateUser o => prod_map RObj id (createUser o s)
  | CreateDepartment o => prod_map RObj id (createDepartment o s)
  | CreateCourse o => prod_map RObj id (createCourse o s)
  | CreateModule o => prod_map RObj id (createModule o s)
  | CreateModuleElement o => prod_map RObj id (createModuleElement o s)
  | AssignTeacherToModuleElement o =>
      prod_map RObj id (assignTeacherToModuleElement o s)
  | CreateStudent o => prod_map RObj id (createStudent o s)
  | CreateStudentGroup o => prod_map RObj id (createStudentGroup o s)
  | AssignStudentToGroup o => prod_map RObj id (assignStudentToGroup o s)
  | CreateSession o => prod_map RObj id (createSession o s)
  | CreateAbsence o => prod_map RObj id (createAbsence o s)
  | UpdateUser i o => prod_map ROpt id (updateUser i o s)
  | UpdateDepartment i o => prod_map ROpt id (updateDepartment i o s)
  | UpdateCourse i o => prod_map ROpt id (updateCourse i o s)
  | UpdateModule i o => prod_map ROpt id (updateModule i o s)
  | UpdateModuleElement i o => prod_map ROpt id (updateModuleElement i o s)
  | UpdateStudent i o => prod_map ROpt id (updateStudent i o s)
  | UpdateStudentGroup i o => prod_map ROpt id (updateStudentGroup i o s)
  | UpdateSession i o => prod_map ROpt id (updateSession i o s)
  | UpdateAbsence i o => prod_map ROpt id (updateAbsence i o s)
  | DeleteUser i => prod_map RBool id (deleteUser i s)
  | DeleteDepartment i => prod_map RBool id (deleteDepartment i s)
  | DeleteCourse i => prod_map RBool id (deleteCourse i s)
  | DeleteModule i => prod_map RBool id (deleteModule i s)
  | DeleteModuleElement i => prod_map RBool id (deleteModuleElement i s)
  | DeleteStudent i => prod_map RBool id (deleteStudent i s)
  | DeleteStudentGroup i => prod_map RBool id (deleteStudentGroup i s)
  | DeleteSession i => prod_map RBool id (deleteSession i s)
  | DeleteAbsence i => prod_map RBool id (deleteAbsence i s)
  | RemoveTeacherFromModuleElement a b =>
      prod_map RBool id (removeTeacherFromModuleElement a b s)
  | RemoveStudentFromGroup a b =>
      prod_map RBool id (removeStudentFromGroup a b s)
  | BatchCreateAbsences absences =>
      prod_map RObjs id (batchCreateAbsences absences s)
  end.

(** The store after a sequence of calls. *)
Definition run (calls : list Call) (s : MemStorage) : MemStorage :=
  fold_left (λ s call, (exec call s).2) calls s.

(** The collection a call creates records in, and how many. *)
Definition creates_in (call : Call) : option Coll :=
  match call with
  | CreateUser _ => Some Users
  | CreateDepartment _ => Some Departments
  | CreateCourse _ => Some Courses
  | CreateModule _ => Some Modules
  | CreateModuleElement _ => Some ModuleElements
  | AssignTeacherToModuleElement _ => Some TeacherModuleElements
  | CreateStudent _ => Some Students
  | CreateStudentGroup _ => Some StudentGroups
  | AssignStudentToGroup _ => Some StudentGroupAssignments
  | CreateSession _ => Some Sessions
  | CreateAbsence _ => Some Absences
  | BatchCreateAbsences _ => Some Absences
  | _ => None
  end.

Definition created (c : Coll) (call : Call) : nat :=
  if decide (creates_in call = Some c) then
    match call with
    | BatchCreateAbsences absences => length absences
    | _ => 1%nat
    end
  else 0%nat.

(** The records a create call hands back to its caller. *)
Definition records (r : Result) : list Obj :=
  match r with
  | RObj o => [o]
  | RObjs l => l
  | _ => []
  end.

(** The [id] fields of the records returned by the creates of [calls] in
    collection [c], in the order of the calls. *)
Fixpoint returned_ids (c : Coll) (calls : list Call) (s : MemStorage)
  : list (option Val) :=
  match calls with
  | [] => []
  | call :: rest =>
      let (r, s') := exec call s in
      (if decide (creates_in call = Some c)
       then map (λ o, field o "id") (records r) else [])
      ++ returned_ids c rest s'
  end.

(** An update or a delete, with the collection and the identifier it
    addresses. *)
Definition as_update (call : Call) : option (Coll * Z * Obj) :=
  match call with
  | UpdateUser i o => Some (Users, i, o)
  | UpdateDepartment i o => Some (Departments, i, o)
  | UpdateCourse i o => Some (Courses, i, o)
  | UpdateModule i o => Some (Modules, i, o)
  | UpdateModuleElement i o => Some (ModuleElements, i, o)
  | UpdateStudent i o => Some (Students, i, o)
  | UpdateStudentGroup i o => Some (StudentGroups, i, o)
  | UpdateSession i o => Some (Sessions, i, o)
  | UpdateAbsence i o => Some (Absences, i, o)
  | _ => None
  end.

Definition as_delete (call : Call) : option (Coll * Z) :=
  match call with
  | DeleteUser i => Some (Users, i)
  | DeleteDepartment i => Some (Departments, i)
  | DeleteCourse i => Some (Courses, i)
  | DeleteModule i => Some (Modules, i)
  | DeleteModuleElement i => Some (ModuleElements, i)
  | DeleteStudent i => Some (Students, i)
  | DeleteStudentGroup i => Some (StudentGroups, i)
  | DeleteSession i => Some (Sessions, i)
  | DeleteAbsence i => Some (Absences, i)
  | _ => None
  end.

(** The getters, by collection ([teacherModuleElements] and
    [studentGroupAssignments] have none). *)
Definition getter (c : Coll) : option (Z → MemStorage → option Obj) :=
  match c with
  | Users => Some getUser
  | Departments => Some getDepartment
  | Courses => Some getCourse
  | Modules => Some getModule
  | ModuleElements => Some getModuleElement
  | TeacherModuleElements => None
  | Students => Some getStudent
  | StudentGroups => Some getStudentGroup
  | StudentGroupAssignments => None
  | Sessions => Some getSession
  | Absences => Some getAbsence
  end.


(** A call that creates one record, with the collection and the data. *)
Definition as_create (call : Call) : option (Coll * Obj) :=
  match call with
  | CreateUser o => Some (Users, o)
  | CreateDepartment o => Some (Departments, o)
  | CreateCourse o => Some (Courses, o)
  | CreateModule o => Some (Modules, o)
  | CreateModuleElement o => Some (ModuleElements, o)
  | AssignTeacherToModuleElement o => Some (TeacherModuleElements, o)
  | CreateStudent o => Some (Students, o)
  | CreateStudentGroup o => Some (StudentGroups, o)
  | AssignStudentToGroup o => Some (StudentGroupAssignments, o)
  | CreateSession o => Some (Sessions, o)
  | CreateAbsence o => Some (Absences, o)
  | _ => None
  end.

(** The calls that may rewrite or remove the record [id] of collection [c]:
    the update and the delete of that identifier, and, in the two assignment
    collections, any removal by pair. *)
Definition may_touch (c : Coll) (id : Z) (call : Call) : bool :=
  match call with
  | RemoveTeacherFromModuleElement _ _ =>
      bool_decide (c = TeacherModuleElements)
  | RemoveStudentFromGroup _ _ =>
      bool_decide (c = StudentGroupAssignments)
  | _ =>
      match as_update call, as_delete call with
      | Some (c', i, _), _ => bool_decide (c' = c ∧ i = id)
      | None, Some (c', i) => bool_decide (c' = c ∧ i = id)
      | None, None => false
      end
  end.

End Trace.

Import Trace.

(** ** Well-formed stores

    What the TypeScript types and the constructor guarantee and the methods
    rely on without checking. *)

Module Invariant.

(** [Partial<Insert...>] has no [id] key: an update payload cannot carry
    one. *)
Definition typed (call : Call) : Prop :=
  match as_update call with
  | Some (_, _, partial) => field partial "id" = None
  | None => True
  end.

(** A [Map] of a collection: one entry per key, every record stored under
    its own [id], every key handed out by the counter before. *)
Definition table_ok (next : Z) (m : list (Z * Obj)) : Prop :=
  1 ≤ next
  ∧ NoDup (map_keys m)
  ∧ Forall (λ e, field e.2 "id" = Some (VNum e.1) ∧ 1 ≤ e.1 < next) m.

Definition store_ok (s : MemStorage) : Prop :=
  ∀ c, table_ok (counter c s) (table c s).

(** A student record has an assignment to group [g] among [rows]: some row
    has that [groupId] and the student's [id] as [studentId]. *)
Definition assigned_to (g : Z) (rows : list Obj) (student : Obj) : Prop :=
  ∃ a, a ∈ rows
       ∧ field a "groupId" = Some (VNum g)
       ∧ field a "studentId" = field student "id".

(** The number of rows of [absences] with status ["absent"] and the given
    [studentId]. *)
Definition absent_count (studentId : option Val) (absences : list Obj) : Z :=
  Z.of_nat (length (List.filter
    (λ a, strict_eq (field a "status") (Some (VStr "absent"))
          && strict_eq (field a "studentId") studentId)
    absences)).

(** The [studentId] and [status] of a row. *)
Definition row_key (a : Obj) : option Val * option Val :=
  (field a "studentId", field a "status").

(** Every count held by the grouping map is positive. *)
Definition positive_counts (m : list (option Val * Z)) : Prop :=
  ∀ k c, map_get k m = Some c → 0 < c.

(** The entries of every [Map] are in ascending order of their keys. *)
Definition ascending (s : MemStorage) : Prop :=
  ∀ c, StronglySorted Z.lt (map_keys (table c s)).

(** The [studentId] of every row of status ["absent"], in the order of the
    rows. *)
Definition absent_students (absences : list Obj) : list (option Val) :=
  (λ a, field a "studentId") <$>
    List.filter (λ a, strict_eq (field a "status") (Some (VStr "absent")))
      absences.

(** A list without the later occurrences of its elements. *)
Definition first_occurrences (l : list (option Val)) : list (option Val) :=
  reverse (remove_dups (reverse l)).

End Invariant.

Import Invariant.

(** ** Sample data used by the examples *)

Module Sample.

Definition email_patch : Obj := {["email" := VStr "root@example.com"]}.

Definition twin (email : string) : Obj :=
  list_to_map [("username", VStr "twin"); ("password", VStr "secret");
               ("fullName", VStr "Twin"); ("email", VStr email);
               ("role", VStr "teacher")].

Definition sample_department : Obj :=
  list_to_map [("name", VStr "Sciences")].

Definition sample_course : Obj :=
  list_to_map [("name", VStr "Informatique"); ("code", VStr "INF");
               ("departmentId", VNum 1); ("absenceThreshold", VNum 3)].

Definition sample_module : Obj :=
  list_to_map [("name", VStr "Algorithmique"); ("code", VStr "ALG");
               ("courseId", VNum 1)].

Definition sample_student (number first : string) : Obj :=
  list_to_map [("studentId", VStr number); ("firstName", VStr first);
               ("lastName", VStr "Martin");
               ("email", VStr (first +:+ "@example.com"));
               ("courseId", VNum 1)].

Definition sample_group : Obj :=
  list_to_map [("name", VStr "TD1"); ("type", VStr "TD");
               ("courseId", VNum 1)].

(** A store with one department, one course, one module, three students and
    one group, all of the course 1. *)
Definition campus : MemStorage :=
  run [CreateDepartment sample_department; CreateCourse sample_course;
       CreateModule sample_module;
       CreateStudent (sample_student "E1" "Ana");
       CreateStudent (sample_student "E2" "Bo");
       CreateStudent (sample_student "E3" "Cy");
       CreateStudentGroup sample_group]
    new_MemStorage.

Definition sample_assignment (student group : Z) : Obj :=
  list_to_map [("studentId", VNum student); ("groupId", VNum group)].

(** The students 1 and 3 are in group 1, student 3 by two rows. *)
Definition campus_groups : MemStorage :=
  run [AssignStudentToGroup (sample_assignment 3 1);
       AssignStudentToGroup (sample_assignment 1 1);
       AssignStudentToGroup (sample_assignment 3 1)]
    campus.

Definition sample_absence (session student : Z) (status : string) : Obj :=
  list_to_map [("sessionId", VNum session); ("studentId", VNum student);
               ("status", VStr status)].

(** Thirteen ["absent"] rows: three for student 1, five each for the
    students 2 and 3, interleaved. *)
Definition sample_absences : list Obj :=
  (λ student, sample_absence 1 student "absent") <$>
    [3; 1; 2; 3; 2; 1; 3; 2; 3; 2; 1; 3; 2].

(** A course whose threshold is 0, a student enrolled in it, and one
    ["absent"] row of that student. *)
Definition zero_course : AbsenceReports.Course.t :=
  AbsenceReports.Course.mk 1 "Informatique" "INF" 1 (Some 0).

Definition strict_course : AbsenceReports.Course.t :=
  AbsenceReports.Course.mk 1 "Informatique" "INF" 1 (Some 3).

Definition student_a : AbsenceReports.Student.t :=
  AbsenceReports.Student.mk 1 "E1" "Ana" "Martin" "ana@example.com" 1.

Definition student_b : AbsenceReports.Student.t :=
  AbsenceReports.Student.mk 2 "E2" "Bo" "Martin" "bo@example.com" 1.

Definition absent_row (id session student : Z) : AbsenceReports.Absence.t :=
  AbsenceReports.Absence.mk id session student "absent" None.

(** Student A has four ["absent"] rows and one justified absence, student B
    three ["absent"] rows. *)
Definition term_absences : list AbsenceReports.Absence.t :=
  [absent_row 1 1 1; absent_row 2 1 2; absent_row 3 2 1; absent_row 4 2 2;
   absent_row 5 3 1; absent_row 6 3 2; absent_row 7 4 1;
   AbsenceReports.Absence.mk 8 5 1 "justified" None].

(** The scenario of the specification: a course with threshold 2, two
    students, one session, and a batch marking student 1 absent twice and
    student 2 once. *)
Definition scenario : MemStorage :=
  run [CreateCourse
         (list_to_map [("name", VStr "Informatique"); ("code", VStr "INF");
                       ("departmentId", VNum 1);
                       ("absenceThreshold", VNum 2)]);
       CreateStudent (sample_student "E1" "Ana");
       CreateStudent (sample_student "E2" "Bo");
       CreateSession
         (list_to_map [("date", VStr "2025-01-15T08:00:00.000Z");
                       ("type", VStr "course"); ("moduleElementId", VNum 1);
                       ("teacherId", VNum 2)]);
       BatchCreateAbsences
         [sample_absence 1 1 "absent"; sample_absence 1 2 "absent";
          sample_absence 1 1 "absent"]]
    new_MemStorage.

Definition sample_teaching (teacher element : Z) : Obj :=
  list_to_map [("teacherId", VNum teacher); ("moduleElementId", VNum element)].

(** The teacher 2 is assigned to the module element 7 by two rows, with a
    row of another element in between. *)
Definition campus_teaching : MemStorage :=
  run [AssignTeacherToModuleElement (sample_teaching 2 7);
       AssignTeacherToModuleElement (sample_teaching 2 8);
       AssignTeacherToModuleElement (sample_teaching 2 7)]
    campus.

(** Two accounts created with the same username and different passwords. *)
Definition first_twin : Obj :=
  list_to_map [("username", VStr "twin"); ("password", VStr "first");
               ("fullName", VStr "First"); ("email", VStr "1@example.com");
               ("role", VStr "teacher")].

Definition second_twin : Obj :=
  list_to_map [("username", VStr "twin"); ("password", VStr "second");
               ("fullName", VStr "Second"); ("email", VStr "2@example.com");
               ("role", VStr "admin")].

Definition teacher_request : Routes.Request :=
  Routes.mkRequest true (Some (with_id teacher_user 2)).

Definition admin_request : Routes.Request :=
  Routes.mkRequest true (Some (with_id admin_user 1)).


End Sample.

Import Sample.

(** * Properties *)

(** ** The [Map] model *)

Section JsMapFacts.
Context {K V : Type} `{EqDecision K}.
Implicit Types (k : K) (v : V) (m : list (K * V)).

Lemma map_get_set k k' v m :
  map_get k (map_set k' v m) = if decide (k' = k) then Some v else map_get k m.
Proof.
  induction m as [|[k0 v0] m IH]; simpl.
  - destruct (decide (k' = k)); reflexivity.
  - destruct (decide (k0 = k')) as [->|Hne]; simpl.
    + destruct (decide (k' = k)); reflexivity.
    + destruct (decide (k0 = k)) as [->|]; [|exact IH].
      destruct (decide (k' = k)); congruence.
Qed.

Lemma map_get_remove k k' m :
  map_get k (map_remove k' m) = if decide (k' = k) then None else map_get k m.
Proof.
  induction m as [|[k0 v0] m IH]; simpl.
  - destruct (decide (k' = k)); reflexivity.
  - destruct (decide (k0 = k')) as [->|Hne]; simpl.
    + rewrite IH. destruct (decide (k' = k)); reflexivity.
    + rewrite IH. destruct (decide (k0 = k)) as [->|]; [|reflexivity].
      destruct (decide (k' = k)); congruence.
Qed.

Lemma map_get_None k m : map_get k m = None ↔ k ∉ map_keys m.
Proof.
  induction m as [|[k0 v0] m IH]; simpl.
  - split; [intros _; apply not_elem_of_nil | reflexivity].
  - rewrite not_elem_of_cons. destruct (decide (k0 = k)) as [->|Hne].
    + split; [discriminate | intros [? _]; congruence].
    + rewrite IH.
      split; [intros ?; split; congruence | intros [_ ?]; assumption].
Qed.

Lemma map_get_Some_elem k v m : map_get k m = Some v → (k, v) ∈ m.
Proof.
  induction m as [|[k0 v0] m IH]; simpl; [discriminate|].
  destruct (decide (k0 = k)) as [->|Hne].
  - intros [= ->]. apply list_elem_of_here.
  - intros Hg. apply list_elem_of_further, IH, Hg.
Qed.

Lemma map_elem_get k v m :
  NoDup (map_keys m) → (k, v) ∈ m → map_get k m = Some v.
Proof.
  induction m as [|[k0 v0] m IH]; simpl.
  - intros _ Hin. apply elem_of_nil in Hin as [].
  - rewrite NoDup_cons. intros [Hk0 Hnd] Hin.
    apply elem_of_cons in Hin as [[= -> ->]|Hin].
    + rewrite decide_True; reflexivity.
    + destruct (decide (k0 = k)) as [->|Hne]; [|apply IH; assumption].
      exfalso. apply Hk0. unfold map_keys.
      apply (list_elem_of_fmap_2 fst) in Hin. exact Hin.
Qed.

Lemma map_has_false k m : map_has k m = false ↔ map_get k m = None.
Proof. unfold map_has. destruct (map_get k m); split; congruence. Qed.

Lemma map_has_true k m : map_has k m = true ↔ is_Some (map_get k m).
Proof.
  unfold map_has. destruct (map_get k m); split; try eauto; try discriminate.
  intros [? ?]; discriminate.
Qed.

(** Deleting a key that is not there leaves the entries as they are. *)
Lemma map_remove_absent k m : map_get k m = None → map_remove k m = m.
Proof.
  induction m as [|[k0 v0] m IH]; simpl; [reflexivity|].
  destruct (decide (k0 = k)); [discriminate|].
  intros Hg. rewrite IH; auto.
Qed.

(** Setting a key that is not there appends the entry. *)
Lemma map_set_fresh k v m : map_get k m = None → map_set k v m = m ++ [(k, v)].
Proof.
  induction m as [|[k0 v0] m IH]; simpl; [reflexivity|].
  destruct (decide (k0 = k)); [discriminate|].
  intros Hg. rewrite IH; auto.
Qed.

Lemma map_keys_set k v m :
  map_keys (map_set k v m) =
    if map_has k m then map_keys m else map_keys m ++ [k].
Proof.
  unfold map_has. induction m as [|[k0 v0] m IH]; simpl; [reflexivity|].
  destruct (decide (k0 = k)) as [->|Hne]; simpl; [reflexivity|].
  rewrite IH. destruct (map_get k m); reflexivity.
Qed.

Lemma map_keys_remove k m :
  map_keys (map_remove k m) =
    List.filter (λ k', bool_decide (k' ≠ k)) (map_keys m).
Proof.
  induction m as [|[k0 v0] m IH]; simpl; [reflexivity|].
  destruct (decide (k0 = k)) as [->|Hne]; simpl.
  - rewrite bool_decide_false by (intros ?; congruence). exact IH.
  - rewrite bool_decide_true by assumption. simpl. f_equal. exact IH.
Qed.

Lemma map_set_NoDup k v m :
  NoDup (map_keys m) → NoDup (map_keys (map_set k v m)).
Proof.
  intros Hnd. rewrite map_keys_set.
  destruct (map_has k m) eqn:Hh; [assumption|].
  apply map_has_false, map_get_None in Hh.
  apply NoDup_app. split_and!; [assumption| |apply NoDup_singleton].
  intros x Hx Hx'. apply list_elem_of_singleton in Hx'. subst. contradiction.
Qed.

Lemma map_remove_sublist k m : sublist (map_remove k m) m.
Proof.
  induction m as [|[k0 v0] m IH]; simpl; [constructor|].
  destruct (decide (k0 = k)); [apply sublist_cons | apply sublist_skip];
    exact IH.
Qed.

Lemma map_remove_NoDup k m :
  NoDup (map_keys m) → NoDup (map_keys (map_remove k m)).
Proof.
  intros Hnd. refine (sublist_NoDup _ _ Hnd _).
  unfold map_keys. apply (fmap_sublist fst), map_remove_sublist.
Qed.

Lemma map_remove_elem k e m : e ∈ map_remove k m ↔ e ∈ m ∧ e.1 ≠ k.
Proof.
  induction m as [|[k0 v0] m IH]; simpl.
  - split; [intros Hin; apply elem_of_nil in Hin as [] | intros [Hin _]];
      exact Hin.
  - destruct (decide (k0 = k)) as [->|Hne].
    + rewrite IH, elem_of_cons. split; [tauto|].
      intros [[->|?] Hk]; [simpl in Hk; congruence | tauto].
    + rewrite !elem_of_cons, IH. split; [|tauto].
      intros [->|[? ?]]; [split; [tauto | exact Hne] | tauto].
Qed.

(** A second [delete] of the same key finds nothing. *)
Lemma map_has_remove k m : map_has k (map_remove k m) = false.
Proof.
  apply map_has_false. rewrite map_get_remove, decide_True; reflexivity.
Qed.
End JsMapFacts.

(** ** Records and identifiers *)

Lemma field_with_id (o : Obj) (i : Z) :
  field (with_id o i) "id" = Some (VNum i).
Proof. apply lookup_insert_eq. Qed.

Lemma field_with_id_ne (o : Obj) (i : Z) (f : string) :
  f ≠ "id" → field (with_id o i) f = field o f.
Proof. intros Hf. apply lookup_insert_ne. congruence. Qed.

Lemma field_spread_l (a b : Obj) (f : string) :
  field b f = None → field (spread a b) f = field a f.
Proof. intros Hb. unfold field, spread. apply lookup_union_r, Hb. Qed.

Lemma field_spread_r (a b : Obj) (f : string) (v : Val) :
  field b f = Some v → field (spread a b) f = Some v.
Proof. intros Hb. unfold field, spread. apply lookup_union_Some_l, Hb. Qed.

(** ** One call *)

(** The loop of [batchCreateAbsences] is a sequence of [createAbsence]
    calls, each result pushed in turn. *)
Lemma batch_loop_spec (l : list Obj) : ∀ (acc : list Obj) (s : MemStorage),
  batchCreateAbsences_loop l acc s =
    (acc ++ imap (λ i a, with_id a (next_absences (nextIds s) + Z.of_nat i)) l,
     run (CreateAbsence <$> l) s).
Proof.
  induction l as [|a l IH]; intros acc s; simpl.
  - rewrite app_nil_r. reflexivity.
  - rewrite IH. simpl. f_equal.
    rewrite <- app_assoc. simpl. do 2 f_equal.
    + f_equal. lia.
    + apply imap_ext. intros i x _. simpl. f_equal. lia.
Qed.

Lemma run_app (l1 l2 : list Call) (s : MemStorage) :
  run (l1 ++ l2) s = run l2 (run l1 s).
Proof. unfold run. apply fold_left_app. Qed.

Lemma run_creates_counter (c : Coll) (l : list Obj) : ∀ s,
  counter c (run (CreateAbsence <$> l) s) =
    counter c s + (if decide (c = Absences) then Z.of_nat (length l) else 0).
Proof.
  induction l as [|a l IH]; intros s; simpl.
  - destruct (decide (c = Absences)); lia.
  - rewrite IH. destruct c; simpl; lia.
Qed.

Lemma run_creates_table (c : Coll) (l : list Obj) : ∀ s,
  c ≠ Absences → table c (run (CreateAbsence <$> l) s) = table c s.
Proof.
  induction l as [|a l IH]; intros s Hc; simpl; [reflexivity|].
  rewrite IH by assumption. destruct c; simpl; congruence.
Qed.

(** The methods of [MemStorage], to be unfolded together. *)
Create HintDb storage discriminated.

#[global] Hint Unfold
  getUser getUserByUsername createUser updateUser deleteUser listUsers
  getDepartment createDepartment updateDepartment deleteDepartment
  listDepartments getCourse createCourse updateCourse deleteCourse
  listCourses listCoursesByDepartment getModule createModule updateModule
  deleteModule listModules listModulesByCourse getModuleElement
  createModuleElement updateModuleElement deleteModuleElement
  listModuleElements listModuleElementsByModule
  assignTeacherToModuleElement removeTeacherFromModuleElement
  listTeacherModuleElements getStudent createStudent updateStudent
  deleteStudent listStudents listStudentsByCourse getStudentGroup
  createStudentGroup updateStudentGroup deleteStudentGroup
  listStudentGroups listStudentGroupsByCourse assignStudentToGroup
  removeStudentFromGroup listStudentGroupAssignments listStudentsByGroup
  getSession createSession updateSession deleteSession listSessions
  listSessionsByTeacher listSessionsByModuleElement getAbsence
  createAbsence updateAbsence deleteAbsence listAbsences
  listAbsencesBySession listAbsencesByStudent batchCreateAbsences
  : storage.

Ltac exec_cases :=
  unfold exec in *; autounfold with storage in *;
  repeat (simpl in *; case_match; simplify_eq); simpl in *.

(** A call moves the counter of a collection by the number of records it
    creates there. *)
Lemma exec_counter (c : Coll) (call : Call) (s : MemStorage) :
  counter c (exec call s).2 = counter c s + Z.of_nat (created c call).
Proof.
  destruct call;
    try (destruct c; unfold created, exec; exec_cases; lia).
  unfold exec, batchCreateAbsences. rewrite batch_loop_spec. simpl.
  rewrite run_creates_counter.
  destruct c; unfold created; simpl; lia.
Qed.

Lemma imap_with_id_ids (n : Z) (l : list Obj) :
  (λ o, field o "id") <$> imap (λ i a, with_id a (n + Z.of_nat i)) l =
    (λ i, Some (VNum i)) <$> seqZ n (Z.of_nat (length l)).
Proof.
  rewrite fmap_imap.
  rewrite (imap_ext _ (λ i _, Some (VNum (n + Z.of_nat i)))).
  - rewrite imap_seq_0. unfold seqZ. rewrite Nat2Z.id, <- list_fmap_compose.
    apply list_fmap_ext. intros i x _. simpl. do 2 f_equal. lia.
  - intros i x _. simpl. apply field_with_id.
Qed.

(** The identifiers a call hands out in a collection are the next values of
    its counter. *)
Lemma exec_ids (c : Coll) (call : Call) (s : MemStorage) :
  (if decide (creates_in call = Some c)
   then map (λ o, field o "id") (records (exec call s).1) else []) =
  (λ i, Some (VNum i)) <$> seqZ (counter c s) (Z.of_nat (created c call)).
Proof.
  destruct call;
    try (destruct c; unfold created, exec; exec_cases;
         rewrite ?field_with_id; reflexivity).
  unfold exec, batchCreateAbsences. rewrite batch_loop_spec.
  destruct c; unfold created; simpl; try reflexivity.
  apply imap_with_id_ids.
Qed.

(** ** Sequences of calls *)

Lemma seqZ_StronglySorted (m n : Z) : StronglySorted Z.lt (seqZ m n).
Proof.
  unfold seqZ. generalize (Z.to_nat n) as len. generalize 0%nat as start.
  intros start len. revert start.
  induction len as [|len IH]; intros start; simpl; constructor.
  - apply IH.
  - apply Forall_fmap, Forall_seq. intros j Hj. simpl. lia.
Qed.

Lemma returned_ids_spec (c : Coll) (calls : list Call) : ∀ s,
  returned_ids c calls s =
    (λ i, Some (VNum i)) <$>
      seqZ (counter c s) (Z.of_nat (sum_list_with (created c) calls))
  ∧ counter c (run calls s) =
      counter c s + Z.of_nat (sum_list_with (created c) calls).
Proof.
  induction calls as [|call calls IH]; intros s.
  - split; [reflexivity | simpl; lia].
  - simpl. destruct (exec call s) as [r s'] eqn:He.
    destruct (IH s') as [IHids IHn].
    pose proof (exec_counter c call s) as Hc.
    pose proof (exec_ids c call s) as Hi.
    rewrite He in Hc, Hi. simpl in Hc, Hi.
    change ((r, s').2) with s'. split.
    + rewrite Hi, IHids, Hc, Nat2Z.inj_add, seqZ_app, fmap_app by lia.
      reflexivity.
    + rewrite IHn, Hc. lia.
Qed.

(** The constructor is three [createUser] calls on the empty store. *)
Lemma new_MemStorage_run :
  new_MemStorage =
    run [CreateUser admin_user; CreateUser teacher_user; CreateUser head_user]
      fresh.
Proof. reflexivity. Qed.

(** C1. Monotonic identifiers.  In every collection the counter starts at 1,
    every call moves it up by the number of records it creates there (so it
    never goes down), and over any sequence of calls, deletes included, the
    identifiers returned by the creates are as many as the records created,
    strictly increasing in the order they were handed out (each is greater
    than all earlier ones) and hence pairwise distinct: none is used twice,
    whatever was deleted in between. *)
Theorem C1_monotonic_identifiers (c : Coll) (calls : list Call) :
  counter c fresh = 1
  ∧ (∀ call s,
       counter c (exec call s).2 = counter c s + Z.of_nat (created c call))
  ∧ ∃ ids : list Z,
      returned_ids c calls fresh = (λ i, Some (VNum i)) <$> ids
      ∧ length ids = sum_list_with (created c) calls
      ∧ StronglySorted Z.lt ids
      ∧ NoDup ids
      ∧ Forall (λ i, 1 ≤ i < counter c (run calls fresh)) ids.
Proof.
  assert (Hfresh : counter c fresh = 1) by (destruct c; reflexivity).
  split; [exact Hfresh|]. split; [intros; apply exec_counter|].
  destruct (returned_ids_spec c calls fresh) as [Hids Hn].
  eexists. split; [exact Hids|]. split_and!.
  - rewrite length_seqZ. lia.
  - apply seqZ_StronglySorted.
  - apply NoDup_seqZ.
  - apply Forall_seqZ. intros i Hi. lia.
Qed.

(** ** Update *)

Ltac by_call call :=
  destruct call; simpl in *; try discriminate; simplify_eq; simpl in *.

(** C2. Update preserves untouched fields.  For a record that exists,
    [update(id, partial)] returns the stored record merged with the payload:
    a field the payload does not have keeps the value it had (the [id] among
    them, a payload having none), a field it has takes the payload's value;
    the result is what the collection holds under [id] afterwards, at the
    same place, and nothing else in the store moves. *)
Theorem C2_update_preserves_untouched_fields
    (call : Call) (c : Coll) (id : Z) (partial existing : Obj)
    (s : MemStorage)
    (Hcall : as_update call = Some (c, id, partial))
    (Hexists : map_get id (table c s) = Some existing) :
  ∃ updated s',
    exec call s = (ROpt (Some updated), s')
    ∧ updated = spread existing partial
    ∧ (∀ f, field partial f = None → field updated f = field existing f)
    ∧ (field partial "id" = None → field updated "id" = field existing "id")
    ∧ (∀ f v, field partial f = Some v → field updated f = Some v)
    ∧ map_get id (table c s') = Some updated
    ∧ (∀ id', id' ≠ id → map_get id' (table c s') = map_get id' (table c s))
    ∧ map_keys (table c s') = map_keys (table c s)
    ∧ (∀ c', c' ≠ c → table c' s' = table c' s)
    ∧ nextIds s' = nextIds s.
Proof.
  exists (spread existing partial).
  assert (Hkeys : map_keys (map_set id (spread existing partial) (table c s))
                  = map_keys (table c s)).
  { rewrite map_keys_set. unfold map_has. rewrite Hexists. reflexivity. }
  by_call call; autounfold with storage; rewrite Hexists;
    (eexists; split; [reflexivity|]; simpl;
     split_and!;
     [ reflexivity
     | intros f Hf; apply field_spread_l, Hf
     | intros Hf; apply field_spread_l, Hf
     | intros f v Hf; apply field_spread_r, Hf
     | rewrite map_get_set, decide_True; reflexivity
     | intros id' Hne; rewrite map_get_set, decide_False by congruence;
       reflexivity
     | exact Hkeys
     | intros c' Hc'; destruct c'; simpl; congruence
     | reflexivity ]).
Qed.

Lemma C2_update_witness :
  as_update (UpdateUser 1 email_patch) = Some (Users, 1, email_patch)
  ∧ map_get 1 (table Users new_MemStorage) = Some (with_id admin_user 1)
  ∧ ∃ updated s',
      exec (UpdateUser 1 email_patch) new_MemStorage
        = (ROpt (Some updated), s')
      ∧ field updated "id" = Some (VNum 1)
      ∧ field updated "username" = Some (VStr "admin")
      ∧ field updated "email" = Some (VStr "root@example.com").
Proof.
  split; [reflexivity|]. split; [reflexivity|].
  destruct (C2_update_preserves_untouched_fields
              (UpdateUser 1 email_patch) Users 1 email_patch
              (with_id admin_user 1) new_MemStorage eq_refl eq_refl)
    as (updated & s' & He & _ & Hkeep & _ & Hnew & _).
  exists updated, s'. split; [exact He|]. split_and!.
  - rewrite (Hkeep "id") by reflexivity. reflexivity.
  - rewrite (Hkeep "username") by reflexivity. reflexivity.
  - apply Hnew. reflexivity.
Defined.

(** ** Not found *)

(** Whatever was there, a second [delete] of the same identifier returns
    [false] and changes nothing. *)
Lemma delete_twice (call : Call) (c : Coll) (id : Z) (s : MemStorage) :
  as_delete call = Some (c, id) →
  exec call (exec call s).2 = (RBool false, (exec call s).2).
Proof.
  intros Hcall. by_call call; autounfold with storage; simpl;
    rewrite map_has_remove, (map_remove_absent id)
      by (rewrite map_get_remove, decide_True; reflexivity);
    reflexivity.
Qed.

(** C3. Not found.  For an identifier that the collection does not hold,
    [get] and [update] return [undefined] and [delete] returns [false]; each
    of them is a value returned, the store is the same before and after, and
    a second [delete] returns [false] again. *)
Theorem C3_not_found (c : Coll) (id : Z) (s : MemStorage)
    (Habsent : map_has id (table c s) = false) :
  (∀ get, getter c = Some get → get id s = None)
  ∧ (∀ call partial,
       as_update call = Some (c, id, partial) → exec call s = (ROpt None, s))
  ∧ (∀ call,
       as_delete call = Some (c, id) →
       exec call s = (RBool false, s)
       ∧ exec call (exec call s).2 = (RBool false, s)).
Proof.
  pose proof Habsent as Hget. apply map_has_false in Hget.
  assert (Hs : ∀ t, mkMemStorage (users t) (departments t) (courses t)
                      (modules t) (moduleElements t)
                      (teacherModuleElements t) (students t)
                      (studentGroups t) (studentGroupAssignments t)
                      (sessions t) (absences t) (nextIds t) = t)
    by (intros []; reflexivity).
  split_and!.
  - intros get Hg. destruct c; simpl in *; simplify_eq; exact Hget.
  - intros call partial Hcall. by_call call; autounfold with storage;
      rewrite Hget; reflexivity.
  - intros call Hcall.
    assert (Hfirst : exec call s = (RBool false, s)).
    { by_call call; autounfold with storage; simpl;
        rewrite Habsent, (map_remove_absent _ _ Hget);
        unfold set_users, set_departments, set_courses, set_modules,
          set_moduleElements, set_students, set_studentGroups, set_sessions,
          set_absences; rewrite Hs; reflexivity. }
    split; [exact Hfirst|]. rewrite Hfirst. exact Hfirst.
Qed.

Lemma C3_not_found_witness :
  map_has 99 (table Users new_MemStorage) = false
  ∧ getUser 99 new_MemStorage = None
  ∧ updateUser 99 email_patch new_MemStorage = (None, new_MemStorage)
  ∧ deleteUser 99 new_MemStorage = (false, new_MemStorage).
Proof.
  split; [reflexivity|].
  destruct (C3_not_found Users 99 new_MemStorage eq_refl) as (Hg & Hu & Hd).
  split_and!.
  - apply Hg. reflexivity.
  - specialize (Hu (UpdateUser 99 email_patch) email_patch eq_refl).
    unfold exec in Hu.
    destruct (updateUser 99 email_patch new_MemStorage) as [o m].
    injection Hu as -> ->. reflexivity.
  - destruct (Hd (DeleteUser 99) eq_refl) as [Hd1 _].
    unfold exec in Hd1.
    destruct (deleteUser 99 new_MemStorage) as [b m].
    injection Hd1 as -> ->. reflexivity.
Defined.

(** ** The store stays well formed *)

Lemma map_set_Forall {K V} `{EqDecision K} (P : K * V → Prop) k v
    (m : list (K * V)) :
  Forall P m → P (k, v) → Forall P (map_set k v m).
Proof.
  intros Hm Hkv. induction Hm as [|[k0 v0] m H0 Hm IH]; simpl.
  - constructor; [exact Hkv | constructor].
  - destruct (decide (k0 = k)); constructor; assumption.
Qed.

Lemma table_ok_fresh_key (n : Z) (m : list (Z * Obj)) (k : Z) :
  table_ok n m → n ≤ k → map_get k m = None.
Proof.
  intros (_ & _ & Hall) Hk. apply map_get_None. unfold map_keys.
  intros Hin. apply list_elem_of_fmap in Hin as ([k' o] & -> & Hin).
  rewrite Forall_forall in Hall. apply Hall in Hin. simpl in *. lia.
Qed.

Lemma table_ok_create (n : Z) (o : Obj) (m : list (Z * Obj)) :
  table_ok n m → table_ok (n + 1) (map_set n (with_id o n) m).
Proof.
  intros Hok. pose proof (table_ok_fresh_key n m n Hok (Z.le_refl n)) as Hn.
  destruct Hok as (Hpos & Hnd & Hall). split_and!.
  - lia.
  - apply map_set_NoDup, Hnd.
  - apply map_set_Forall.
    + eapply Forall_impl; [exact Hall|]. intros [k r]; simpl. intuition lia.
    + simpl. split; [apply field_with_id | lia].
Qed.

Lemma table_ok_update (n id : Z) (existing partial : Obj)
    (m : list (Z * Obj)) :
  table_ok n m → map_get id m = Some existing → field partial "id" = None →
  table_ok n (map_set id (spread existing partial) m).
Proof.
  intros (Hpos & Hnd & Hall) Hget Hp. split_and!.
  - exact Hpos.
  - apply map_set_NoDup, Hnd.
  - apply map_set_Forall; [exact Hall|].
    apply map_get_Some_elem in Hget. rewrite Forall_forall in Hall.
    apply Hall in Hget. simpl in *. rewrite field_spread_l by exact Hp.
    exact Hget.
Qed.

Lemma table_ok_remove (n k : Z) (m : list (Z * Obj)) :
  table_ok n m → table_ok n (map_remove k m).
Proof.
  intros (Hpos & Hnd & Hall). split_and!.
  - exact Hpos.
  - apply map_remove_NoDup, Hnd.
  - rewrite Forall_forall in *. intros e He. apply Hall.
    eapply elem_of_sublist; [exact He | apply map_remove_sublist].
Qed.

Lemma fresh_ok : store_ok fresh.
Proof.
  intros c. destruct c; simpl; (split_and!; [lia | constructor | constructor]).
Qed.

Ltac table_cases :=
  first
    [ assumption
    | apply table_ok_create; assumption
    | eapply table_ok_update; eassumption
    | apply table_ok_remove; assumption ].

Ltac all_tables Hok :=
  pose proof (Hok Users); pose proof (Hok Departments);
  pose proof (Hok Courses); pose proof (Hok Modules);
  pose proof (Hok ModuleElements); pose proof (Hok TeacherModuleElements);
  pose proof (Hok Students); pose proof (Hok StudentGroups);
  pose proof (Hok StudentGroupAssignments); pose proof (Hok Sessions);
  pose proof (Hok Absences); clear Hok; simpl in *.

Lemma createAbsence_ok (a : Obj) (s : MemStorage) :
  store_ok s → store_ok (createAbsence a s).2.
Proof. intros Hok c. all_tables Hok. destruct c; simpl; table_cases. Qed.

Lemma run_creates_ok (l : list Obj) : ∀ s,
  store_ok s → store_ok (run (CreateAbsence <$> l) s).
Proof.
  induction l as [|a l IH]; intros s Hok; simpl; [exact Hok|].
  apply IH, (createAbsence_ok a s), Hok.
Qed.

(** Every call with a well-typed payload keeps the store well formed. *)
Lemma exec_ok (call : Call) (s : MemStorage) :
  typed call → store_ok s → store_ok (exec call s).2.
Proof.
  intros Ht Hok.
  destruct call;
    try (intros c; all_tables Hok; unfold typed in Ht; simpl in Ht;
         destruct c; exec_cases; table_cases).
  unfold exec, batchCreateAbsences. rewrite batch_loop_spec. simpl.
  apply run_creates_ok, Hok.
Qed.

Lemma run_ok (calls : list Call) : ∀ s,
  Forall typed calls → store_ok s → store_ok (run calls s).
Proof.
  induction calls as [|call calls IH]; intros s Ht Hok; simpl; [exact Hok|].
  apply Forall_cons in Ht as [Ht Hts]. apply IH; [exact Hts|].
  apply exec_ok; assumption.
Qed.

Lemma new_MemStorage_ok : store_ok new_MemStorage.
Proof.
  rewrite new_MemStorage_run. apply run_ok; [|apply fresh_ok].
  repeat constructor.
Qed.

(** ** Records stay until they are updated or deleted *)

Lemma record_survives (c : Coll) (call : Call) (s : MemStorage) (i : Z)
    (r : Obj) :
  map_get i (table c s) = Some r → i < counter c s →
  may_touch c i call = false →
  map_get i (table c (exec call s).2) = Some r.
Proof.
  intros Hget Hlt Hcall.
  destruct call;
    try (destruct c; unfold may_touch in Hcall; unfold exec; exec_cases;
         rewrite ?map_get_set, ?map_get_remove;
         repeat case_decide; simplify_eq; first [assumption | lia | tauto]).
  unfold exec, batchCreateAbsences. rewrite batch_loop_spec. simpl.
  destruct (decide (c = Absences)) as [->|Hc];
    [|rewrite run_creates_table by exact Hc; exact Hget].
  clear Hcall. revert s Hget Hlt.
  induction absences0 as [|a l IH]; intros s Hget Hlt; simpl in *;
    [exact Hget|].
  apply IH; simpl; [|lia].
  rewrite map_get_set, decide_False by lia. exact Hget.
Qed.

Lemma run_record_survives (c : Coll) (i : Z) (r : Obj) (calls : list Call) :
  ∀ s,
    map_get i (table c s) = Some r → i < counter c s →
    Forall (λ call, may_touch c i call = false) calls →
    map_get i (table c (run calls s)) = Some r ∧ i < counter c (run calls s).
Proof.
  induction calls as [|call calls IH]; intros s Hget Hlt Hcalls; simpl.
  - split; assumption.
  - apply Forall_cons in Hcalls as [Hcall Hcalls].
    apply IH; [|rewrite exec_counter; lia|exact Hcalls].
    apply record_survives; assumption.
Qed.

(** ** Deleting a course *)

Lemma elem_of_list_by (m : list (Z * Obj)) (k : Z) (r : Obj) (f : string)
    (v : Val) :
  map_get k m = Some r → field r f = Some v →
  r ∈ map_values m
  ∧ r ∈ List.filter (λ o, strict_eq (field o f) (Some v)) (map_values m).
Proof.
  intros Hget Hf. apply map_get_Some_elem in Hget.
  assert (Hin : r ∈ map_values m).
  { unfold map_values. apply (list_elem_of_fmap_2 snd) in Hget. exact Hget. }
  split; [exact Hin|]. apply list_elem_of_In, filter_In.
  split; [apply list_elem_of_In, Hin|].
  unfold strict_eq. apply bool_decide_eq_true. exact Hf.
Qed.

(** C8. Deleting a course does not cascade.  [deleteCourse(id)] reports
    whether the course was there and removes that entry of [courses] only:
    the other courses, every other collection and the counters are as before;
    the modules, students and groups whose [courseId] is the deleted course
    are still stored under their identifiers, unchanged, and still in the
    lists of their collections. *)
Theorem C8_delete_course_does_not_cascade (id : Z) (s : MemStorage) :
  let s' := (deleteCourse id s).2 in
  (deleteCourse id s).1 = map_has id (courses s)
  ∧ getCourse id s' = None
  ∧ (∀ id', id' ≠ id → getCourse id' s' = getCourse id' s)
  ∧ (∀ c, c ≠ Courses → table c s' = table c s)
  ∧ nextIds s' = nextIds s
  ∧ listModules s' = listModules s
  ∧ listStudents s' = listStudents s
  ∧ listStudentGroups s' = listStudentGroups s
  ∧ (∀ k r, getModule k s = Some r → field r "courseId" = Some (VNum id) →
       getModule k s' = Some r
       ∧ r ∈ listModules s' ∧ r ∈ listModulesByCourse id s')
  ∧ (∀ k r, getStudent k s = Some r → field r "courseId" = Some (VNum id) →
       getStudent k s' = Some r
       ∧ r ∈ listStudents s' ∧ r ∈ listStudentsByCourse id s')
  ∧ (∀ k r, getStudentGroup k s = Some r →
       field r "courseId" = Some (VNum id) →
       getStudentGroup k s' = Some r
       ∧ r ∈ listStudentGroups s' ∧ r ∈ listStudentGroupsByCourse id s').
Proof.
  simpl. split_and!; try reflexivity.
  - unfold getCourse. simpl. rewrite map_get_remove, decide_True; reflexivity.
  - intros id' Hne. unfold getCourse. simpl.
    rewrite map_get_remove, decide_False by congruence. reflexivity.
  - intros c Hc. destruct c; simpl; congruence.
  - intros k r Hget Hf. split; [exact Hget|].
    exact (elem_of_list_by _ _ _ _ _ Hget Hf).
  - intros k r Hget Hf. split; [exact Hget|].
    exact (elem_of_list_by _ _ _ _ _ Hget Hf).
  - intros k r Hget Hf. split; [exact Hget|].
    exact (elem_of_list_by _ _ _ _ _ Hget Hf).
Qed.

Lemma C8_delete_course_witness :
  (deleteCourse 1 campus).1 = true
  ∧ getCourse 1 (deleteCourse 1 campus).2 = None
  ∧ getModule 1 (deleteCourse 1 campus).2 = Some (with_id sample_module 1)
  ∧ with_id sample_module 1 ∈ listModulesByCourse 1 (deleteCourse 1 campus).2
  ∧ with_id (sample_student "E2" "Bo") 2
      ∈ listStudents (deleteCourse 1 campus).2
  ∧ with_id sample_group 1
      ∈ listStudentGroupsByCourse 1 (deleteCourse 1 campus).2.
Proof.
  destruct (C8_delete_course_does_not_cascade 1 campus)
    as (Hfound & Hgone & _ & _ & _ & _ & _ & _ & Hm & Hs & Hg).
  destruct (Hm 1 (with_id sample_module 1) eq_refl eq_refl) as (? & ? & ?).
  destruct (Hs 2 (with_id (sample_student "E2" "Bo") 2) eq_refl eq_refl)
    as (? & ? & ?).
  destruct (Hg 1 (with_id sample_group 1) eq_refl eq_refl) as (? & ? & ?).
  split_and!; assumption.
Defined.

(** ** Create *)

(** What a create does, for every collection alike. *)
Lemma create_spec (call : Call) (c : Coll) (o : Obj) (s : MemStorage) :
  as_create call = Some (c, o) →
  ∃ s',
    exec call s = (RObj (with_id o (counter c s)), s')
    ∧ table c s' = map_set (counter c s) (with_id o (counter c s)) (table c s)
    ∧ counter c s' = counter c s + 1
    ∧ (∀ c', c' ≠ c → table c' s' = table c' s ∧ counter c' s' = counter c' s).
Proof.
  intros Hcall. by_call call; (eexists; split; [reflexivity|]); simpl;
    (split_and!; [reflexivity | reflexivity |]);
    intros c' Hc'; destruct c'; simpl; first [congruence | tauto].
Qed.

Lemma elem_of_map_values (m : list (Z * Obj)) (k : Z) (r : Obj) :
  map_get k m = Some r → r ∈ map_values m.
Proof.
  intros Hget. apply map_get_Some_elem in Hget.
  apply (list_elem_of_fmap_2 snd) in Hget. exact Hget.
Qed.

(** C9. No uniqueness check on create.  Two creates in the same collection
    whose data agree on a field (a username, an email, a course code) both
    return a record carrying that value; the two identifiers differ, and
    after the second create the collection holds both records, each under
    its identifier and both in its list, whatever calls ran in between, as
    long as none of them updated or deleted the first record. *)
Theorem C9_no_uniqueness_check_on_create
    (c : Coll) (call1 call2 : Call) (o1 o2 : Obj) (f : string) (v : Val)
    (mid : list Call) (s : MemStorage)
    (Hcall1 : as_create call1 = Some (c, o1))
    (Hcall2 : as_create call2 = Some (c, o2))
    (Hf : f ≠ "id")
    (Ho1 : field o1 f = Some v)
    (Ho2 : field o2 f = Some v)
    (Hmid : Forall (λ call, may_touch c (counter c s) call = false) mid) :
  ∃ r1 r2 s1 s2 i1 i2,
    exec call1 s = (RObj r1, s1)
    ∧ exec call2 (run mid s1) = (RObj r2, s2)
    ∧ field r1 f = Some v ∧ field r2 f = Some v
    ∧ field r1 "id" = Some (VNum i1) ∧ field r2 "id" = Some (VNum i2)
    ∧ i1 < i2
    ∧ map_get i1 (table c s2) = Some r1 ∧ map_get i2 (table c s2) = Some r2
    ∧ r1 ∈ map_values (table c s2) ∧ r2 ∈ map_values (table c s2).
Proof.
  destruct (create_spec call1 c o1 s Hcall1) as (s1 & He1 & Ht1 & Hn1 & _).
  destruct (create_spec call2 c o2 (run mid s1) Hcall2)
    as (s2 & He2 & Ht2 & Hn2 & _).
  set (i1 := counter c s) in *. set (i2 := counter c (run mid s1)) in *.
  assert (Hget1 : map_get i1 (table c s1) = Some (with_id o1 i1)).
  { rewrite Ht1, map_get_set, decide_True; reflexivity. }
  destruct (run_record_survives c i1 (with_id o1 i1) mid s1 Hget1
              ltac:(lia) Hmid) as [Hkept Hlt].
  fold i2 in Hlt.
  assert (Hr1 : map_get i1 (table c s2) = Some (with_id o1 i1)).
  { rewrite Ht2, map_get_set, decide_False by lia. exact Hkept. }
  assert (Hr2 : map_get i2 (table c s2) = Some (with_id o2 i2)).
  { rewrite Ht2, map_get_set, decide_True; reflexivity. }
  exists (with_id o1 i1), (with_id o2 i2), s1, s2, i1, i2.
  split_and!; try assumption.
  - rewrite field_with_id_ne by exact Hf. exact Ho1.
  - rewrite field_with_id_ne by exact Hf. exact Ho2.
  - apply field_with_id.
  - apply field_with_id.
  - eapply elem_of_map_values, Hr1.
  - eapply elem_of_map_values, Hr2.
Qed.

Lemma C9_no_uniqueness_witness :
  as_create (CreateUser (twin "a@example.com"))
    = Some (Users, twin "a@example.com")
  ∧ as_create (CreateUser (twin "b@example.com"))
    = Some (Users, twin "b@example.com")
  ∧ "username" ≠ "id"
  ∧ field (twin "a@example.com") "username" = Some (VStr "twin")
  ∧ field (twin "b@example.com") "username" = Some (VStr "twin")
  ∧ Forall (λ call, may_touch Users (counter Users new_MemStorage) call
                    = false)
      [DeleteUser 1; CreateCourse sample_course]
  ∧ ∃ r1 r2 s2,
      r1 ∈ listUsers s2 ∧ r2 ∈ listUsers s2
      ∧ field r1 "username" = Some (VStr "twin")
      ∧ field r2 "username" = Some (VStr "twin")
      ∧ field r1 "id" ≠ field r2 "id".
Proof.
  assert (Hne : "username" ≠ "id") by discriminate.
  assert (Hmid : Forall (λ call, may_touch Users (counter Users new_MemStorage)
                                   call = false)
                   [DeleteUser 1; CreateCourse sample_course])
    by (repeat constructor).
  split_and!; try reflexivity; try assumption.
  destruct (C9_no_uniqueness_check_on_create Users
              (CreateUser (twin "a@example.com"))
              (CreateUser (twin "b@example.com"))
              (twin "a@example.com") (twin "b@example.com")
              "username" (VStr "twin")
              [DeleteUser 1; CreateCourse sample_course] new_MemStorage
              eq_refl eq_refl Hne eq_refl eq_refl Hmid)
    as (r1 & r2 & s1 & s2 & i1 & i2 & _ & _ & Hf1 & Hf2 & Hi1 & Hi2 & Hlt
        & _ & _ & Hin1 & Hin2).
  exists r1, r2, s2. split_and!; try assumption.
  rewrite Hi1, Hi2. intros [= ?]. lia.
Defined.

(** ** Students of a group *)

Lemma strict_eq_true (a b : option Val) : strict_eq a b = true ↔ a = b.
Proof. unfold strict_eq. apply bool_decide_eq_true. Qed.

Lemma includes_true (xs : list (option Val)) (x : option Val) :
  includes xs x = true ↔ x ∈ xs.
Proof.
  unfold includes. rewrite existsb_exists. split.
  - intros (y & Hin & Heq). apply strict_eq_true in Heq. subst.
    apply list_elem_of_In, Hin.
  - intros Hin. exists x. split; [apply list_elem_of_In, Hin|].
    apply strict_eq_true. reflexivity.
Qed.

Lemma elem_of_js_filter {A} (p : A → bool) (l : list A) (x : A) :
  x ∈ List.filter p l ↔ x ∈ l ∧ p x = true.
Proof. rewrite !list_elem_of_In. apply filter_In. Qed.

(** The test applied by [listStudentsByGroup] to each student. *)
Lemma group_test_iff (g : Z) (s : MemStorage) (st : Obj) :
  includes (map (λ a, field a "studentId") (listStudentGroupAssignments g s))
    (field st "id") = true
  ↔ assigned_to g (map_values (studentGroupAssignments s)) st.
Proof.
  rewrite includes_true. unfold assigned_to, listStudentGroupAssignments.
  change (map (λ a : Obj, field a "studentId")) with
    (fmap (M:=list) (λ a : Obj, field a "studentId")).
  rewrite list_elem_of_fmap. split.
  - intros (a & Hid & Hin). apply elem_of_js_filter in Hin as [Hin Hg].
    apply strict_eq_true in Hg. exists a. split_and!; [exact Hin|exact Hg|].
    symmetry. exact Hid.
  - intros (a & Hin & Hg & Hid). exists a. split; [symmetry; exact Hid|].
    apply elem_of_js_filter. split; [exact Hin|].
    apply strict_eq_true. exact Hg.
Qed.

Lemma in_group_iff (g : Z) (s : MemStorage) (st : Obj) :
  st ∈ listStudentsByGroup g s
  ↔ st ∈ listStudents s
    ∧ assigned_to g (map_values (studentGroupAssignments s)) st.
Proof.
  unfold listStudentsByGroup. rewrite elem_of_js_filter, group_test_iff.
  reflexivity.
Qed.

(** In a well-formed table an entry is found by its key, and a record by
    its [id]. *)
Lemma table_ok_entry (n : Z) (m : list (Z * Obj)) (a : Obj) :
  table_ok n m → a ∈ map_values m →
  ∃ k, map_get k m = Some a ∧ field a "id" = Some (VNum k).
Proof.
  intros (_ & Hnd & Hall) Hin. unfold map_values in Hin.
  apply list_elem_of_fmap in Hin as ([k a'] & -> & Hin). exists k. split.
  - apply map_elem_get; assumption.
  - rewrite Forall_forall in Hall. apply Hall in Hin. apply Hin.
Qed.

Lemma find_Some_elem {A} (p : A → bool) (l : list A) (x : A) :
  find p l = Some x → x ∈ l ∧ p x = true.
Proof.
  unfold find. intros Hf. apply find_some in Hf as [Hin Hp].
  split; [apply list_elem_of_In, Hin | exact Hp].
Qed.

Lemma find_None_elem {A} (p : A → bool) (l : list A) (x : A) :
  find p l = None → x ∈ l → p x = false.
Proof.
  unfold find. intros Hf Hin. apply list_elem_of_In in Hin.
  exact (find_none p l Hf x Hin).
Qed.

(** [removeStudentFromGroup] on a well-formed store: nothing matches and
    nothing changes, or the first matching row is the one removed. *)
Lemma removeStudentFromGroup_spec (sid g : Z) (s : MemStorage) :
  store_ok s →
  (removeStudentFromGroup sid g s = (false, s)
   ∧ ∀ a, a ∈ map_values (studentGroupAssignments s) →
          ¬ (field a "studentId" = Some (VNum sid)
             ∧ field a "groupId" = Some (VNum g)))
  ∨ (∃ k a,
       map_get k (studentGroupAssignments s) = Some a
       ∧ field a "studentId" = Some (VNum sid)
       ∧ field a "groupId" = Some (VNum g)
       ∧ removeStudentFromGroup sid g s =
           (true,
            set_studentGroupAssignments
              (map_remove k (studentGroupAssignments s)) s)).
Proof.
  intros Hok. specialize (Hok StudentGroupAssignments). simpl in Hok.
  unfold removeStudentFromGroup.
  destruct (find _ (map_values (studentGroupAssignments s))) as [a|] eqn:Hf.
  - right. apply find_Some_elem in Hf as [Hin Hp].
    apply andb_true_iff in Hp as [Hs Hg].
    apply strict_eq_true in Hs, Hg.
    destruct (table_ok_entry _ _ _ Hok Hin) as (k & Hget & Hid).
    exists k, a. rewrite Hid. simpl. unfold map_has. rewrite Hget.
    split_and!; first [assumption | reflexivity].
  - left. split; [reflexivity|]. intros a Hin [Hs Hg].
    pose proof (find_None_elem _ _ _ Hf Hin) as Hp. simpl in Hp.
    apply andb_false_iff in Hp as [Hp|Hp];
      apply not_true_iff_false in Hp; apply Hp, strict_eq_true; assumption.
Qed.

Lemma campus_groups_ok : store_ok campus_groups.
Proof.
  unfold campus_groups, campus. repeat apply run_ok;
    try apply new_MemStorage_ok; repeat constructor.
Qed.

(** The list follows the student list, not the assignment rows: the rows
    name the students 3, 1, 3 in this order. *)
Example students_of_group_1 :
  listStudentsByGroup 1 campus_groups =
    [with_id (sample_student "E1" "Ana") 1;
     with_id (sample_student "E3" "Cy") 3].
Proof. reflexivity. Qed.

(** C6. Students of a group.  On a well-formed store
    [listStudentsByGroup(groupId)] is the student list filtered, in its own
    order, by "some assignment row of this group names the student's id": a
    student record is in the result exactly when it is in the student list
    and has such a row.  The next call sees every change of the rows: after
    an assignment of student [sid] to the group, the students with that id
    are added to the result and nothing else changes; a removal that finds
    no row changes nothing, and one that finds a row leaves in the result
    exactly the students that have another row of the group. *)
Theorem C6_students_in_group (g : Z) (s : MemStorage) (Hok : store_ok s) :
  (∃ keep : Obj → bool,
     listStudentsByGroup g s = List.filter keep (listStudents s)
     ∧ ∀ st, keep st = true
             ↔ assigned_to g (map_values (studentGroupAssignments s)) st)
  ∧ (∀ st, st ∈ listStudentsByGroup g s
           ↔ st ∈ listStudents s
             ∧ assigned_to g (map_values (studentGroupAssignments s)) st)
  ∧ (∀ a sid,
       field a "groupId" = Some (VNum g) →
       field a "studentId" = Some (VNum sid) →
       ∀ st, st ∈ listStudentsByGroup g (assignStudentToGroup a s).2
             ↔ st ∈ listStudentsByGroup g s
               ∨ (st ∈ listStudents s ∧ field st "id" = Some (VNum sid)))
  ∧ (∀ sid,
       (removeStudentFromGroup sid g s = (false, s)
        ∧ ∀ st, field st "id" = Some (VNum sid) →
                st ∉ listStudentsByGroup g s)
       ∨ (∃ k a,
            map_get k (studentGroupAssignments s) = Some a
            ∧ field a "studentId" = Some (VNum sid)
            ∧ field a "groupId" = Some (VNum g)
            ∧ (removeStudentFromGroup sid g s).1 = true
            ∧ ∀ st,
                st ∈ listStudentsByGroup g (removeStudentFromGroup sid g s).2
                ↔ st ∈ listStudents s
                  ∧ ∃ k' a',
                      k' ≠ k
                      ∧ map_get k' (studentGroupAssignments s) = Some a'
                      ∧ field a' "groupId" = Some (VNum g)
                      ∧ field a' "studentId" = field st "id")).
Proof.
  pose proof (Hok StudentGroupAssignments) as Hrows. simpl in Hrows.
  split_and!.
  - eexists. split; [reflexivity|]. intros st. apply group_test_iff.
  - intros st. apply in_group_iff.
  - intros a sid Hg Hsid st. rewrite !in_group_iff.
    unfold assignStudentToGroup, listStudents; simpl.
    set (n := next_studentGroupAssignments (nextIds s)) in *.
    rewrite (map_set_fresh n)
      by (apply (table_ok_fresh_key n); [exact Hrows | lia]).
    unfold map_values, assigned_to. rewrite map_app. simpl.
    setoid_rewrite elem_of_app. setoid_rewrite list_elem_of_singleton.
    split.
    + intros (Hin & r & [Hr | ->] & Hrg & Hrs).
      * left. split; [exact Hin|]. exists r. auto.
      * right. split; [exact Hin|].
        rewrite field_with_id_ne in Hrs by discriminate. congruence.
    + intros [(Hin & r & Hr & Hrg & Hrs) | (Hin & Hid)].
      * split; [exact Hin|]. exists r. auto.
      * split; [exact Hin|]. exists (with_id a n).
        rewrite !field_with_id_ne by discriminate.
        split_and!; [right; reflexivity | exact Hg | congruence].
  - intros sid.
    destruct (removeStudentFromGroup_spec sid g s Hok)
      as [[Hnone Hno] | (k & a & Hget & Hs & Hg & Hrm)].
    + left. split; [exact Hnone|]. intros st Hid Hin.
      apply in_group_iff in Hin as (_ & r & Hr & Hrg & Hrs).
      apply (Hno r Hr). split; congruence.
    + right. exists k, a. rewrite Hrm. simpl.
      split_and!; try assumption; [reflexivity|].
      intros st. rewrite in_group_iff. unfold listStudents; simpl.
      apply and_iff_compat_l. unfold assigned_to, map_values. split.
      * intros (r & Hr & Hrg & Hrs).
        apply list_elem_of_fmap in Hr as ([k' r'] & -> & Hr).
        apply map_remove_elem in Hr as [Hr Hk']. simpl in *.
        exists k', r'. split_and!; try assumption.
        apply map_elem_get; [apply Hrows | exact Hr].
      * intros (k' & r & Hk' & Hr & Hrg & Hrs). exists r.
        split_and!; try assumption.
        apply (list_elem_of_fmap_2 snd _ (k', r)), map_remove_elem.
        split; [apply map_get_Some_elem, Hr | exact Hk'].
Qed.

Lemma C6_students_in_group_witness :
  store_ok campus_groups
  ∧ with_id (sample_student "E2" "Bo") 2
      ∈ listStudentsByGroup 1
          (assignStudentToGroup (sample_assignment 2 1) campus_groups).2
  ∧ with_id (sample_student "E2" "Bo") 2
      ∉ listStudentsByGroup 1 campus_groups.
Proof.
  split; [exact campus_groups_ok|].
  destruct (C6_students_in_group 1 campus_groups campus_groups_ok)
    as (_ & Hiff & Hadd & _).
  split.
  - apply (Hadd (sample_assignment 2 1) 2 eq_refl eq_refl). right.
    split; [|reflexivity].
    apply (elem_of_map_values (students campus_groups) 2). reflexivity.
  - rewrite Hiff. intros (_ & a & Hin & _ & Hs).
    change (map_values (studentGroupAssignments campus_groups)) with
      [with_id (sample_assignment 3 1) 1; with_id (sample_assignment 1 1) 2;
       with_id (sample_assignment 3 1) 3] in Hin.
    repeat (apply elem_of_cons in Hin as [->|Hin]; [discriminate Hs|]).
    apply elem_of_nil in Hin. exact Hin.
Defined.

(** ** No student twice *)

(** The records of a well-formed table are pairwise distinct, and so are
    their [id] fields. *)
Lemma table_ok_ids (n : Z) (m : list (Z * Obj)) :
  table_ok n m →
  (λ r, field r "id") <$> map_values m = (λ k, Some (VNum k)) <$> map_keys m.
Proof.
  intros (_ & _ & Hall). unfold map_values, map_keys.
  induction Hall as [|[k r] m [Hid _] _ IH]; simpl; [reflexivity|].
  simpl in Hid. rewrite Hid. f_equal. exact IH.
Qed.

Lemma table_ok_values_NoDup (n : Z) (m : list (Z * Obj)) :
  table_ok n m →
  NoDup ((λ r, field r "id") <$> map_values m) ∧ NoDup (map_values m).
Proof.
  intros Hok.
  assert (Hids : NoDup ((λ r, field r "id") <$> map_values m)).
  { rewrite (table_ok_ids n m Hok). apply NoDup_fmap_2; [|apply Hok].
    intros k1 k2 [= ?]. assumption. }
  split; [exact Hids|]. eapply NoDup_fmap_1, Hids.
Qed.

Lemma js_filter_NoDup {A} (p : A → bool) (l : list A) :
  NoDup l → NoDup (List.filter p l).
Proof.
  induction 1 as [|x l Hx Hnd IH]; simpl; [constructor|].
  destruct (p x); [|exact IH]. constructor; [|exact IH].
  rewrite elem_of_js_filter. tauto.
Qed.

Lemma js_filter_fmap {A B} (f : A → B) (p : A → bool) (l : list A) :
  sublist (f <$> List.filter p l) (f <$> l).
Proof.
  induction l as [|x l IH]; simpl; [constructor|].
  destruct (p x); simpl; [apply sublist_skip | apply sublist_cons]; exact IH.
Qed.

(** C10. No student twice.  [assignStudentToGroup] accepts the same pair
    again: after two calls with the same data the table holds two rows with
    that [studentId] and [groupId] under two identifiers.  On every
    well-formed store, such rows or not, the result of
    [listStudentsByGroup] has no record twice and no [id] twice: it is a
    filter of the student list, whose records are pairwise distinct. *)
Theorem C10_no_student_twice (g : Z) (s : MemStorage) (a : Obj)
    (Hok : store_ok s) :
  let s2 := run [AssignStudentToGroup a; AssignStudentToGroup a] s in
  (∃ k1 k2 r1 r2,
     k1 ≠ k2
     ∧ map_get k1 (studentGroupAssignments s2) = Some r1
     ∧ map_get k2 (studentGroupAssignments s2) = Some r2
     ∧ field r1 "studentId" = field a "studentId"
     ∧ field r2 "studentId" = field a "studentId"
     ∧ field r1 "groupId" = field a "groupId"
     ∧ field r2 "groupId" = field a "groupId")
  ∧ sublist (listStudentsByGroup g s) (listStudents s)
  ∧ NoDup (listStudentsByGroup g s)
  ∧ NoDup ((λ st, field st "id") <$> listStudentsByGroup g s)
  ∧ sublist (listStudentsByGroup g s2) (listStudents s2)
  ∧ NoDup (listStudentsByGroup g s2)
  ∧ NoDup ((λ st, field st "id") <$> listStudentsByGroup g s2).
Proof.
  intros s2.
  assert (Hnodup : ∀ t, store_ok t →
            sublist (listStudentsByGroup g t) (listStudents t)
            ∧ NoDup (listStudentsByGroup g t)
            ∧ NoDup ((λ st, field st "id") <$> listStudentsByGroup g t)).
  { intros t Ht. specialize (Ht Students). simpl in Ht.
    destruct (table_ok_values_NoDup _ _ Ht) as [Hids Hvals].
    unfold listStudentsByGroup, listStudents. split_and!.
    - pose proof (js_filter_fmap (λ x : Obj, x)) as Hsub.
      setoid_rewrite list_fmap_id in Hsub. apply Hsub.
    - apply js_filter_NoDup, Hvals.
    - eapply sublist_NoDup; [exact Hids | apply js_filter_fmap]. }
  assert (Hok2 : store_ok s2).
  { apply run_ok; [repeat constructor | exact Hok]. }
  split; [|destruct (Hnodup s Hok) as (? & ? & ?);
           destruct (Hnodup s2 Hok2) as (? & ? & ?); split_and!; assumption].
  set (n := next_studentGroupAssignments (nextIds s)).
  exists n, (n + 1), (with_id a n), (with_id a (n + 1)).
  rewrite !field_with_id_ne by discriminate.
  split_and!; try reflexivity; [lia | |]; subst s2; simpl; fold n.
  - rewrite !map_get_set, decide_False, decide_True by lia. reflexivity.
  - rewrite !map_get_set, decide_True by lia. reflexivity.
Qed.

Lemma C10_no_student_twice_witness :
  store_ok campus_groups
  ∧ length (listStudentGroupAssignments 1
              (run [AssignStudentToGroup (sample_assignment 3 1);
                    AssignStudentToGroup (sample_assignment 3 1)]
                 campus_groups)) = 5%nat
  ∧ NoDup (listStudentsByGroup 1
             (run [AssignStudentToGroup (sample_assignment 3 1);
                   AssignStudentToGroup (sample_assignment 3 1)]
                campus_groups)).
Proof.
  split; [exact campus_groups_ok|]. split; [reflexivity|].
  apply (C10_no_student_twice 1 campus_groups (sample_assignment 3 1)
           campus_groups_ok).
Defined.

(** ** Batch creation *)

Lemma run_creates_absences (l : list Obj) : ∀ s,
  table_ok (next_absences (nextIds s)) (absences s) →
  absences (run (CreateAbsence <$> l) s) =
    absences s
    ++ imap (λ i a, (next_absences (nextIds s) + Z.of_nat i,
                     with_id a (next_absences (nextIds s) + Z.of_nat i))) l.
Proof.
  induction l as [|a l IH]; intros s Hok; simpl.
  - rewrite app_nil_r. reflexivity.
  - rewrite IH by (simpl; apply table_ok_create, Hok). simpl.
    rewrite (map_set_fresh (next_absences (nextIds s)))
      by (eapply table_ok_fresh_key; [exact Hok | lia]).
    rewrite <- app_assoc. simpl. do 2 f_equal.
    + f_equal; [|f_equal]; lia.
    + apply imap_ext. intros i x _. simpl. f_equal; [|f_equal]; lia.
Qed.

(** C7. Batch creation.  On a well-formed store [batchCreateAbsences]
    returns as many records as it was given; the i-th is the i-th input with
    the identifier [next + i] added, every other field as in the input; that
    identifier was not in the collection before and the record is stored
    under it afterwards.  The new records are appended to the collection in
    input order, so its list is the old list followed by the result, all
    identifiers in it are pairwise distinct, and no other collection
    moves. *)
Theorem C7_batch_create_absences (inputs : list Obj) (s : MemStorage)
    (Hok : store_ok s) :
  let next := next_absences (nextIds s) in
  let created := (batchCreateAbsences inputs s).1 in
  let s' := (batchCreateAbsences inputs s).2 in
  length created = length inputs
  ∧ (∀ i a, inputs !! i = Some a →
       ∃ r, created !! i = Some r
            ∧ r = with_id a (next + Z.of_nat i)
            ∧ field r "id" = Some (VNum (next + Z.of_nat i))
            ∧ (∀ f, f ≠ "id" → field r f = field a f)
            ∧ getAbsence (next + Z.of_nat i) s = None
            ∧ getAbsence (next + Z.of_nat i) s' = Some r)
  ∧ listAbsences s' = listAbsences s ++ created
  ∧ NoDup ((λ r, field r "id") <$> listAbsences s')
  ∧ next_absences (nextIds s') = next + Z.of_nat (length inputs)
  ∧ s' = run (CreateAbsence <$> inputs) s
  ∧ (∀ c, c ≠ Absences → table c s' = table c s ∧ counter c s' = counter c s).
Proof.
  intros next created s'. subst created s'.
  unfold batchCreateAbsences. rewrite batch_loop_spec. simpl. fold next.
  pose proof (Hok Absences) as Hab. simpl in Hab. fold next in Hab.
  assert (Hok' : store_ok (run (CreateAbsence <$> inputs) s))
    by (apply run_creates_ok, Hok).
  pose proof (Hok' Absences) as Hab'. simpl in Hab'.
  pose proof (run_creates_absences inputs s Hab) as Htab. fold next in Htab.
  assert (Hlist : listAbsences (run (CreateAbsence <$> inputs) s) =
                  listAbsences s
                  ++ imap (λ i a, with_id a (next + Z.of_nat i)) inputs).
  { unfold listAbsences, map_values. rewrite Htab, map_app. f_equal.
    change (map snd) with (fmap (M:=list) (@snd Z Obj)).
    rewrite fmap_imap. apply imap_ext. reflexivity. }
  split_and!.
  - apply length_imap.
  - intros i a Hi. exists (with_id a (next + Z.of_nat i)).
    rewrite list_lookup_imap, Hi. split_and!; try reflexivity.
    + apply field_with_id.
    + intros f Hf. apply field_with_id_ne, Hf.
    + unfold getAbsence. eapply table_ok_fresh_key; [exact Hab | lia].
    + unfold getAbsence. apply map_elem_get; [apply Hab'|].
      rewrite Htab. apply elem_of_app. right.
      apply list_elem_of_lookup. exists i.
      rewrite list_lookup_imap, Hi. reflexivity.
  - exact Hlist.
  - apply (table_ok_values_NoDup _ _ Hab').
  - pose proof (run_creates_counter Absences inputs s) as Hc.
    simpl in Hc. rewrite Hc. reflexivity.
  - reflexivity.
  - intros c Hc. split.
    + apply run_creates_table, Hc.
    + rewrite run_creates_counter, decide_False by exact Hc. lia.
Qed.

Lemma C7_batch_create_witness :
  store_ok campus
  ∧ (batchCreateAbsences
       [sample_absence 1 2 "absent"; sample_absence 1 3 "present";
        sample_absence 1 1 "absent"] campus).1
    = [with_id (sample_absence 1 2 "absent") 1;
       with_id (sample_absence 1 3 "present") 2;
       with_id (sample_absence 1 1 "absent") 3]
  ∧ NoDup ((λ r, field r "id") <$>
             listAbsences
               (batchCreateAbsences
                  [sample_absence 1 2 "absent"; sample_absence 1 3 "present";
                   sample_absence 1 1 "absent"] campus).2).
Proof.
  assert (Hok : store_ok campus).
  { unfold campus. apply run_ok; [repeat constructor|].
    apply new_MemStorage_ok. }
  split; [exact Hok|]. split; [reflexivity|].
  apply (C7_batch_create_absences
           [sample_absence 1 2 "absent"; sample_absence 1 3 "present";
            sample_absence 1 1 "absent"] campus Hok).
Defined.

(** ** Top absentees *)

Import Routes.

Section Sorting.
Context {A : Type} (cmp : A → A → Z).
Hypothesis cmp_total : ∀ a b, cmp a b ≤ 0 ∨ cmp b a ≤ 0.
Hypothesis cmp_trans : ∀ a b c, cmp a b ≤ 0 → cmp b c ≤ 0 → cmp a c ≤ 0.

Lemma sort_insert_perm (x : A) (l : list A) :
  Permutation (sort_insert cmp x l) (x :: l).
Proof.
  induction l as [|y l IH]; simpl; [reflexivity|].
  destruct (cmp x y <=? 0); [reflexivity|].
  rewrite IH. apply perm_swap.
Qed.

Lemma sort_perm (l : list A) : Permutation (sort cmp l) l.
Proof.
  induction l as [|x l IH]; simpl; [reflexivity|].
  rewrite sort_insert_perm. apply perm_skip, IH.
Qed.

Lemma sort_insert_sorted (x : A) (l : list A) :
  StronglySorted (λ a b, cmp a b ≤ 0) l →
  StronglySorted (λ a b, cmp a b ≤ 0) (sort_insert cmp x l).
Proof.
  induction 1 as [|y l Hl IH Hy]; simpl.
  - constructor; constructor.
  - destruct (cmp x y <=? 0) eqn:Hxy.
    + apply Z.leb_le in Hxy. constructor; [constructor; assumption|].
      constructor; [exact Hxy|].
      eapply Forall_impl; [exact Hy|]. intros z Hz. simpl in Hz.
      eapply cmp_trans; eassumption.
    + apply Z.leb_gt in Hxy. constructor; [exact IH|].
      rewrite (sort_insert_perm x l). constructor; [|exact Hy].
      destruct (cmp_total x y); [lia | assumption].
Qed.

Lemma sort_sorted (l : list A) :
  StronglySorted (λ a b, cmp a b ≤ 0) (sort cmp l).
Proof.
  induction l as [|x l IH]; simpl; [constructor|].
  apply sort_insert_sorted, IH.
Qed.
End Sorting.

Lemma js_filter_perm {A} (p : A → bool) (l l' : list A) :
  Permutation l l' → Permutation (List.filter p l) (List.filter p l').
Proof.
  induction 1 as [|x l l' _ IH|x y l|l l' l'' _ IH1 _ IH2]; simpl.
  - reflexivity.
  - destruct (p x); [apply perm_skip|]; exact IH.
  - destruct (p x), (p y); try reflexivity. apply perm_swap.
  - etransitivity; eassumption.
Qed.

Lemma or_zero_pos (m : list (option Val * Z)) (k : option Val) :
  positive_counts m → 0 ≤ or_zero (map_get k m).
Proof.
  intros Hpos. destruct (map_get k m) as [c|] eqn:Hc; simpl; [|lia].
  apply Hpos in Hc. destruct (c =? 0); lia.
Qed.

Lemma fold_count_step (l : list Obj) : ∀ acc,
  positive_counts acc → NoDup (map_keys acc) →
  positive_counts (fold_left count_step l acc)
  ∧ NoDup (map_keys (fold_left count_step l acc))
  ∧ ∀ k, or_zero (map_get k (fold_left count_step l acc))
         = or_zero (map_get k acc) + absent_count k l.
Proof.
  induction l as [|a l IH]; intros acc Hpos Hnd; simpl.
  - split_and!; try assumption. intros k. unfold absent_count. simpl. lia.
  - assert (Hstep : positive_counts (count_step acc a)
                    ∧ NoDup (map_keys (count_step acc a))
                    ∧ ∀ k, or_zero (map_get k (count_step acc a))
                           = or_zero (map_get k acc) + absent_count k [a]).
    { unfold count_step, absent_count. simpl.
      destruct (strict_eq (field a "status") (Some (VStr "absent"))); simpl.
      - pose proof (or_zero_pos acc (field a "studentId") Hpos) as H0.
        split_and!.
        + intros k c. rewrite map_get_set. case_decide; [|apply Hpos].
          intros [= <-]. lia.
        + apply map_set_NoDup, Hnd.
        + intros k. rewrite map_get_set. unfold strict_eq.
          case_decide as Hk.
          * rewrite bool_decide_true by exact Hk. subst k. simpl.
            destruct (_ + 1 =? 0) eqn:Hz; lia.
          * rewrite bool_decide_false by exact Hk. simpl. lia.
      - split_and!; try assumption. intros k. lia. }
    destruct Hstep as (Hpos' & Hnd' & Hcount').
    destruct (IH _ Hpos' Hnd') as (Hpos'' & Hnd'' & Hcount'').
    split_and!; try assumption. intros k. rewrite Hcount'', Hcount'.
    unfold absent_count. simpl.
    destruct (_ && _); simpl length; lia.
Qed.

(** The map built by the loop: one entry per student with at least one
    ["absent"] row, holding the number of such rows. *)
Lemma absencesByStudent_spec (rows : list Obj) :
  NoDup (map_keys (absencesByStudent rows))
  ∧ ∀ k c, (k, c) ∈ absencesByStudent rows
           ↔ c = absent_count k rows ∧ 0 < c.
Proof.
  destruct (fold_count_step rows []) as (Hpos & Hnd & Hcount).
  { intros k c. discriminate. }
  { constructor. }
  fold (absencesByStudent rows) in *. split; [exact Hnd|].
  intros k c. specialize (Hcount k). simpl in Hcount. split.
  - intros Hin. apply (map_elem_get _ _ _ Hnd) in Hin.
    pose proof (Hpos _ _ Hin) as Hc. rewrite Hin in Hcount. simpl in Hcount.
    destruct (c =? 0) eqn:Hz; lia.
  - intros [-> Hc]. apply map_get_Some_elem.
    destruct (map_get k (absencesByStudent rows)) as [c|] eqn:Hget;
      simpl in Hcount.
    + pose proof (Hpos _ _ Hget). destruct (c =? 0) eqn:Hz; [lia|].
      f_equal. lia.
    + lia.
Qed.

Lemma slice0_nonneg {A} (n : Z) (l : list A) :
  0 ≤ n → slice0 (Int n) l = take (Z.to_nat n) l.
Proof.
  intros Hn. unfold slice0. rewrite (proj2 (Z.ltb_ge n 0)) by exact Hn.
  destruct (Z.le_gt_cases n (Z.of_nat (length l))) as [Hle|Hgt].
  - rewrite Z.min_l by exact Hle. reflexivity.
  - rewrite Z.min_r, Nat2Z.id by lia. rewrite !take_ge by lia. reflexivity.
Qed.

Lemma to_absentee_fields (students : list Obj) (k : option Val) (c : Z) :
  studentId (to_absentee students (k, c)) = k
  ∧ absenceCount (to_absentee students (k, c)) = c.
Proof. split; reflexivity. Qed.

Lemma ranked_perm (rows students : list Obj) :
  Permutation (ranked rows students)
    (to_absentee students <$> absencesByStudent rows).
Proof. unfold ranked, map_entries. apply sort_perm. Qed.

Lemma StronglySorted_weaken {A} (R R' : A → A → Prop) (l : list A) :
  (∀ a b, R a b → R' a b) → StronglySorted R l → StronglySorted R' l.
Proof.
  intros HR. induction 1 as [|x l _ IH Hx]; constructor; [exact IH|].
  eapply Forall_impl; [exact Hx | apply HR].
Qed.

Lemma ranked_sorted (rows students : list Obj) :
  StronglySorted (λ a b, absenceCount b ≤ absenceCount a)
    (ranked rows students).
Proof.
  unfold ranked.
  eapply StronglySorted_weaken; [|apply sort_sorted].
  - intros a b Hab. simpl in Hab. lia.
  - intros a b. lia.
  - intros a b c. lia.
Qed.

Lemma ranked_elem (rows students : list Obj) (e : Absentee) :
  e ∈ ranked rows students
  ↔ ∃ k c, e = to_absentee students (k, c)
           ∧ c = absent_count k rows ∧ 0 < c.
Proof.
  rewrite (ranked_perm rows students), list_elem_of_fmap.
  destruct (absencesByStudent_spec rows) as [_ Hspec]. split.
  - intros ([k c] & -> & Hin). exists k, c. split; [reflexivity|].
    apply Hspec, Hin.
  - intros (k & c & -> & Hc). exists (k, c). split; [reflexivity|].
    apply Hspec, Hc.
Qed.

Lemma ranked_ids (rows students : list Obj) :
  Permutation (studentId <$> ranked rows students)
    (map_keys (absencesByStudent rows)).
Proof.
  rewrite (ranked_perm rows students), <- list_fmap_compose.
  unfold map_keys.
  rewrite (list_fmap_ext (studentId ∘ to_absentee students) fst
             (absencesByStudent rows)); [reflexivity|].
  intros i [k c] _. reflexivity.
Qed.

Ltac list_member :=
  repeat first [apply list_elem_of_here | apply list_elem_of_further].

(** Three entries with counts 3, 5 and 5, sorted by decreasing count. *)
Lemma three_ranked (r1 r2 r3 : Absentee) (l : list Absentee) :
  absenceCount r1 = 3 → absenceCount r2 = 5 → absenceCount r3 = 5 →
  r2 ≠ r3 →
  Permutation l [r1; r2; r3] →
  StronglySorted (λ a b, absenceCount b ≤ absenceCount a) l →
  l = [r2; r3; r1] ∨ l = [r3; r2; r1].
Proof.
  intros H1 H2 H3 Hne Hperm Hsorted.
  pose proof (Permutation_length Hperm) as Hlen.
  destruct l as [|x [|y [|z [|? ?]]]]; try discriminate Hlen.
  assert (Hin : ∀ e, e ∈ [x; y; z] ↔ e ∈ [r1; r2; r3])
    by (intros e; rewrite Hperm; reflexivity).
  pose proof (proj1 (Hin x) ltac:(list_member)) as Hx.
  pose proof (proj1 (Hin y) ltac:(list_member)) as Hy.
  pose proof (proj1 (Hin z) ltac:(list_member)) as Hz.
  pose proof (proj2 (Hin r1) ltac:(list_member)) as Hr1.
  pose proof (proj2 (Hin r2) ltac:(list_member)) as Hr2.
  pose proof (proj2 (Hin r3) ltac:(list_member)) as Hr3.
  clear Hin Hperm Hlen.
  apply StronglySorted_cons in Hsorted as [Hxs Hsorted].
  apply StronglySorted_cons in Hsorted as [Hys _].
  apply Forall_cons in Hxs as [Hxy Hxs]. apply Forall_cons in Hxs as [Hxz _].
  apply Forall_cons in Hys as [Hyz _].
  rewrite !elem_of_cons, elem_of_nil in Hx, Hy, Hz, Hr1, Hr2, Hr3.
  destruct Hx as [->|[->|[->|[]]]]; destruct Hy as [->|[->|[->|[]]]];
    destruct Hz as [->|[->|[->|[]]]];
    try lia; try (left; reflexivity); try (right; reflexivity);
    exfalso;
    destruct Hr1 as [?|[?|[?|[]]]]; destruct Hr2 as [?|[?|[?|[]]]];
    destruct Hr3 as [?|[?|[?|[]]]]; congruence.
Qed.

Lemma absent_count_row_key (k : option Val) (rows : list Obj) :
  absent_count k rows =
    Z.of_nat (length (List.filter
      (λ p, bool_decide (p = (k, Some (VStr "absent")))) (row_key <$> rows))).
Proof.
  unfold absent_count, strict_eq. do 2 f_equal.
  induction rows as [|a rows IH]; simpl; [reflexivity|].
  unfold row_key at 1.
  repeat case_bool_decide; simplify_eq; simpl;
    first [congruence | f_equal; exact IH | exact IH].
Qed.

Lemma absent_count_perm (k : option Val) (rows : list Obj)
    (keys : list (option Val * option Val)) :
  Permutation (row_key <$> rows) keys →
  absent_count k rows =
    Z.of_nat (length (List.filter
      (λ p, bool_decide (p = (k, Some (VStr "absent")))) keys)).
Proof.
  intros Hperm. rewrite absent_count_row_key. f_equal.
  apply Permutation_length, js_filter_perm, Hperm.
Qed.

Lemma filter_replicate_length {A} (p : A → bool) (n : nat) (x : A) :
  length (List.filter p (replicate n x)) = if p x then n else 0%nat.
Proof.
  induction n as [|n IH]; simpl; [destruct (p x); reflexivity|].
  destruct (p x); simpl; [f_equal|]; exact IH.
Qed.

Lemma key_test (s k status : option Val) :
  bool_decide ((s, status) = (k, status)) = bool_decide (k = s).
Proof. apply bool_decide_ext. split; congruence. Qed.

(** The ranking of the example: three rows for [s1], five each for [s2] and
    [s3], in any order. *)
Lemma example_ranking (rows students : list Obj) (s1 s2 s3 : option Val) :
  s1 ≠ s2 → s1 ≠ s3 → s2 ≠ s3 →
  Permutation (row_key <$> rows)
    (replicate 3 (s1, Some (VStr "absent"))
     ++ replicate 5 (s2, Some (VStr "absent"))
     ++ replicate 5 (s3, Some (VStr "absent"))) →
  let r1 := to_absentee students (s1, 3) in
  let r2 := to_absentee students (s2, 5) in
  let r3 := to_absentee students (s3, 5) in
  ranked rows students = [r2; r3; r1] ∨ ranked rows students = [r3; r2; r1].
Proof.
  intros H12 H13 H23 Hperm r1 r2 r3.
  assert (Hcount : ∀ k, absent_count k rows =
            if decide (k = s1) then 3
            else if decide (k = s2) then 5
            else if decide (k = s3) then 5 else 0).
  { intros k. rewrite (absent_count_perm k rows _ Hperm).
    rewrite !List.filter_app, !length_app, !filter_replicate_length.
    rewrite !key_test.
    repeat case_decide; repeat case_bool_decide; subst;
      first [congruence | reflexivity]. }
  destruct (absencesByStudent_spec rows) as [Hnd Hspec].
  assert (Hgroups : Permutation (absencesByStudent rows)
                      [(s1, 3); (s2, 5); (s3, 5)]).
  { apply NoDup_Permutation.
    - eapply NoDup_fmap_1, Hnd.
    - repeat (constructor; [rewrite ?elem_of_cons, elem_of_nil;
                            intros ?; intuition congruence|]).
      constructor.
    - intros [k c]. rewrite Hspec, Hcount, !elem_of_cons, elem_of_nil.
      split.
      + intros [-> Hc]. repeat case_decide; subst; auto; lia.
      + intros [[= -> ->]|[[= -> ->]|[[= -> ->]|[]]]];
          repeat case_decide; try congruence; split; (reflexivity || lia). }
  apply three_ranked; try reflexivity.
  - intros Heq. apply (f_equal studentId) in Heq. simpl in Heq. congruence.
  - rewrite (ranked_perm rows students), Hgroups. reflexivity.
  - apply ranked_sorted.
Qed.

(** C4. Top absentees.  The array before [slice] has one entry per student
    with at least one row of status ["absent"], carrying the number of such
    rows for that [studentId] (rows of any other status are not counted), in
    order of decreasing count.  The response is its first [limit] entries,
    the first five without a [limit] parameter, so an entry left out never
    has a larger count than one kept.  For three ["absent"] rows of [s1] and
    five each of [s2] and [s3], in whatever order, [limit = 2] returns the
    entries of [s2] and [s3], each with count 5, and not [s1]. *)
Theorem C4_top_absentees (rows students : list Obj) :
  let all := ranked rows students in
  NoDup (studentId <$> all)
  ∧ (∀ sid, sid ∈ studentId <$> all ↔ 0 < absent_count sid rows)
  ∧ (∀ e, e ∈ all → absenceCount e = absent_count (studentId e) rows)
  ∧ StronglySorted (λ a b, absenceCount b ≤ absenceCount a) all
  ∧ topAbsentees None rows students = take 5 all
  ∧ (∀ n, 0 ≤ n →
       topAbsentees (Some (Int n)) rows students = take (Z.to_nat n) all
       ∧ ∀ e e', e ∈ topAbsentees (Some (Int n)) rows students →
                 e' ∈ drop (Z.to_nat n) all →
                 absenceCount e' ≤ absenceCount e)
  ∧ (∀ s1 s2 s3 : option Val,
       s1 ≠ s2 → s1 ≠ s3 → s2 ≠ s3 →
       Permutation (row_key <$> rows)
         (replicate 3 (s1, Some (VStr "absent"))
          ++ replicate 5 (s2, Some (VStr "absent"))
          ++ replicate 5 (s3, Some (VStr "absent"))) →
       ∃ e e',
         topAbsentees (Some (Int 2)) rows students = [e; e']
         ∧ absenceCount e = 5 ∧ absenceCount e' = 5
         ∧ ((studentId e = s2 ∧ studentId e' = s3)
            ∨ (studentId e = s3 ∧ studentId e' = s2))
         ∧ studentId e ≠ s1 ∧ studentId e' ≠ s1).
Proof.
  intros all. subst all.
  assert (Htake : ∀ n, 0 ≤ n →
            topAbsentees (Some (Int n)) rows students
            = take (Z.to_nat n) (ranked rows students)).
  { intros n Hn. unfold topAbsentees. simpl. apply slice0_nonneg, Hn. }
  split_and!.
  - rewrite (ranked_ids rows students).
    apply (absencesByStudent_spec rows).
  - intros sid. rewrite list_elem_of_fmap. split.
    + intros (e & -> & He). apply ranked_elem in He as (k & c & -> & -> & Hc).
      exact Hc.
    + intros Hc. exists (to_absentee students (sid, absent_count sid rows)).
      split; [reflexivity|]. apply ranked_elem. eauto.
  - intros e He. apply ranked_elem in He as (k & c & -> & -> & Hc).
    reflexivity.
  - apply ranked_sorted.
  - unfold topAbsentees. simpl. apply (slice0_nonneg 5). lia.
  - intros n Hn. split; [apply Htake, Hn|]. rewrite (Htake n Hn).
    intros e e' He He'.
    pose proof (ranked_sorted rows students) as Hs.
    rewrite <- (take_drop (Z.to_nat n) (ranked rows students)) in Hs.
    exact (StronglySorted_app_1_elem_of _ _ _ _ _ Hs He He').
  - intros s1 s2 s3 H12 H13 H23 Hperm. rewrite (Htake 2) by lia.
    destruct (example_ranking rows students s1 s2 s3 H12 H13 H23 Hperm)
      as [-> | ->]; simpl;
      (eexists _, _; split; [reflexivity|]); simpl;
      split_and!; auto.
Qed.

Lemma C4_top_absentees_witness :
  Permutation (row_key <$> sample_absences)
    (replicate 3 (Some (VNum 1), Some (VStr "absent"))
     ++ replicate 5 (Some (VNum 2), Some (VStr "absent"))
     ++ replicate 5 (Some (VNum 3), Some (VStr "absent")))
  ∧ ∃ e e',
      topAbsentees (Some (Int 2)) sample_absences (listStudents campus)
        = [e; e']
      ∧ absenceCount e = 5 ∧ absenceCount e' = 5
      ∧ studentId e ≠ Some (VNum 1) ∧ studentId e' ≠ Some (VNum 1).
Proof.
  assert (Hperm : Permutation (row_key <$> sample_absences)
            (replicate 3 (Some (VNum 1), Some (VStr "absent"))
             ++ replicate 5 (Some (VNum 2), Some (VStr "absent"))
             ++ replicate 5 (Some (VNum 3), Some (VStr "absent")))).
  { apply (bool_decide_unpack _). vm_compute. exact I. }
  split; [exact Hperm|].
  destruct (C4_top_absentees sample_absences (listStudents campus))
    as (_ & _ & _ & _ & _ & _ & Hex).
  destruct (Hex (Some (VNum 1)) (Some (VNum 2)) (Some (VNum 3))
              ltac:(discriminate) ltac:(discriminate) ltac:(discriminate)
              Hperm)
    as (e & e' & Htop & Hc & Hc' & _ & Hs & Hs').
  exists e, e'. split_and!; assumption.
Defined.

(** The same request evaluated: student 3 was seen first, so it comes
    first among the two students with five absences. *)
Example top_two_of_sample :
  (λ e, (studentId e, studentName e, absenceCount e)) <$>
    topAbsentees (Some (Int 2)) sample_absences (listStudents campus)
  = [(Some (VNum 3), "Cy Martin", 5); (Some (VNum 2), "Bo Martin", 5)].
Proof. vm_compute. reflexivity. Qed.

(** ** Threshold report *)

Import AbsenceReports.

Lemma getStudentAbsences_absent_only (rows : list Absence.t) (sid : Z) :
  getStudentAbsences (Some rows) sid =
    getStudentAbsences
      (Some (List.filter (λ a, bool_decide (Absence.status a = ABSENT)) rows))
      sid.
Proof.
  unfold getStudentAbsences. do 2 f_equal.
  induction rows as [|a rows IH]; simpl; [reflexivity|].
  destruct (bool_decide (Absence.status a = ABSENT)) eqn:Hs; simpl.
  - rewrite Hs, andb_true_r.
    destruct (bool_decide (Absence.studentId a = sid)); [f_equal|]; exact IH.
  - rewrite andb_false_r. exact IH.
Qed.

(** A course whose threshold is missing or 0 has no card, so nobody is
    flagged for it; otherwise the card lists the enrolled students whose
    count is above the threshold. *)
Lemma card_spec (students : list Student.t) (rows : list Absence.t)
    (course : Course.t) :
  match Course.absenceThreshold course with
  | None | Some 0 =>
      studentsExceedingThreshold (Some students) (Some rows) course = None
  | Some t =>
      studentsExceedingThreshold (Some students) (Some rows) course =
        Some (List.filter
                (λ st, getStudentAbsences (Some rows) (Student.id st) >? t)
                (List.filter
                   (λ st, bool_decide (Student.courseId st = Course.id course))
                   students))
  end.
Proof.
  unfold studentsExceedingThreshold, or_else, falsy.
  destruct (Course.absenceThreshold course) as [[|t|t]|]; reflexivity.
Qed.

(** C5, as the code has it.  For a course whose threshold is a number other
    than 0 and a student of the list enrolled in it, the report flags the
    student exactly when the number of the student's rows of status
    ["absent"] is strictly greater than the threshold; rows of another
    status do not count, and a student whose count equals the threshold is
    not flagged.  A course whose threshold is 0 or missing has no card and
    flags nobody. *)
Theorem C5_threshold_breach (students : list Student.t)
    (rows : list Absence.t) (course : Course.t) (t : Z)
    (student : Student.t)
    (Ht : Course.absenceThreshold course = Some t)
    (Hnz : t ≠ 0)
    (Hin : In student students)
    (Henrolled : Student.courseId student = Course.id course) :
  (flagged (Some students) (Some rows) course student
   ↔ t < getStudentAbsences (Some rows) (Student.id student))
  ∧ (getStudentAbsences (Some rows) (Student.id student) = t →
     ¬ flagged (Some students) (Some rows) course student)
  ∧ getStudentAbsences (Some rows) (Student.id student) =
      getStudentAbsences
        (Some (List.filter (λ a, bool_decide (Absence.status a = ABSENT))
                 rows))
        (Student.id student)
  ∧ (∀ course',
       Course.absenceThreshold course' = Some 0
       ∨ Course.absenceThreshold course' = None →
       ¬ flagged (Some students) (Some rows) course' student).
Proof.
  assert (Hiff : flagged (Some students) (Some rows) course student
                 ↔ t < getStudentAbsences (Some rows) (Student.id student)).
  { unfold flagged. pose proof (card_spec students rows course) as Hcard.
    rewrite Ht in Hcard. destruct t as [|t|t]; [congruence| |];
      rewrite Hcard; (split;
        [ intros (l & [= <-] & Hl);
          apply filter_In in Hl as [_ Hgt]; apply Z.gtb_lt in Hgt; exact Hgt
        | intros Hgt; eexists; split; [reflexivity|];
          apply filter_In; split;
            [ apply filter_In; split;
                [exact Hin | apply bool_decide_eq_true; exact Henrolled]
            | apply Z.gtb_lt; exact Hgt ] ]). }
  split_and!.
  - exact Hiff.
  - intros Heq Hf. apply Hiff in Hf. lia.
  - apply getStudentAbsences_absent_only.
  - intros course' Hc' (l & Hl & _).
    pose proof (card_spec students rows course') as Hcard.
    destruct Hc' as [Hc'|Hc']; rewrite Hc' in Hcard; congruence.
Qed.

Lemma C5_threshold_breach_witness :
  Course.absenceThreshold strict_course = Some 3
  ∧ 3 ≠ 0
  ∧ In student_a [student_a; student_b]
  ∧ In student_b [student_a; student_b]
  ∧ getStudentAbsences (Some term_absences) (Student.id student_a) = 4
  ∧ getStudentAbsences (Some term_absences) (Student.id student_b) = 3
  ∧ flagged (Some [student_a; student_b]) (Some term_absences)
      strict_course student_a
  ∧ ¬ flagged (Some [student_a; student_b]) (Some term_absences)
        strict_course student_b.
Proof.
  assert (Ha : In student_a [student_a; student_b]) by (left; reflexivity).
  assert (Hb : In student_b [student_a; student_b])
    by (right; left; reflexivity).
  assert (Hnz : 3 ≠ 0) by lia.
  split_and!; try reflexivity; try assumption.
  - destruct (C5_threshold_breach [student_a; student_b] term_absences
                strict_course 3 student_a eq_refl Hnz Ha eq_refl)
      as (Hiff & _).
    apply Hiff. reflexivity.
  - destruct (C5_threshold_breach [student_a; student_b] term_absences
                strict_course 3 student_b eq_refl Hnz Hb eq_refl)
      as (_ & Heq & _).
    apply Heq. reflexivity.
Defined.

(** The claim as the specification words it, for every course that has a
    threshold, fails when the threshold is 0: the student has one ["absent"]
    row, which is more than 0, and is not flagged, the course having no
    card. *)
Lemma C5_counterexample :
  Course.absenceThreshold zero_course = Some 0
  ∧ In student_a [student_a]
  ∧ Student.courseId student_a = Course.id zero_course
  ∧ 0 < getStudentAbsences (Some [absent_row 1 1 1]) (Student.id student_a)
  ∧ studentsExceedingThreshold (Some [student_a]) (Some [absent_row 1 1 1])
      zero_course = None
  ∧ ¬ flagged (Some [student_a]) (Some [absent_row 1 1 1]) zero_course
        student_a.
Proof.
  split_and!; try reflexivity.
  - left. reflexivity.
  - intros (l & Hl & _). discriminate Hl.
Qed.

(** ** Worked examples *)

(** An identifier freed by a delete is not handed out again. *)
Example ids_not_reused :
  returned_ids Users
    [CreateUser (twin "a@example.com"); DeleteUser 4;
     CreateUser (twin "b@example.com")]
    new_MemStorage
  = [Some (VNum 4); Some (VNum 5)].
Proof. reflexivity. Qed.

(** [slice] with a negative end drops from the end; with NaN it keeps
    nothing. *)
Example slice0_negative : slice0 (Int (-1)) [1; 2; 3] = [1; 2].
Proof. reflexivity. Qed.

Example slice0_NaN : slice0 NaN [1; 2; 3] = [].
Proof. reflexivity. Qed.

(** The scenario: student 1 leads with two absences, student 2 follows with
    one. *)
Example scenario_top_absentees :
  (λ e, (studentId e, studentName e, absenceCount e)) <$>
    handler (Some (Int 5)) scenario
  = [(Some (VNum 1), "Ana Martin", 2); (Some (VNum 2), "Bo Martin", 1)].
Proof. vm_compute. reflexivity. Qed.

(** The report of the example of the specification: threshold 3, student A
    with four absences is listed, student B with three is not. *)
Example threshold_cards :
  thresholdCards (Some [strict_course]) (Some [student_a; student_b])
    (Some term_absences)
  = Some [(strict_course, Some [student_a])].
Proof. reflexivity. Qed.

(** * Further properties of the repository *)

(** ** Reachable stores *)

Lemma StronglySorted_sublist {A} (R : A → A → Prop) (l1 l2 : list A) :
  sublist l1 l2 → StronglySorted R l2 → StronglySorted R l1.
Proof.
  induction 1 as [|x l1 l2 Hsub IH|x l1 l2 Hsub IH]; intros Hs.
  - constructor.
  - apply StronglySorted_cons in Hs as [Hx Hs]. constructor; [auto|].
    rewrite Forall_forall in *. intros y Hy. apply Hx.
    eapply elem_of_sublist; eassumption.
  - apply StronglySorted_cons in Hs as [_ Hs]. auto.
Qed.

Lemma ascending_create (n : Z) (o : Obj) (m : list (Z * Obj)) :
  table_ok n m → StronglySorted Z.lt (map_keys m) →
  StronglySorted Z.lt (map_keys (map_set n (with_id o n) m)).
Proof.
  intros Hok Hs.
  pose proof (table_ok_fresh_key n m n Hok (Z.le_refl n)) as Hn.
  rewrite map_keys_set. unfold map_has. rewrite Hn.
  apply StronglySorted_app. split_and!; [|exact Hs|repeat constructor].
  intros k k' Hk Hk'. apply list_elem_of_singleton in Hk'. subst k'.
  destruct Hok as (_ & _ & Hall). unfold map_keys in Hk.
  apply list_elem_of_fmap in Hk as ([k0 r] & -> & Hin).
  rewrite Forall_forall in Hall. apply Hall in Hin. simpl in *. lia.
Qed.

Lemma ascending_update (k : Z) (v v' : Obj) (m : list (Z * Obj)) :
  map_get k m = Some v' → StronglySorted Z.lt (map_keys m) →
  StronglySorted Z.lt (map_keys (map_set k v m)).
Proof.
  intros Hget Hs. rewrite map_keys_set. unfold map_has. rewrite Hget.
  exact Hs.
Qed.

Lemma ascending_remove (k : Z) (m : list (Z * Obj)) :
  StronglySorted Z.lt (map_keys m) →
  StronglySorted Z.lt (map_keys (map_remove k m)).
Proof.
  apply StronglySorted_sublist. unfold map_keys.
  apply (fmap_sublist fst), map_remove_sublist.
Qed.

Ltac ascending_cases :=
  first
    [ assumption
    | apply ascending_create; assumption
    | eapply ascending_update; eassumption
    | apply ascending_remove; assumption ].

Ltac all_ascending Hasc :=
  pose proof (Hasc Users); pose proof (Hasc Departments);
  pose proof (Hasc Courses); pose proof (Hasc Modules);
  pose proof (Hasc ModuleElements); pose proof (Hasc TeacherModuleElements);
  pose proof (Hasc Students); pose proof (Hasc StudentGroups);
  pose proof (Hasc StudentGroupAssignments); pose proof (Hasc Sessions);
  pose proof (Hasc Absences); clear Hasc; simpl in *.

Lemma createAbsence_ascending (a : Obj) (s : MemStorage) :
  store_ok s → ascending s → ascending (createAbsence a s).2.
Proof.
  intros Hok Hasc c. all_tables Hok. all_ascending Hasc.
  destruct c; simpl; ascending_cases.
Qed.

Lemma run_creates_ascending (l : list Obj) : ∀ s,
  store_ok s → ascending s → ascending (run (CreateAbsence <$> l) s).
Proof.
  induction l as [|a l IH]; intros s Hok Hasc; simpl; [exact Hasc|].
  apply IH; [apply (createAbsence_ok a s), Hok|].
  apply (createAbsence_ascending a s); assumption.
Qed.

Lemma exec_ascending (call : Call) (s : MemStorage) :
  store_ok s → ascending s → ascending (exec call s).2.
Proof.
  intros Hok Hasc.
  destruct call;
    try (intros c; all_tables Hok; all_ascending Hasc;
         destruct c; exec_cases; ascending_cases).
  unfold exec, batchCreateAbsences. rewrite batch_loop_spec. simpl.
  apply run_creates_ascending; assumption.
Qed.

Lemma run_ascending (calls : list Call) : ∀ s,
  Forall typed calls → store_ok s → ascending s →
  ascending (run calls s).
Proof.
  induction calls as [|call calls IH]; intros s Ht Hok Hasc; simpl;
    [exact Hasc|].
  apply Forall_cons in Ht as [Ht Hts]. apply IH; [exact Hts| |].
  - apply exec_ok; assumption.
  - apply exec_ascending; assumption.
Qed.

Lemma fresh_ascending : ascending fresh.
Proof. intros c. destruct c; constructor. Qed.

(** X1. Every store reached from [new MemStorage()] by calls with
    well-typed payloads is well formed: in every collection the counter is
    at least 1, no identifier is held twice, and a record found under an
    identifier carries that identifier in its [id] field, which lies between
    1 and the counter. *)
Theorem X1_reachable_store_well_formed (calls : list Call) (c : Coll)
    (Htyped : Forall typed calls) :
  let s := run calls new_MemStorage in
  1 ≤ counter c s
  ∧ NoDup (map_keys (table c s))
  ∧ ∀ id r, map_get id (table c s) = Some r →
            field r "id" = Some (VNum id) ∧ 1 ≤ id < counter c s.
Proof.
  intros s.
  assert (Hok : store_ok s) by (apply run_ok, new_MemStorage_ok; exact Htyped).
  destruct (Hok c) as (Hpos & Hnd & Hall). split_and!; try assumption.
  intros id r Hget. apply map_get_Some_elem in Hget.
  rewrite Forall_forall in Hall. exact (Hall _ Hget).
Qed.

Lemma X1_reachable_store_witness :
  Forall typed [CreateCourse sample_course; UpdateUser 1 email_patch;
                DeleteUser 2]
  ∧ getUser 3 (run [CreateCourse sample_course; UpdateUser 1 email_patch;
                    DeleteUser 2] new_MemStorage)
    = Some (with_id head_user 3)
  ∧ field (with_id head_user 3) "id" = Some (VNum 3).
Proof.
  assert (Ht : Forall typed [CreateCourse sample_course;
                             UpdateUser 1 email_patch; DeleteUser 2])
    by (repeat constructor).
  split; [exact Ht|]. split; [reflexivity|].
  destruct (X1_reachable_store_well_formed _ Users Ht) as (_ & _ & Hid).
  apply (Hid 3). reflexivity.
Defined.

(** X2. In every store reached from [new MemStorage()] the list of a
    collection is in strictly ascending order of [id]: records come out in
    the order they were created, wherever updates and deletes fell. *)
Theorem X2_lists_in_ascending_id_order (calls : list Call) (c : Coll)
    (Htyped : Forall typed calls) :
  let s := run calls new_MemStorage in
  ∃ ids : list Z,
    (λ r, field r "id") <$> map_values (table c s)
      = (λ i, Some (VNum i)) <$> ids
    ∧ StronglySorted Z.lt ids.
Proof.
  intros s. exists (map_keys (table c s)).
  assert (Hok : store_ok s) by (apply run_ok, new_MemStorage_ok; exact Htyped).
  split; [apply (table_ok_ids _ _ (Hok c))|].
  subst s. rewrite new_MemStorage_run, <- run_app.
  apply run_ascending; [|apply fresh_ok|apply fresh_ascending].
  apply Forall_app. split; [repeat constructor | exact Htyped].
Qed.

Lemma X2_ascending_witness :
  Forall typed [CreateUser (twin "a@example.com"); DeleteUser 2;
                UpdateUser 1 email_patch; CreateUser (twin "b@example.com")]
  ∧ (λ r, field r "id") <$>
      listUsers (run [CreateUser (twin "a@example.com"); DeleteUser 2;
                      UpdateUser 1 email_patch;
                      CreateUser (twin "b@example.com")] new_MemStorage)
    = [Some (VNum 1); Some (VNum 3); Some (VNum 4); Some (VNum 5)]
  ∧ ∃ ids : list Z,
      (λ r, field r "id") <$>
        listUsers (run [CreateUser (twin "a@example.com"); DeleteUser 2;
                        UpdateUser 1 email_patch;
                        CreateUser (twin "b@example.com")] new_MemStorage)
        = (λ i, Some (VNum i)) <$> ids
      ∧ StronglySorted Z.lt ids.
Proof.
  assert (Ht : Forall typed [CreateUser (twin "a@example.com"); DeleteUser 2;
                             UpdateUser 1 email_patch;
                             CreateUser (twin "b@example.com")])
    by (repeat constructor).
  split; [exact Ht|]. split; [reflexivity|].
  exact (X2_lists_in_ascending_id_order _ Users Ht).
Defined.

(** ** Create, delete and the lists *)

(** X3. Create and read back.  On a well-formed store a create returns the
    data with the counter as [id] (an [id] in the data is overwritten, the
    other fields are kept); the identifier was free; [get] of it now
    returns the record; the list of the collection is the old list with the
    record appended; every other identifier reads as before. *)
Theorem X3_create_then_read (call : Call) (c : Coll) (o : Obj)
    (s : MemStorage)
    (Hcall : as_create call = Some (c, o))
    (Hok : store_ok s) :
  ∃ r s',
    exec call s = (RObj r, s')
    ∧ field r "id" = Some (VNum (counter c s))
    ∧ (∀ f, f ≠ "id" → field r f = field o f)
    ∧ map_get (counter c s) (table c s) = None
    ∧ map_get (counter c s) (table c s') = Some r
    ∧ map_values (table c s') = map_values (table c s) ++ [r]
    ∧ (∀ id, id ≠ counter c s →
         map_get id (table c s') = map_get id (table c s)).
Proof.
  destruct (create_spec call c o s Hcall) as (s' & He & Ht & _ & _).
  pose proof (table_ok_fresh_key _ _ (counter c s) (Hok c) (Z.le_refl _))
    as Hfree.
  exists (with_id o (counter c s)), s'. split_and!.
  - exact He.
  - apply field_with_id.
  - intros f Hf. apply field_with_id_ne, Hf.
  - exact Hfree.
  - rewrite Ht, map_get_set, decide_True; reflexivity.
  - rewrite Ht, (map_set_fresh _ _ _ Hfree). unfold map_values.
    rewrite map_app. reflexivity.
  - intros id Hid. rewrite Ht, map_get_set, decide_False by congruence.
    reflexivity.
Qed.

Lemma X3_create_witness :
  as_create (CreateModule sample_module) = Some (Modules, sample_module)
  ∧ store_ok campus
  ∧ ∃ r s',
      exec (CreateModule sample_module) campus = (RObj r, s')
      ∧ field r "id" = Some (VNum 2)
      ∧ listModules s' = listModules campus ++ [r].
Proof.
  assert (Hok : store_ok campus).
  { unfold campus. apply run_ok; [repeat constructor|].
    apply new_MemStorage_ok. }
  split; [reflexivity|]. split; [exact Hok|].
  destruct (X3_create_then_read (CreateModule sample_module) Modules
              sample_module campus eq_refl Hok)
    as (r & s' & He & Hid & _ & _ & _ & Hlist & _).
  exists r, s'. split_and!; assumption.
Defined.

Lemma map_values_remove (k : Z) (m : list (Z * Obj)) :
  map_values (map_remove k m)
  = map_values (List.filter (λ e, bool_decide (e.1 ≠ k)) m).
Proof.
  unfold map_values. f_equal.
  induction m as [|[k0 v0] m IH]; simpl; [reflexivity|].
  destruct (decide (k0 = k)) as [->|Hne].
  - rewrite bool_decide_false by (intros ?; congruence). exact IH.
  - rewrite bool_decide_true by exact Hne. simpl. f_equal. exact IH.
Qed.

Lemma map_remove_length (k : Z) (r : Obj) (m : list (Z * Obj)) :
  NoDup (map_keys m) → map_get k m = Some r →
  S (length (map_remove k m)) = length m.
Proof.
  induction m as [|[k0 v0] m IH]; simpl; [discriminate|].
  rewrite NoDup_cons. intros [Hk0 Hnd].
  destruct (decide (k0 = k)) as [->|Hne].
  - intros _. rewrite map_remove_absent; [reflexivity|].
    apply map_get_None. exact Hk0.
  - intros Hget. simpl. f_equal. apply IH; assumption.
Qed.

(** X4. Delete.  A delete answers whether the identifier was held.
    Afterwards [get] of it returns nothing, the list of the collection is
    the old list without the entries of that identifier, every other
    identifier reads as before, and no other collection and no counter
    moves.  On a well-formed store a delete that answers [true] shortens
    the list by exactly one record. *)
Theorem X4_delete_removes_one (call : Call) (c : Coll) (id : Z)
    (s : MemStorage)
    (Hcall : as_delete call = Some (c, id)) :
  ∃ s',
    exec call s = (RBool (map_has id (table c s)), s')
    ∧ map_get id (table c s') = None
    ∧ map_values (table c s')
      = map_values (List.filter (λ e, bool_decide (e.1 ≠ id)) (table c s))
    ∧ (∀ id', id' ≠ id → map_get id' (table c s') = map_get id' (table c s))
    ∧ (∀ c', c' ≠ c → table c' s' = table c' s)
    ∧ nextIds s' = nextIds s
    ∧ (store_ok s → map_has id (table c s) = true →
       S (length (map_values (table c s')))
       = length (map_values (table c s))).
Proof.
  assert (Hlen : store_ok s → map_has id (table c s) = true →
            S (length (map_values (map_remove id (table c s))))
            = length (map_values (table c s))).
  { intros Hok Hhas. apply map_has_true in Hhas as [r Hr].
    unfold map_values. rewrite !length_map.
    eapply map_remove_length; [apply (Hok c) | exact Hr]. }
  by_call call; (eexists; split; [reflexivity|]); simpl;
    (split_and!;
     [ rewrite map_get_remove, decide_True; reflexivity
     | apply map_values_remove
     | intros id' Hne; rewrite map_get_remove, decide_False by congruence;
       reflexivity
     | intros c' Hc'; destruct c'; simpl; congruence
     | reflexivity
     | exact Hlen ]).
Qed.

Lemma X4_delete_witness :
  as_delete (DeleteStudent 2) = Some (Students, 2)
  ∧ ∃ s',
      exec (DeleteStudent 2) campus = (RBool true, s')
      ∧ getStudent 2 s' = None
      ∧ listStudents s'
        = [with_id (sample_student "E1" "Ana") 1;
           with_id (sample_student "E3" "Cy") 3].
Proof.
  split; [reflexivity|].
  destruct (X4_delete_removes_one (DeleteStudent 2) Students 2 campus
              eq_refl)
    as (s' & He & Hget & Hlist & _).
  exists s'. split_and!; [exact He | exact Hget |].
  unfold listStudents. simpl in Hlist. rewrite Hlist. reflexivity.
Defined.

(** ** Identifiers are not handed out again *)

Lemma absent_stays (c : Coll) (call : Call) (s : MemStorage) (i : Z) :
  i < counter c s → map_get i (table c s) = None →
  map_get i (table c (exec call s).2) = None.
Proof.
  intros Hlt Hnone.
  destruct call;
    try (destruct c; unfold exec; exec_cases;
         rewrite ?map_get_set, ?map_get_remove;
         repeat case_decide; simplify_eq;
         first [assumption | reflexivity | lia | congruence]).
  unfold exec, batchCreateAbsences. rewrite batch_loop_spec. simpl.
  destruct (decide (c = Absences)) as [->|Hc];
    [|rewrite run_creates_table by exact Hc; exact Hnone].
  revert s Hlt Hnone.
  induction absences0 as [|a l IH]; intros s Hlt Hnone; simpl in *;
    [exact Hnone|].
  apply IH; simpl; [lia|].
  rewrite map_get_set, decide_False by lia. exact Hnone.
Qed.

Lemma run_absent_stays (c : Coll) (i : Z) (calls : list Call) : ∀ s,
  i < counter c s → map_get i (table c s) = None →
  map_get i (table c (run calls s)) = None.
Proof.
  induction calls as [|call calls IH]; intros s Hlt Hnone; simpl;
    [exact Hnone|].
  apply IH; [rewrite exec_counter; lia|].
  apply absent_stays; assumption.
Qed.

Lemma delete_gone (call : Call) (c : Coll) (id : Z) (s : MemStorage) :
  as_delete call = Some (c, id) →
  ∃ s',
    exec call s = (RBool (map_has id (table c s)), s')
    ∧ map_get id (table c s') = None
    ∧ nextIds s' = nextIds s.
Proof.
  intros Hcall.
  by_call call; (eexists; split; [reflexivity|]); simpl;
    (split; [rewrite map_get_remove, decide_True|]; reflexivity).
Qed.

(** X5. A deleted identifier stays free.  On a well-formed store, once a
    record has been deleted, [get] of its identifier returns nothing after
    any further sequence of calls, and none of the records those calls
    create carries the identifier. *)
Theorem X5_deleted_id_stays_free (call : Call) (c : Coll) (id : Z)
    (s : MemStorage) (later : list Call)
    (Hcall : as_delete call = Some (c, id))
    (Hok : store_ok s)
    (Hheld : map_has id (table c s) = true) :
  (exec call s).1 = RBool true
  ∧ map_get id (table c (run later (exec call s).2)) = None
  ∧ (∀ get, getter c = Some get →
       get id (run later (exec call s).2) = None)
  ∧ Some (VNum id) ∉ returned_ids c later (exec call s).2.
Proof.
  destruct (delete_gone call c id s Hcall) as (s' & He & Hgone & Hnext).
  rewrite He. simpl. rewrite Hheld.
  assert (Hlt : id < counter c s').
  { apply map_has_true in Hheld as [r Hr].
    apply map_get_Some_elem in Hr. destruct (Hok c) as (_ & _ & Hall).
    rewrite Forall_forall in Hall. apply Hall in Hr. simpl in Hr.
    replace (counter c s') with (counter c s); [lia|].
    destruct c; simpl; rewrite Hnext; reflexivity. }
  pose proof (run_absent_stays c id later s' Hlt Hgone) as Hstays.
  split_and!.
  - reflexivity.
  - exact Hstays.
  - intros get Hg. destruct c; simpl in *; simplify_eq; exact Hstays.
  - destruct (returned_ids_spec c later s') as [-> _].
    rewrite list_elem_of_fmap. intros (i & [= <-] & Hi).
    apply elem_of_seqZ in Hi. lia.
Qed.

Lemma X5_deleted_id_witness :
  as_delete (DeleteUser 2) = Some (Users, 2)
  ∧ store_ok new_MemStorage
  ∧ map_has 2 (table Users new_MemStorage) = true
  ∧ getUser 2
      (run [CreateUser teacher_user; CreateUser (twin "a@example.com")]
         (exec (DeleteUser 2) new_MemStorage).2) = None.
Proof.
  split; [reflexivity|]. split; [exact new_MemStorage_ok|].
  split; [reflexivity|].
  destruct (X5_deleted_id_stays_free (DeleteUser 2) Users 2 new_MemStorage
              [CreateUser teacher_user; CreateUser (twin "a@example.com")]
              eq_refl new_MemStorage_ok eq_refl)
    as (_ & _ & Hget & _).
  apply Hget. reflexivity.
Defined.

(** ** Lookup by username and login *)

Lemma find_app {A} (p : A → bool) (l1 l2 : list A) :
  find p (l1 ++ l2) =
    match find p l1 with
    | Some x => Some x
    | None => find p l2
    end.
Proof.
  unfold find. induction l1 as [|x l1 IH]; simpl; [reflexivity|].
  destruct (p x); [reflexivity | exact IH].
Qed.

Lemma find_split {A} (p : A → bool) (l : list A) (x : A) :
  find p l = Some x →
  ∃ l1 l2, l = l1 ++ x :: l2 ∧ p x = true ∧ Forall (λ y, p y = false) l1.
Proof.
  unfold find. induction l as [|y l IH]; simpl; [discriminate|].
  destruct (p y) eqn:Hy.
  - intros [= ->]. exists [], l. split_and!; [reflexivity|exact Hy|constructor].
  - intros Hf. destruct (IH Hf) as (l1 & l2 & -> & Hx & Hl1).
    exists (y :: l1), l2. split_and!; [reflexivity|exact Hx|].
    constructor; assumption.
Qed.

Lemma find_None_Forall {A} (p : A → bool) (l : list A) :
  find p l = None ↔ Forall (λ y, p y = false) l.
Proof.
  unfold find. induction l as [|y l IH]; simpl.
  - split; [constructor | reflexivity].
  - rewrite Forall_cons. destruct (p y); [|rewrite IH; tauto].
    split; [discriminate | intros [? _]; discriminate].
Qed.

Lemma strict_eq_false (a b : option Val) : strict_eq a b = false ↔ a ≠ b.
Proof. unfold strict_eq. apply bool_decide_eq_false. Qed.

Lemma createUser_list (o : Obj) (s : MemStorage) :
  store_ok s →
  listUsers (createUser o s).2 = listUsers s ++ [(createUser o s).1].
Proof.
  intros Hok. unfold listUsers, createUser. simpl.
  rewrite map_set_fresh
    by (apply (table_ok_fresh_key _ _ _ (Hok Users)); simpl; lia).
  unfold map_values. rewrite map_app. reflexivity.
Qed.

Lemma lookup_after_create (name : string) (s : MemStorage) (o : Obj) :
  store_ok s →
  (∀ u, getUserByUsername name s = Some u →
     getUserByUsername name (createUser o s).2 = Some u)
  ∧ (getUserByUsername name s = None →
     field o "username" = Some (VStr name) →
     getUserByUsername name (createUser o s).2 = Some (createUser o s).1).
Proof.
  intros Hok. unfold getUserByUsername. fold (listUsers s).
  fold (listUsers (createUser o s).2). rewrite (createUser_list o s Hok).
  split.
  - intros u Hf. rewrite find_app, Hf. reflexivity.
  - intros Hf Hname. rewrite find_app, Hf. unfold createUser. simpl.
    unfold find. simpl. rewrite field_with_id_ne by discriminate.
    rewrite (proj2 (strict_eq_true _ _) Hname). reflexivity.
Qed.

(** X6. Lookup by username.  [getUserByUsername] returns nothing exactly
    when no stored user has the username, and otherwise the first user of
    the list that has it.  On a well-formed store a later [createUser]
    never changes the answer for a username already in use, whatever the
    new user is called: the oldest user of a name is the one found; a
    username not yet in use is found right after its first creation. *)
Theorem X6_username_lookup (name : string) (s : MemStorage) (o : Obj)
    (Hok : store_ok s) :
  (getUserByUsername name s = None
   ↔ ∀ u, u ∈ listUsers s → field u "username" ≠ Some (VStr name))
  ∧ (∀ u, getUserByUsername name s = Some u →
       ∃ before after,
         listUsers s = before ++ u :: after
         ∧ field u "username" = Some (VStr name)
         ∧ ∀ v, v ∈ before → field v "username" ≠ Some (VStr name))
  ∧ (∀ u, getUserByUsername name s = Some u →
       getUserByUsername name (createUser o s).2 = Some u)
  ∧ (getUserByUsername name s = None →
     field o "username" = Some (VStr name) →
     getUserByUsername name (createUser o s).2 = Some (createUser o s).1).
Proof.
  unfold getUserByUsername. fold (listUsers s).
  fold (listUsers (createUser o s).2). rewrite (createUser_list o s Hok).
  split_and!.
  - rewrite find_None_Forall, Forall_forall.
    apply forall_proper. intros u. apply forall_proper. intros _.
    apply strict_eq_false.
  - intros u Hf. apply find_split in Hf as (before & after & -> & Hu & Hb).
    exists before, after. split_and!; [reflexivity| |].
    + apply strict_eq_true, Hu.
    + rewrite Forall_forall in Hb. intros v Hv.
      apply strict_eq_false, Hb, Hv.
  - intros u Hf. rewrite find_app, Hf. reflexivity.
  - intros Hf Hname. rewrite find_app, Hf. unfold createUser. simpl.
    unfold find. simpl. rewrite field_with_id_ne by discriminate.
    rewrite (proj2 (strict_eq_true _ _) Hname). reflexivity.
Qed.

Lemma X6_username_lookup_witness :
  store_ok new_MemStorage
  ∧ getUserByUsername "admin" new_MemStorage = Some (with_id admin_user 1)
  ∧ getUserByUsername "admin"
      (createUser
         (list_to_map [("username", VStr "admin"); ("password", VStr "x")])
         new_MemStorage).2
    = Some (with_id admin_user 1).
Proof.
  split; [exact new_MemStorage_ok|]. split; [reflexivity|].
  destruct (X6_username_lookup "admin" new_MemStorage
              (list_to_map [("username", VStr "admin");
                            ("password", VStr "x")])
              new_MemStorage_ok)
    as (_ & _ & Hold & _).
  apply Hold. reflexivity.
Defined.

(** X7. Login.  The verify callback accepts exactly when the user found by
    [getUserByUsername] has the given password, and says "Invalid username"
    exactly when nobody has the username.  Since the oldest user of a name
    is the one found, of two accounts created on a well-formed store with
    the same unused username and different passwords the first can log in
    and the second cannot, although both are stored. *)
Theorem X7_login (name : string) (s : MemStorage) (o1 o2 : Obj)
    (p1 p2 : string)
    (Hok : store_ok s)
    (Hunused : getUserByUsername name s = None)
    (Hname1 : field o1 "username" = Some (VStr name))
    (Hname2 : field o2 "username" = Some (VStr name))
    (Hpass1 : field o1 "password" = Some (VStr p1))
    (Hpass2 : field o2 "password" = Some (VStr p2))
    (Hdiff : p1 ≠ p2) :
  (∀ t pw u,
     verify name pw t = Done u
     ↔ getUserByUsername name t = Some u
       ∧ field u "password" = Some (VStr pw))
  ∧ (∀ t pw,
       verify name pw t = Failed "Invalid username"
       ↔ getUserByUsername name t = None)
  ∧ let s2 := run [CreateUser o1; CreateUser o2] s in
    (∃ r1, verify name p1 s2 = Done r1
           ∧ field r1 "id" = Some (VNum (next_users (nextIds s))))
    ∧ verify name p2 s2 = Failed "Invalid password"
    ∧ (∃ r2, r2 ∈ listUsers s2
             ∧ field r2 "username" = Some (VStr name)
             ∧ field r2 "password" = Some (VStr p2)).
Proof.
  split_and!.
  - intros t pw u. unfold verify.
    destruct (getUserByUsername name t) as [v|]; [|split; [|intros [? _]];
                                                   discriminate].
    destruct (strict_eq (field v "password") (Some (VStr pw))) eqn:Hpw; simpl.
    + apply strict_eq_true in Hpw. split.
      * intros [= ->]. auto.
      * intros [[= ->] _]. reflexivity.
    + apply strict_eq_false in Hpw. split; [discriminate|].
      intros [[= ->] ?]. contradiction.
  - intros t pw. unfold verify.
    destruct (getUserByUsername name t) as [v|];
      [|split; reflexivity].
    destruct (negb _); split; discriminate.
  - intros s2.
    set (s1 := (createUser o1 s).2).
    set (n := next_users (nextIds s)).
    assert (Hok1 : store_ok s1)
      by (apply (exec_ok (CreateUser o1) s); [exact I | exact Hok]).
    assert (Hfound1 : getUserByUsername name s1 = Some (with_id o1 n)).
    { destruct (lookup_after_create name s o1 Hok) as [_ Hnew].
      apply Hnew; assumption. }
    assert (Hfound2 : getUserByUsername name s2 = Some (with_id o1 n)).
    { destruct (lookup_after_create name s1 o2 Hok1) as [Hold _].
      apply Hold, Hfound1. }
    unfold verify. rewrite Hfound2, !field_with_id_ne by discriminate.
    rewrite Hpass1. split_and!.
    + exists (with_id o1 n).
      rewrite (proj2 (strict_eq_true _ _) eq_refl). simpl.
      split; [reflexivity | apply field_with_id].
    + rewrite (proj2 (strict_eq_false _ _)); [reflexivity|].
      intros [= ?]. contradiction.
    + exists (with_id o2 (next_users (nextIds s1))).
      rewrite !field_with_id_ne by discriminate. split_and!; try assumption.
      change (listUsers s2) with (listUsers (createUser o2 s1).2).
      rewrite (createUser_list o2 s1 Hok1). apply elem_of_app. right.
      apply list_elem_of_singleton. reflexivity.
Qed.

Lemma X7_login_witness :
  store_ok new_MemStorage
  ∧ getUserByUsername "twin" new_MemStorage = None
  ∧ field first_twin "password" = Some (VStr "first")
  ∧ field second_twin "password" = Some (VStr "second")
  ∧ "first" ≠ "second"
  ∧ verify "twin" "second"
      (run [CreateUser first_twin; CreateUser second_twin] new_MemStorage)
    = Failed "Invalid password"
  ∧ verify "admin" "admin" new_MemStorage = Done (with_id admin_user 1).
Proof.
  assert (Hdiff : "first" ≠ "second") by discriminate.
  destruct (X7_login "twin" new_MemStorage first_twin second_twin
              "first" "second" new_MemStorage_ok eq_refl eq_refl eq_refl
              eq_refl eq_refl Hdiff)
    as (_ & _ & _ & Hsecond & _).
  split; [exact new_MemStorage_ok|].
  split; [reflexivity|]. split; [reflexivity|]. split; [reflexivity|].
  split; [exact Hdiff|]. split; [exact Hsecond | reflexivity].
Defined.

(** ** Removing an assignment *)

Lemma map_remove_cons_ne (k k0 : Z) (v0 : Obj) (m : list (Z * Obj)) :
  k0 ≠ k → map_remove k ((k0, v0) :: m) = (k0, v0) :: map_remove k m.
Proof. intros Hne. simpl. rewrite decide_False by exact Hne. reflexivity. Qed.

(** In a well-formed table, the first record that passes a test is stored
    under its own [id], and removing that key removes that entry alone. *)
Lemma remove_first_row (n : Z) (p : Obj → bool) (a : Obj)
    (m : list (Z * Obj)) :
  table_ok n m → find p (map_values m) = Some a →
  ∃ k mb ma,
    m = mb ++ (k, a) :: ma
    ∧ field a "id" = Some (VNum k)
    ∧ Forall (λ e, p e.2 = false) mb
    ∧ p a = true
    ∧ map_has k m = true
    ∧ map_remove k m = mb ++ ma.
Proof.
  intros (Hpos & Hnd & Hall). unfold find, map_values.
  induction m as [|[k0 v0] m IH]; [discriminate|].
  change (map_keys ((k0, v0) :: m)) with (k0 :: map_keys m) in Hnd.
  apply NoDup_cons in Hnd as [Hk0 Hnd].
  apply Forall_cons in Hall as [H0 Hall].
  cbn [map List.find snd]. destruct (p v0) eqn:Hv0.
  - intros [= ->]. exists k0, [], m. split_and!.
    + reflexivity.
    + apply H0.
    + constructor.
    + exact Hv0.
    + unfold map_has. cbn [map_get]. rewrite decide_True; reflexivity.
    + cbn [map_remove]. rewrite decide_True by reflexivity.
      apply map_remove_absent, map_get_None, Hk0.
  - intros Hf. destruct (IH Hnd Hall Hf)
      as (k & mb & ma & Hm & Hid & Hmb & Ha & Hhas & Hrm).
    assert (Hne : k0 ≠ k).
    { intros ->. apply Hk0. rewrite Hm. unfold map_keys. rewrite fmap_app.
      apply elem_of_app. right. apply list_elem_of_here. }
    exists k, ((k0, v0) :: mb), ma. split_and!.
    + rewrite Hm. reflexivity.
    + exact Hid.
    + constructor; assumption.
    + exact Ha.
    + unfold map_has in *. cbn [map_get].
      rewrite decide_False by exact Hne. exact Hhas.
    + rewrite map_remove_cons_ne by exact Hne. rewrite Hrm. reflexivity.
Qed.

(** X8. Removing an assignment by pair.  On a well-formed store
    [removeTeacherFromModuleElement] and [removeStudentFromGroup] either
    find no row with the two identifiers, answer [false] and leave the
    store as it is, or answer [true] and remove the first such row of the
    list and nothing else: a pair assigned by several rows stays assigned
    until as many removals have been made. *)
Theorem X8_remove_first_matching_row (x y : Z) (s : MemStorage)
    (Hok : store_ok s) :
  ((removeTeacherFromModuleElement x y s = (false, s)
    ∧ ∀ a, a ∈ map_values (teacherModuleElements s) →
           ¬ (field a "teacherId" = Some (VNum x)
              ∧ field a "moduleElementId" = Some (VNum y)))
   ∨ (∃ before a after,
        map_values (teacherModuleElements s) = before ++ a :: after
        ∧ field a "teacherId" = Some (VNum x)
        ∧ field a "moduleElementId" = Some (VNum y)
        ∧ (∀ b, b ∈ before →
             ¬ (field b "teacherId" = Some (VNum x)
                ∧ field b "moduleElementId" = Some (VNum y)))
        ∧ (removeTeacherFromModuleElement x y s).1 = true
        ∧ map_values
            (teacherModuleElements (removeTeacherFromModuleElement x y s).2)
          = before ++ after
        ∧ ∀ c, c ≠ TeacherModuleElements →
               table c (removeTeacherFromModuleElement x y s).2
               = table c s))
  ∧ ((removeStudentFromGroup x y s = (false, s)
      ∧ ∀ a, a ∈ map_values (studentGroupAssignments s) →
             ¬ (field a "studentId" = Some (VNum x)
                ∧ field a "groupId" = Some (VNum y)))
     ∨ (∃ before a after,
          map_values (studentGroupAssignments s) = before ++ a :: after
          ∧ field a "studentId" = Some (VNum x)
          ∧ field a "groupId" = Some (VNum y)
          ∧ (∀ b, b ∈ before →
               ¬ (field b "studentId" = Some (VNum x)
                  ∧ field b "groupId" = Some (VNum y)))
          ∧ (removeStudentFromGroup x y s).1 = true
          ∧ map_values
              (studentGroupAssignments (removeStudentFromGroup x y s).2)
            = before ++ after
          ∧ ∀ c, c ≠ StudentGroupAssignments →
                 table c (removeStudentFromGroup x y s).2 = table c s)).
Proof.
  split.
  - pose proof (Hok TeacherModuleElements) as Ht. simpl in Ht.
    unfold removeTeacherFromModuleElement.
    destruct (find _ (map_values (teacherModuleElements s))) as [a|] eqn:Hf.
    + right.
      destruct (remove_first_row _ _ _ _ Ht Hf)
        as (k & mb & ma & Hm & Hid & Hmb & Ha & Hhas & Hrm).
      apply andb_true_iff in Ha as [Ha1 Ha2].
      apply strict_eq_true in Ha1, Ha2.
      exists (map_values mb), a, (map_values ma).
      rewrite Hid. simpl. rewrite Hhas, Hrm. simpl.
      split_and!; try assumption; try reflexivity.
      * rewrite Hm. unfold map_values. rewrite map_app. reflexivity.
      * intros b Hb [Hb1 Hb2]. unfold map_values in Hb.
        apply list_elem_of_fmap in Hb as (e & -> & He).
        rewrite Forall_forall in Hmb. apply Hmb in He.
        apply andb_false_iff in He as [He|He];
          apply strict_eq_false in He; contradiction.
      * unfold map_values. rewrite map_app. reflexivity.
      * intros c Hc. destruct c; simpl; congruence.
    + left. split; [reflexivity|]. intros a Hin [H1 H2].
      pose proof (find_None_elem _ _ _ Hf Hin) as Hp. simpl in Hp.
      apply andb_false_iff in Hp as [Hp|Hp];
        apply strict_eq_false in Hp; contradiction.
  - pose proof (Hok StudentGroupAssignments) as Ht. simpl in Ht.
    unfold removeStudentFromGroup.
    destruct (find _ (map_values (studentGroupAssignments s))) as [a|] eqn:Hf.
    + right.
      destruct (remove_first_row _ _ _ _ Ht Hf)
        as (k & mb & ma & Hm & Hid & Hmb & Ha & Hhas & Hrm).
      apply andb_true_iff in Ha as [Ha1 Ha2].
      apply strict_eq_true in Ha1, Ha2.
      exists (map_values mb), a, (map_values ma).
      rewrite Hid. simpl. rewrite Hhas, Hrm. simpl.
      split_and!; try assumption; try reflexivity.
      * rewrite Hm. unfold map_values. rewrite map_app. reflexivity.
      * intros b Hb [Hb1 Hb2]. unfold map_values in Hb.
        apply list_elem_of_fmap in Hb as (e & -> & He).
        rewrite Forall_forall in Hmb. apply Hmb in He.
        apply andb_false_iff in He as [He|He];
          apply strict_eq_false in He; contradiction.
      * unfold map_values. rewrite map_app. reflexivity.
      * intros c Hc. destruct c; simpl; congruence.
    + left. split; [reflexivity|]. intros a Hin [H1 H2].
      pose proof (find_None_elem _ _ _ Hf Hin) as Hp. simpl in Hp.
      apply andb_false_iff in Hp as [Hp|Hp];
        apply strict_eq_false in Hp; contradiction.
Qed.

Lemma campus_teaching_ok : store_ok campus_teaching.
Proof.
  unfold campus_teaching, campus. repeat apply run_ok;
    try apply new_MemStorage_ok; repeat constructor.
Qed.

(** One removal leaves the second row of the pair in place; the second
    removal takes it; the third finds nothing. *)
Example remove_twice :
  (λ t, (t.1, (λ r, field r "id") <$> listTeacherModuleElements 2 t.2)) <$>
    [removeTeacherFromModuleElement 2 7 campus_teaching;
     removeTeacherFromModuleElement 2 7
       (removeTeacherFromModuleElement 2 7 campus_teaching).2;
     removeTeacherFromModuleElement 2 7
       (removeTeacherFromModuleElement 2 7
          (removeTeacherFromModuleElement 2 7 campus_teaching).2).2]
  = [(true, [Some (VNum 2); Some (VNum 3)]);
     (true, [Some (VNum 2)]);
     (false, [Some (VNum 2)])].
Proof. reflexivity. Qed.

Lemma X8_remove_witness :
  store_ok campus_teaching
  ∧ (removeTeacherFromModuleElement 2 7 campus_teaching).1 = true
  ∧ map_values
      (teacherModuleElements
         (removeTeacherFromModuleElement 2 7 campus_teaching).2)
    = [with_id (sample_teaching 2 8) 2; with_id (sample_teaching 2 7) 3].
Proof.
  split; [exact campus_teaching_ok|].
  destruct (X8_remove_first_matching_row 2 7 campus_teaching
              campus_teaching_ok) as [[[Hno _] | Hyes] _].
  - exfalso. apply (f_equal fst) in Hno. discriminate Hno.
  - destruct Hyes as (before & a & after & _ & _ & _ & _ & Hfound & _).
    split; [exact Hfound | reflexivity].
Defined.

(** ** Deleting a student *)

(** X9. Deleting a student does not cascade either.  After
    [deleteStudent(id)] on a well-formed store the student cannot be read
    any more and is in no group list, the other students of a group are
    listed as before, and the assignment rows and the absences that name
    the student are all still there. *)
Theorem X9_delete_student_leaves_rows (sid g : Z) (s : MemStorage)
    (Hok : store_ok s) :
  let s' := (deleteStudent sid s).2 in
  getStudent sid s' = None
  ∧ listStudentGroupAssignments g s' = listStudentGroupAssignments g s
  ∧ listAbsencesByStudent sid s' = listAbsencesByStudent sid s
  ∧ (∀ st, st ∈ listStudentsByGroup g s'
           ↔ st ∈ listStudentsByGroup g s
             ∧ field st "id" ≠ Some (VNum sid)).
Proof.
  intros s'. subst s'. unfold deleteStudent. simpl. split_and!.
  - unfold getStudent. simpl. rewrite map_get_remove, decide_True; reflexivity.
  - reflexivity.
  - reflexivity.
  - intros st. rewrite !in_group_iff. unfold listStudents. simpl.
    pose proof (Hok Students) as (_ & Hnd & Hall). simpl in Hnd, Hall.
    rewrite Forall_forall in Hall.
    unfold map_values. rewrite !list_elem_of_fmap. split.
    + intros ((e & -> & He) & Hassigned).
      apply map_remove_elem in He as [He Hk].
      split_and!; [exists e; auto | exact Hassigned |].
      destruct (Hall _ He) as [Hid _]. rewrite Hid. intros [= ?]. auto.
    + intros (((e & -> & He) & Hassigned) & Hid).
      split; [|exact Hassigned]. exists e. split; [reflexivity|].
      apply map_remove_elem. split; [exact He|].
      destruct (Hall _ He) as [Hid' _]. rewrite Hid' in Hid. congruence.
Qed.

Lemma X9_delete_student_witness :
  store_ok campus_groups
  ∧ listStudentsByGroup 1 (deleteStudent 3 campus_groups).2
    = [with_id (sample_student "E1" "Ana") 1]
  ∧ length (listStudentGroupAssignments 1 (deleteStudent 3 campus_groups).2)
    = 3%nat
  ∧ with_id (sample_student "E3" "Cy") 3
      ∉ listStudentsByGroup 1 (deleteStudent 3 campus_groups).2.
Proof.
  split; [exact campus_groups_ok|]. split; [reflexivity|].
  split; [reflexivity|].
  destruct (X9_delete_student_leaves_rows 3 1 campus_groups campus_groups_ok)
    as (_ & _ & _ & Hiff).
  rewrite Hiff. intros [_ Hid]. apply Hid. reflexivity.
Defined.

(** ** A new absence and the filtered lists *)

Lemma js_filter_app {A} (p : A → bool) (l1 l2 : list A) :
  List.filter p (l1 ++ l2) = List.filter p l1 ++ List.filter p l2.
Proof. apply List.filter_app. Qed.

(** X10. Where a new absence shows up.  On a well-formed store
    [createAbsence] puts the new record at the end of the list of absences,
    at the end of the list of its session and of the list of its student,
    and in the list of no other session or student. *)
Theorem X10_create_absence_in_lists (a : Obj) (x : Z) (s : MemStorage)
    (Hok : store_ok s) :
  let r := (createAbsence a s).1 in
  let s' := (createAbsence a s).2 in
  listAbsences s' = listAbsences s ++ [r]
  ∧ listAbsencesBySession x s'
    = listAbsencesBySession x s
      ++ (if decide (field a "sessionId" = Some (VNum x)) then [r] else [])
  ∧ listAbsencesByStudent x s'
    = listAbsencesByStudent x s
      ++ (if decide (field a "studentId" = Some (VNum x)) then [r] else []).
Proof.
  intros r s'.
  assert (Hlist : listAbsences s' = listAbsences s ++ [r]).
  { subst r s'. unfold listAbsences, createAbsence. simpl.
    rewrite map_set_fresh
      by (apply (table_ok_fresh_key _ _ _ (Hok Absences)); simpl; lia).
    unfold map_values. rewrite map_app. reflexivity. }
  split; [exact Hlist|].
  unfold listAbsencesBySession, listAbsencesByStudent.
  fold (listAbsences s') (listAbsences s). rewrite Hlist, !js_filter_app.
  subst r. unfold createAbsence. cbn [fst List.filter].
  rewrite !field_with_id_ne by discriminate. unfold strict_eq.
  split; f_equal; case_decide as Hf;
    [ rewrite bool_decide_true by exact Hf
    | rewrite bool_decide_false by exact Hf
    | rewrite bool_decide_true by exact Hf
    | rewrite bool_decide_false by exact Hf ]; reflexivity.
Qed.

Lemma X10_create_absence_witness :
  store_ok campus
  ∧ listAbsencesByStudent 2 (createAbsence (sample_absence 1 2 "absent")
                               campus).2
    = [with_id (sample_absence 1 2 "absent") 1]
  ∧ listAbsencesByStudent 3 (createAbsence (sample_absence 1 2 "absent")
                               campus).2
    = [].
Proof.
  assert (Hok : store_ok campus).
  { unfold campus. apply run_ok; [repeat constructor|].
    apply new_MemStorage_ok. }
  split; [exact Hok|].
  destruct (X10_create_absence_in_lists (sample_absence 1 2 "absent") 2
              campus Hok) as (_ & _ & H2).
  destruct (X10_create_absence_in_lists (sample_absence 1 2 "absent") 3
              campus Hok) as (_ & _ & H3).
  split; [rewrite H2 | rewrite H3]; reflexivity.
Defined.

(** * Further properties of the routes *)

(** ** Guards *)

Lemma if_next (b : bool) (status : Z) (message : string) :
  (if b then Next else Reject status message) = Next ↔ b = true.
Proof. destruct b; split; (reflexivity || discriminate). Qed.

Lemma user_test (req : Request) (test : Obj → bool) :
  req_isAuthenticated req
  && match req_user req with Some user => test user | None => false end
  = true
  ↔ req_isAuthenticated req = true
    ∧ ∃ u, req_user req = Some u ∧ test u = true.
Proof.
  rewrite andb_true_iff. destruct (req_user req) as [u|].
  - split; [intros [? ?]; eauto | intros (? & v & [= <-] & ?); auto].
  - split; [intros [_ ?]; discriminate | intros (_ & ? & ? & _); discriminate].
Qed.

Lemma guard_passes (req : Request) :
  (isAuthenticated req = Next ↔ req_isAuthenticated req = true)
  ∧ (isTeacher req = Next
     ↔ req_isAuthenticated req = true
       ∧ ∃ u, req_user req = Some u
              ∧ (field u "role" = Some (VStr "teacher")
                 ∨ field u "role" = Some (VStr "departmentHead")
                 ∨ field u "role" = Some (VStr "admin")))
  ∧ (isDepartmentHead req = Next
     ↔ req_isAuthenticated req = true
       ∧ ∃ u, req_user req = Some u
              ∧ (field u "role" = Some (VStr "departmentHead")
                 ∨ field u "role" = Some (VStr "admin")))
  ∧ (isAdmin req = Next
     ↔ req_isAuthenticated req = true
       ∧ ∃ u, req_user req = Some u
              ∧ field u "role" = Some (VStr "admin")).
Proof.
  unfold isAuthenticated, isTeacher, isDepartmentHead, isAdmin.
  rewrite !if_next, !user_test. split_and!; [reflexivity|..];
    (apply and_iff_compat_l; split; intros (u & Hu & Hrole); exists u;
     (split; [exact Hu|]);
     rewrite ?orb_true_iff, !strict_eq_true in *; tauto).
Qed.



Lemma routes_guarded : forallb entry_guarded routes = true.
Proof. vm_compute. reflexivity. Qed.

(** X12. The table of routes.  Of the 58 routes only the three of
    [/api/auth] have no guard, so a request that is not authenticated
    reaches no other handler.  A request that reaches the handler of a
    route other than those three whose method is not [GET] is authenticated
    and its user is a teacher, a department head or an admin; if the user
    is a teacher, the route lies under [/api/sessions] or
    [/api/absences]. *)
Theorem X12_route_table (req : Request) (m : Method) (path : string)
    (g : Guard)
    (Hroute : In (m, path, g) routes)
    (Hpass : guard g req = Next) :
  length routes = 58%nat
  ∧ (req_isAuthenticated req = false → path ∈ auth_paths)
  ∧ (m ≠ GET → path ∉ auth_paths →
     req_isAuthenticated req = true
     ∧ ∃ u, req_user req = Some u
            ∧ (field u "role" = Some (VStr "teacher")
               ∨ field u "role" = Some (VStr "departmentHead")
               ∨ field u "role" = Some (VStr "admin"))
            ∧ (field u "role" = Some (VStr "teacher") →
               attendance_path path = true)).
Proof.
  pose proof routes_guarded as Hall. rewrite forallb_forall in Hall.
  specialize (Hall _ Hroute). unfold entry_guarded in Hall.
  apply andb_true_iff in Hall as [Hall Hteach].
  apply andb_true_iff in Hall as [Hopen Hwrite].
  apply bool_decide_eq_true in Hopen.
  destruct (guard_passes req) as (Hauth & Hteacher & Hhead & Hadmin).
  split; [reflexivity|]. split.
  - intros Hno. apply Hopen. destruct g; simpl in Hpass; try reflexivity;
      [ apply Hauth in Hpass | apply Hteacher in Hpass as [Hpass _]
      | apply Hhead in Hpass as [Hpass _]
      | apply Hadmin in Hpass as [Hpass _] ]; congruence.
  - intros Hm Hpath.
    apply orb_true_iff in Hwrite as [Hwrite|Hwrite];
      [apply bool_decide_eq_true in Hwrite; contradiction|].
    apply bool_decide_eq_true in Hwrite.
    destruct g; simpl in Hpass.
    + exfalso. apply Hpath, Hopen. reflexivity.
    + contradiction.
    + apply Hteacher in Hpass as (Ha & u & Hu & Hrole).
      split; [exact Ha|]. exists u. split_and!; try assumption.
      intros _. apply orb_true_iff in Hteach as [Hteach|Hteach];
        [|exact Hteach].
      apply orb_true_iff in Hteach as [Hteach|Hteach];
        apply bool_decide_eq_true in Hteach; contradiction.
    + apply Hhead in Hpass as (Ha & u & Hu & Hrole).
      split; [exact Ha|]. exists u. split_and!; [exact Hu|tauto|].
      intros Ht. destruct Hrole as [Hr|Hr]; rewrite Hr in Ht; discriminate.
    + apply Hadmin in Hpass as (Ha & u & Hu & Hrole).
      split; [exact Ha|]. exists u. split_and!; [exact Hu|tauto|].
      intros Ht. rewrite Hrole in Ht. discriminate.
Qed.

Lemma X12_route_table_witness :
  In (POST, "/api/absences/batch", Teacher) routes
  ∧ guard Teacher teacher_request = Next
  ∧ attendance_path "/api/absences/batch" = true
  ∧ In (DELETE, "/api/courses/:id", Admin) routes
  ∧ guard Admin teacher_request
    = Reject 403 "Forbidden - Admin access required".
Proof.
  assert (Hin : In (POST, "/api/absences/batch", Teacher) routes).
  { apply list_elem_of_In. apply (bool_decide_unpack _). vm_compute.
    exact I. }
  assert (Hin' : In (DELETE, "/api/courses/:id", Admin) routes).
  { apply list_elem_of_In. apply (bool_decide_unpack _). vm_compute.
    exact I. }
  split; [exact Hin|]. split; [reflexivity|].
  destruct (X12_route_table teacher_request POST "/api/absences/batch"
              Teacher Hin eq_refl) as (_ & _ & Hwrite).
  destruct (Hwrite ltac:(discriminate)) as (_ & u & Hu & _ & Hpath).
  { intros Hp. apply (bool_decide_pack _) in Hp. vm_compute in Hp.
    exact Hp. }
  injection Hu as <-.
  split; [apply Hpath; reflexivity|]. split; [exact Hin' | reflexivity].
Defined.

(** ** Lists with a query parameter *)

Lemma guarded_next (g : Outcome) (r : Response) :
  g = Next → guarded g r = r.
Proof. intros ->. reflexivity. Qed.

Lemma js_filter_elem (p : Obj → bool) (l : list Obj) (o : Obj) :
  o ∈ List.filter p l ↔ o ∈ l ∧ p o = true.
Proof. rewrite !list_elem_of_In. apply filter_In. Qed.

(** X13. The first query parameter wins.  [GET /api/absences] with a
    [sessionId] that parses to a number other than 0 answers the rows of
    that session, whatever [studentId] is given: the rows of the session's
    other students are in the answer too.  [GET /api/sessions] does the
    same with [teacherId] before [moduleElementId]. *)
Theorem X13_first_query_parameter_wins (req : Request) (n : Z)
    (other : option Parsed) (s : MemStorage)
    (Hteacher : isTeacher req = Next)
    (Hn : n ≠ 0) :
  (∃ l, get_absences req (Some (Int n)) other s = json (Many l)
        ∧ ∀ row, row ∈ l
                 ↔ row ∈ listAbsences s
                   ∧ field row "sessionId" = Some (VNum n))
  ∧ (∃ l, get_sessions req (Some (Int n)) other s = json (Many l)
          ∧ ∀ row, row ∈ l
                   ↔ row ∈ listSessions s
                     ∧ field row "teacherId" = Some (VNum n)).
Proof.
  assert (Hauth : isAuthenticated req = Next).
  { apply guard_passes. apply guard_passes in Hteacher. tauto. }
  apply Z.eqb_neq in Hn.
  split; eexists; (split;
    [ unfold get_absences, get_sessions; rewrite guarded_next by assumption;
      unfold query_id; rewrite Hn; reflexivity
    | intros row; unfold listAbsencesBySession, listSessionsByTeacher;
      rewrite js_filter_elem, strict_eq_true; reflexivity ]).
Qed.

Lemma X13_first_query_parameter_witness :
  isTeacher teacher_request = Next
  ∧ ∃ l, get_absences teacher_request (Some (Int 7)) (Some (Int 1)) scenario
         = json (Many l)
         ∧ ∀ row, row ∈ l → field row "sessionId" = Some (VNum 7).
Proof.
  split; [reflexivity|].
  destruct (X13_first_query_parameter_wins teacher_request 7 (Some (Int 1))
              scenario eq_refl ltac:(discriminate)) as [(l & Hl & Hrows) _].
  exists l. split; [exact Hl|]. intros row Hrow. apply Hrows, Hrow.
Defined.

(** X14. A query parameter that is 0 or not a number filters nothing.
    With [departmentId=0] or [departmentId=abc], [GET /api/courses]
    answers every course, as it does without the parameter; with such a
    [sessionId] (or [teacherId]), [GET /api/absences] (or
    [GET /api/sessions]) goes on to its second parameter, and answers the
    whole list when that one is 0, not a number or missing as well.  No
    such request is answered with an empty list for the parameter. *)
Theorem X14_zero_parameter_is_no_filter (req : Request)
    (x y : option Parsed) (s : MemStorage)
    (Hx : x = Some (Int 0) ∨ x = Some NaN ∨ x = None) :
  get_courses req x s = get_courses req None s
  ∧ get_absences req x y s = get_absences req None y s
  ∧ get_sessions req x y s = get_sessions req None y s
  ∧ (isAuthenticated req = Next →
     get_courses req x s = json (Many (listCourses s))
     ∧ get_absences req x x s = json (Many (listAbsences s)))
  ∧ (isTeacher req = Next →
     get_sessions req x x s = json (Many (listSessions s))).
Proof.
  assert (Hq : query_id x = None) by (destruct Hx as [->|[->| ->]]; reflexivity).
  unfold get_courses, get_absences, get_sessions. rewrite Hq.
  split_and!; try reflexivity.
  - intros Hauth. rewrite !guarded_next by assumption. auto.
  - intros Hteacher. rewrite !guarded_next by assumption. auto.
Qed.

Lemma X14_zero_parameter_witness :
  get_courses admin_request (Some (Int 0)) scenario
  = json (Many (listCourses scenario)).
Proof.
  destruct (X14_zero_parameter_is_no_filter admin_request (Some (Int 0)) None
              scenario (or_introl eq_refl)) as (_ & _ & _ & Hall & _).
  apply Hall. reflexivity.
Defined.

(** ** The user routes *)

Lemma field_property (k k' : string) (v : option Val) (o : Obj) :
  field (property k v o) k'
  = if decide (k' = k)
    then match v with Some x => Some x | None => field o k' end
    else field o k'.
Proof.
  unfold property, field. destruct v as [x|].
  - destruct (decide (k' = k)) as [->|Hne].
    + apply lookup_insert_eq.
    + apply lookup_insert_ne. congruence.
  - destruct (decide (k' = k)); reflexivity.
Qed.

Lemma field_public_user (user : Obj) (k : string) :
  field (public_user user) k
  = if bool_decide (k ∈ public_fields) then field user k else None.
Proof.
  unfold public_user. rewrite !field_property.
  assert (Hempty : field ∅ k = None) by apply lookup_empty.
  unfold public_fields.
  repeat (destruct (decide (k = _)) as [->|?];
          [ rewrite bool_decide_true by list_member;
            destruct (field user _); reflexivity |]).
  rewrite bool_decide_false; [exact Hempty|].
  rewrite !elem_of_cons, elem_of_nil. tauto.
Qed.

(** X15. What the user routes answer.  The object answered for a user has
    the user's [id], [username], [fullName], [email], [role] and
    [departmentId] and no other key, so never the password.
    [GET /api/users] answers one such object for every user, in the order
    of the store.  [GET /api/users/:id] answers 403 to whoever is not an
    admin, and to an admin 404 exactly when the store has no user of that
    identifier (also when the identifier is not a number) and otherwise
    the user's object. *)
Theorem X15_user_answers (req : Request) (id : Parsed) (s : MemStorage) :
  (∀ user k,
     field (public_user user) k
     = if bool_decide (k ∈ public_fields) then field user k else None)
  ∧ (∀ user, field (public_user user) "password" = None)
  ∧ (isAdmin req = Next →
     get_users req s = json (Many (map public_user (listUsers s)))
     ∧ (status (get_user req id s) = 404
        ↔ ∀ n, id = Int n → getUser n s = None)
     ∧ (∀ n user, id = Int n → getUser n s = Some user →
        get_user req id s = json (One (public_user user))))
  ∧ (isAdmin req ≠ Next →
     status (get_users req s) = 403 ∧ status (get_user req id s) = 403).
Proof.
  split_and!.
  - intros user k. apply field_public_user.
  - intros user. rewrite field_public_user. reflexivity.
  - intros Hadmin. unfold get_users, get_user.
    rewrite !guarded_next by assumption.
    split_and!; [reflexivity| |].
    + destruct id as [|n]; simpl.
      * split; [intros _ n [=] | reflexivity].
      * destruct (getUser n s) as [user|] eqn:Hget; simpl.
        -- split; [discriminate|]. intros Hnone.
           specialize (Hnone n eq_refl). congruence.
        -- split; [intros _ m [= <-]; exact Hget | reflexivity].
    + intros n user -> Hget. simpl. rewrite Hget. reflexivity.
  - intros Hno. unfold get_users, get_user, isAdmin in *.
    destruct (_ && _); [contradiction|]. split; reflexivity.
Qed.

Lemma deleteUser_absent (n : Z) (s : MemStorage) :
  getUser n s = None → deleteUser n s = (false, s).
Proof.
  unfold getUser, deleteUser, map_delete. intros Hget.
  rewrite (proj2 (map_has_false _ _) Hget), map_remove_absent by exact Hget.
  destruct s; reflexivity.
Qed.

Lemma deleteUser_present (n : Z) (user : Obj) (s : MemStorage) :
  getUser n s = Some user →
  ∃ s', deleteUser n s = (true, s') ∧ getUser n s' = None
        ∧ ∀ m, m ≠ n → getUser m s' = getUser m s.
Proof.
  unfold getUser, deleteUser, map_delete, map_has. intros Hget.
  rewrite Hget. eexists. split; [reflexivity|]. simpl. split.
  - rewrite map_get_remove, decide_True; reflexivity.
  - intros m Hm. rewrite map_get_remove, decide_False by congruence.
    reflexivity.
Qed.

(** X16. [DELETE /api/users/:id].  The answer is 200 exactly when the
    request is an admin's and the store holds a user of that identifier;
    the store then no longer holds that user, and holds every other user
    as before.  Any other answer (403 to whoever is not an admin, 404 for
    an identifier that is not held or not a number) leaves the store as it
    was, and the same request made again after a 200 is answered 404. *)
Theorem X16_delete_user (req : Request) (id : Parsed) (s : MemStorage) :
  let r := (delete_user req id s).1 in
  let s' := (delete_user req id s).2 in
  (status r = 200
   ↔ isAdmin req = Next ∧ ∃ n user, id = Int n ∧ getUser n s = Some user)
  ∧ (status r = 200 →
     ∀ n, id = Int n →
          getUser n s' = None
          ∧ (∀ m, m ≠ n → getUser m s' = getUser m s)
          ∧ status (delete_user req id s').1 = 404)
  ∧ (status r ≠ 200 → s' = s)
  ∧ (status r = 200 ∨ status r = 403 ∨ status r = 404).
Proof.
  unfold delete_user. destruct (isAdmin req) as [|code message] eqn:Hadmin.
  - destruct id as [|n]; unfold delete_by.
    + simpl. split_and!; try discriminate; auto.
      split; [discriminate | intros [_ (n & user & [=] & _)]].
    + destruct (getUser n s) as [user|] eqn:Hget.
      * destruct (deleteUser_present n user s Hget)
          as (s' & Hdel & Hgone & Hrest).
        rewrite Hdel. cbn [fst snd negb status json].
        rewrite (deleteUser_absent n s' Hgone). cbn [fst snd negb status json].
        split_and!; auto.
        -- split; [eauto 6 | reflexivity].
        -- intros _ m [= <-]. split_and!; try assumption. reflexivity.
        -- intros Hne. contradiction.
      * rewrite (deleteUser_absent n s Hget). cbn [fst snd negb status json].
        split_and!; try discriminate; auto.
        split; [discriminate|].
        intros [_ (m & user & [= <-] & Huser)]. congruence.
  - simpl. unfold isAdmin in Hadmin.
    destruct (_ && _); [discriminate|]. injection Hadmin as <- <-. simpl.
    split_and!; try discriminate; auto.
    split; [discriminate | intros [[=] _]].
Qed.

(** ** The ranking of [GET /api/statistics/top-absentees] *)

Lemma find_by_id (next : Z) (m : list (Z * Obj)) (k : option Val) :
  table_ok next m →
  find (λ o, strict_eq (field o "id") k) (map_values m)
  = match k with
    | Some (VNum n) => map_get n m
    | _ => None
    end.
Proof.
  intros (_ & _ & Hall). unfold find, map_values.
  induction m as [|[k0 v0] m IH]; simpl.
  - destruct k as [[]|]; reflexivity.
  - apply Forall_cons in Hall as [[Hid _] Hall]. simpl in Hid.
    rewrite Hid, (IH Hall). unfold strict_eq.
    destruct k as [[n| | |]|];
      try (rewrite bool_decide_false by discriminate; reflexivity).
    destruct (decide (k0 = n)) as [->|Hne].
    + rewrite bool_decide_true by reflexivity. reflexivity.
    + rewrite bool_decide_false by congruence. reflexivity.
Qed.

Lemma name_not_unknown (a b : string) : a +:+ " " +:+ b ≠ "Unknown".
Proof.
  intros H.
  do 8 (destruct a as [|? a];
        [ simpl in H; discriminate H
        | simpl in H; try discriminate H; injection H as -> H ]).
Qed.

Lemma slice0_elem {A} (p : Parsed) (l : list A) (x : A) :
  x ∈ slice0 p l → x ∈ l.
Proof.
  unfold slice0. intros Hin.
  eapply elem_of_sublist; [exact Hin | apply sublist_take].
Qed.

Lemma to_absentee_name (s : MemStorage) (k : option Val) (c : Z) :
  store_ok s →
  studentName (to_absentee (listStudents s) (k, c))
  = match k with
    | Some (VNum n) =>
        match getStudent n s with
        | Some st =>
            to_string (field st "firstName") +:+ " "
              +:+ to_string (field st "lastName")
        | None => "Unknown"
        end
    | _ => "Unknown"
    end.
Proof.
  intros Hok. pose proof (find_by_id _ _ k (Hok Students)) as Hf.
  change (table Students s) with (students s) in Hf.
  unfold to_absentee, listStudents, getStudent. rewrite Hf.
  destruct k as [[]|]; reflexivity.
Qed.

(** X17. The names of the ranking.  On a well-formed store every entry of
    the answer has a positive count, the number of ["absent"] rows of its
    [studentId], and its name is ["Unknown"] exactly when the store holds
    no student of that identifier; otherwise it is the first and the last
    name of that student with a space between. *)
Theorem X17_ranking_names (limit : option Parsed) (s : MemStorage)
    (e : Absentee)
    (Hok : store_ok s)
    (He : e ∈ handler limit s) :
  0 < absenceCount e
  ∧ absenceCount e = absent_count (studentId e) (listAbsences s)
  ∧ (studentName e = "Unknown"
     ↔ ∀ n, studentId e = Some (VNum n) → getStudent n s = None)
  ∧ (∀ n st, studentId e = Some (VNum n) → getStudent n s = Some st →
     studentName e
     = to_string (field st "firstName") +:+ " "
         +:+ to_string (field st "lastName")).
Proof.
  unfold handler, Routes.topAbsentees in He. apply slice0_elem in He.
  apply ranked_elem in He as (k & c & -> & Hc & Hpos).
  pose proof (to_absentee_name s k c Hok) as Hname.
  destruct (to_absentee_fields (listStudents s) k c) as [Hid Hcount].
  rewrite Hid, Hcount, Hname. split_and!; [exact Hpos | exact Hc | |].
  - destruct k as [[n| | |]|]; try (split; [intros _ n [=] | reflexivity]).
    destruct (getStudent n s) as [st|] eqn:Hget.
    + split; [intros Hu; apply name_not_unknown in Hu as []|].
      intros Hnone. specialize (Hnone n eq_refl). congruence.
    + split; [intros _ m [= <-]; exact Hget | reflexivity].
  - intros n st -> Hget. rewrite Hget. reflexivity.
Qed.

Lemma scenario_ok : store_ok scenario.
Proof.
  unfold scenario. apply run_ok; [repeat constructor | apply new_MemStorage_ok].
Qed.

Lemma X17_ranking_names_witness :
  ∃ e, e ∈ handler None scenario
       ∧ studentId e = Some (VNum 1)
       ∧ studentName e = "Ana Martin"
       ∧ absenceCount e = absent_count (Some (VNum 1)) (listAbsences scenario).
Proof.
  assert (Hhead : ∃ e rest, handler None scenario = e :: rest
                            ∧ studentId e = Some (VNum 1)
                            ∧ studentName e = "Ana Martin").
  { destruct (handler None scenario) as [|e rest] eqn:Hh;
      [apply (f_equal length) in Hh; vm_compute in Hh; discriminate Hh|].
    exists e, rest. split; [reflexivity|].
    pose proof (f_equal (λ l, (λ e, (studentId e, studentName e)) <$> take 1 l)
                  Hh) as Hfirst.
    vm_compute in Hfirst. injection Hfirst as Hid Hname.
    split; [exact (eq_sym Hid) | exact (eq_sym Hname)]. }
  destruct Hhead as (e & rest & Hh & Hid & Hname).
  assert (He : e ∈ handler None scenario)
    by (rewrite Hh; apply list_elem_of_here).
  destruct (X17_ranking_names None scenario e scenario_ok He)
    as (_ & Hcount & _).
  rewrite Hid in Hcount. exists e. auto.
Defined.

(** X18. A deleted student stays in the ranking.  On a well-formed store,
    after [deleteStudent(id)] the rows of status ["absent"] of that student
    are counted as before, and the ranking has an entry for the student
    with that count and the name ["Unknown"]. *)
Theorem X18_deleted_student_still_ranked (sid : Z) (s : MemStorage)
    (Hok : store_ok s)
    (Habsent : 0 < absent_count (Some (VNum sid)) (listAbsences s)) :
  let s' := (deleteStudent sid s).2 in
  listAbsences s' = listAbsences s
  ∧ mkAbsentee (Some (VNum sid)) "Unknown"
      (absent_count (Some (VNum sid)) (listAbsences s))
    ∈ ranked (listAbsences s') (listStudents s').
Proof.
  intros s'. split; [reflexivity|].
  assert (Hok' : store_ok s').
  { apply (exec_ok (DeleteStudent sid) s); [exact I | exact Hok]. }
  apply ranked_elem.
  exists (Some (VNum sid)), (absent_count (Some (VNum sid)) (listAbsences s)).
  split_and!; [|reflexivity|exact Habsent].
  pose proof (to_absentee_name s' (Some (VNum sid))
                (absent_count (Some (VNum sid)) (listAbsences s)) Hok')
    as Hname.
  assert (Hgone : getStudent sid s' = None).
  { subst s'. unfold getStudent, deleteStudent. simpl.
    rewrite map_get_remove, decide_True; reflexivity. }
  cbv beta iota in Hname. rewrite Hgone in Hname.
  destruct (to_absentee (listStudents s') _) as [i nm c] eqn:Hto.
  pose proof (f_equal studentId Hto) as Hi.
  pose proof (f_equal absenceCount Hto) as Hc.
  simpl in Hname, Hi, Hc. subst. reflexivity.
Qed.

Lemma X18_deleted_student_witness :
  store_ok scenario
  ∧ 0 < absent_count (Some (VNum 1)) (listAbsences scenario)
  ∧ mkAbsentee (Some (VNum 1)) "Unknown" 2
    ∈ ranked (listAbsences (deleteStudent 1 scenario).2)
        (listStudents (deleteStudent 1 scenario).2).
Proof.
  split; [exact scenario_ok|].
  assert (Hcount : absent_count (Some (VNum 1)) (listAbsences scenario) = 2)
    by (vm_compute; reflexivity).
  split; [rewrite Hcount; lia|].
  destruct (X18_deleted_student_still_ranked 1 scenario scenario_ok
              ltac:(rewrite Hcount; lia)) as [_ Hin].
  rewrite Hcount in Hin. exact Hin.
Defined.

Section Stability.
Context {A : Type} (cmp : A → A → Z) (p : A → bool).
Hypothesis same_rank : ∀ x y, p x = true → p y = true → cmp x y ≤ 0.

Lemma sort_insert_stable (x : A) (l : list A) :
  List.filter p (sort_insert cmp x l) = List.filter p (x :: l).
Proof.
  induction l as [|y l IH]; [reflexivity|].
  cbn [sort_insert]. destruct (cmp x y <=? 0) eqn:Hle; [reflexivity|].
  apply Z.leb_gt in Hle. cbn [List.filter] in *. rewrite IH.
  destruct (p x) eqn:Hx, (p y) eqn:Hy; try reflexivity.
  specialize (same_rank x y Hx Hy). lia.
Qed.

Lemma sort_stable (l : list A) :
  List.filter p (sort cmp l) = List.filter p l.
Proof.
  induction l as [|x l IH]; [reflexivity|].
  change (sort cmp (x :: l)) with (sort_insert cmp x (sort cmp l)).
  rewrite sort_insert_stable. cbn [List.filter]. rewrite IH. reflexivity.
Qed.
End Stability.

Lemma map_set_keys {K V} `{EqDecision K} (k : K) (v : V) (m : list (K * V)) :
  map_keys (map_set k v m)
  = if decide (k ∈ map_keys m) then map_keys m else map_keys m ++ [k].
Proof.
  unfold map_keys. induction m as [|[k0 v0] m IH]; cbn [map_set map fst].
  - rewrite decide_False by apply not_elem_of_nil. reflexivity.
  - destruct (decide (k0 = k)) as [->|Hne]; cbn [map fst].
    + rewrite decide_True by apply list_elem_of_here. reflexivity.
    + rewrite IH. destruct (decide (k ∈ map fst m)) as [Hin|Hout].
      * rewrite decide_True by (apply list_elem_of_further, Hin). reflexivity.
      * rewrite decide_False; [reflexivity|].
        rewrite elem_of_cons. intros [?|?]; [congruence | contradiction].
Qed.

Lemma first_occurrences_snoc (l : list (option Val)) (k : option Val) :
  first_occurrences (l ++ [k])
  = if decide (k ∈ first_occurrences l)
    then first_occurrences l
    else first_occurrences l ++ [k].
Proof.
  unfold first_occurrences. rewrite reverse_snoc. cbn [remove_dups].
  destruct (decide_rel elem_of k (reverse l)) as [Hin|Hout].
  - rewrite decide_True; [reflexivity|].
    rewrite elem_of_reverse, elem_of_remove_dups. exact Hin.
  - rewrite decide_False, reverse_cons; [reflexivity|].
    rewrite elem_of_reverse, elem_of_remove_dups. exact Hout.
Qed.

Lemma count_step_keys (acc : list (option Val * Z)) (a : Obj) :
  map_keys (count_step acc a)
  = if strict_eq (field a "status") (Some (VStr "absent"))
    then if decide (field a "studentId" ∈ map_keys acc)
         then map_keys acc
         else map_keys acc ++ [field a "studentId"]
    else map_keys acc.
Proof.
  unfold count_step.
  destruct (strict_eq (field a "status") (Some (VStr "absent")));
    [apply map_set_keys | reflexivity].
Qed.

Lemma absencesByStudent_keys (rows : list Obj) :
  map_keys (absencesByStudent rows) = first_occurrences (absent_students rows).
Proof.
  unfold absencesByStudent, absent_students.
  induction rows as [|a rows IH] using rev_ind; [reflexivity|].
  rewrite fold_left_app, js_filter_app. cbn [fold_left List.filter].
  rewrite count_step_keys, IH.
  destruct (strict_eq (field a "status") (Some (VStr "absent"))).
  - rewrite fmap_app. cbn [fmap list_fmap].
    rewrite first_occurrences_snoc. reflexivity.
  - rewrite app_nil_r. reflexivity.
Qed.

(** X19. Ties in the ranking.  The grouping map has its keys in the order
    in which the students first occur among the rows of status ["absent"],
    and the sort keeps the entries of one count in that order: of two
    students with the same number of absences, the one whose first
    ["absent"] row comes first in the list of absences is ranked first. *)
Theorem X19_ties_keep_first_absence_order (rows students : list Obj)
    (c : Z) :
  map_keys (absencesByStudent rows) = first_occurrences (absent_students rows)
  ∧ List.filter (λ e, absenceCount e =? c) (ranked rows students)
    = List.filter (λ e, absenceCount e =? c)
        (to_absentee students <$> absencesByStudent rows)
  ∧ studentId <$>
      List.filter (λ e, absenceCount e =? c) (ranked rows students)
    = fst <$> List.filter (λ e, e.2 =? c) (absencesByStudent rows).
Proof.
  assert (Hstable :
    List.filter (λ e, absenceCount e =? c) (ranked rows students)
    = List.filter (λ e, absenceCount e =? c)
        (to_absentee students <$> absencesByStudent rows)).
  { unfold ranked, map_entries. apply sort_stable.
    intros x y Hx Hy. apply Z.eqb_eq in Hx, Hy. lia. }
  split_and!; [apply absencesByStudent_keys | exact Hstable |].
  rewrite Hstable. generalize (absencesByStudent rows). intros m.
  induction m as [|[k n] m IH]; [reflexivity|].
  cbn [fmap list_fmap List.filter] in *.
  destruct (to_absentee_fields students k n) as [Hid Hcount].
  rewrite Hcount. cbn [snd]. destruct (n =? c); cbn [fmap list_fmap fst].
  - rewrite Hid. f_equal. exact IH.
  - exact IH.
Qed.

Lemma slice0_negative_end {A} (n : Z) (l : list A) :
  0 < n → slice0 (Int (- n)) l = take (length l - Z.to_nat n) l.
Proof.
  intros Hn. unfold slice0. rewrite (proj2 (Z.ltb_lt (- n) 0)) by lia.
  f_equal. lia.
Qed.

Lemma slice0_large_end {A} (n : Z) (l : list A) :
  Z.of_nat (length l) ≤ n → slice0 (Int n) l = l.
Proof.
  intros Hn. rewrite slice0_nonneg by lia. apply take_ge. lia.
Qed.

(** X20. The [limit] parameter at its edges.  A [limit] that is 0 or not a
    number gives an empty answer (only a missing or empty parameter gives
    the first five); a negative [limit] [-n] gives the ranking without its
    last [n] entries, so the whole ranking but for the least absent; a
    [limit] of at least the length gives the whole ranking. *)
Theorem X20_limit_edge_cases (rows students : list Obj) :
  let all := ranked rows students in
  Routes.topAbsentees (Some NaN) rows students = []
  ∧ Routes.topAbsentees (Some (Int 0)) rows students = []
  ∧ (∀ n, 0 < n →
     Routes.topAbsentees (Some (Int (- n))) rows students
     = take (length all - Z.to_nat n) all)
  ∧ (∀ n, Z.of_nat (length all) ≤ n →
     Routes.topAbsentees (Some (Int n)) rows students = all).
Proof.
  intros all. unfold Routes.topAbsentees, limit_of. fold all. split_and!.
  - unfold slice0. cbn [Z.ltb Z.compare]. rewrite Z.min_l by lia. reflexivity.
  - rewrite slice0_nonneg by lia. reflexivity.
  - intros n Hn. apply slice0_negative_end, Hn.
  - intros n Hn. apply slice0_large_end, Hn.
Qed.

(** * Further properties of the report page *)

(** ** The two selects *)

Lemma pretty_N_go_ne_a (x : N) (s s' : string) :
  s ≠ "a" +:+ s' → pretty_N_go x s ≠ "a" +:+ s'.
Proof.
  revert s. induction (N.lt_wf_0 x) as [x _ IH]; intros s Hs.
  assert (x = 0 ∨ 0 < x)%N as [->|Hx] by lia.
  - rewrite pretty_N_go_0. exact Hs.
  - rewrite pretty_N_go_step by exact Hx. apply IH.
    { apply N.div_lt; [exact Hx | reflexivity]. }
    unfold pretty_N_char. repeat case_match; discriminate.
Qed.

Lemma pretty_Z_not_all (n : Z) : pretty n ≠ ALL.
Proof.
  unfold ALL, pretty, pretty_Z. destruct n as [|p|p]; try discriminate.
  unfold pretty, pretty_positive, pretty, pretty_N.
  rewrite decide_False by discriminate.
  apply (pretty_N_go_ne_a _ _ "ll"). discriminate.
Qed.

Lemma selected_test (n c : Z) :
  bool_decide (pretty c = ALL) || bool_decide (pretty n = pretty c)
  = bool_decide (n = c).
Proof.
  rewrite (bool_decide_false _ (pretty_Z_not_all c)). cbn [orb].
  apply bool_decide_ext. split; [apply (inj pretty) | intros ->; reflexivity].
Qed.

(** X21. The two selects of the report page.  With ["all"] selected the
    list is the whole list of the query; with the [toString()] of an
    identifier selected it is the courses of that department, or the
    students of that course, in the order of the query: no identifier
    prints as ["all"], and no two print alike.  While the query has no
    data the list is empty. *)
Theorem X21_page_filters (courses : list Course.t)
    (students : list Student.t) (n : Z) (selected : string) :
  filteredCourses (Some courses) ALL = courses
  ∧ filteredStudents (Some students) ALL = students
  ∧ filteredCourses (Some courses) (pretty n)
    = List.filter (λ course, bool_decide (Course.departmentId course = n))
        courses
  ∧ filteredStudents (Some students) (pretty n)
    = List.filter (λ student, bool_decide (Student.courseId student = n))
        students
  ∧ filteredCourses None selected = []
  ∧ filteredStudents None selected = [].
Proof.
  assert (Hall : ∀ {A} (f : A → Z) (l : list A),
            List.filter (λ x, bool_decide (ALL = ALL)
                              || bool_decide (pretty (f x) = ALL)) l = l).
  { intros A f l. induction l as [|x l IH]; [reflexivity|].
    cbn [List.filter]. rewrite bool_decide_true by reflexivity. cbn [orb].
    f_equal. exact IH. }
  assert (Hone : ∀ {A} (f : A → Z) (l : list A),
            List.filter (λ x, bool_decide (pretty n = ALL)
                              || bool_decide (pretty (f x) = pretty n)) l
            = List.filter (λ x, bool_decide (f x = n)) l).
  { intros A f l. apply List.filter_ext. intros x. apply selected_test. }
  unfold filteredCourses, filteredStudents.
  split_and!; try reflexivity; try apply Hall; apply Hone.
Qed.

(** ** The most absent students of the page *)

Lemma math_max_spec (xs : list Z) :
  match math_max xs with
  | MinusInfinity => xs = []
  | Finite m => m ∈ xs ∧ ∀ x, x ∈ xs → x ≤ m
  end.
Proof.
  induction xs as [|x xs IH]; [reflexivity|].
  unfold math_max in *. cbn [foldr].
  destruct (foldr _ MinusInfinity xs) as [|m].
  - subst xs. split; [apply list_elem_of_here|].
    intros y Hy. apply list_elem_of_singleton in Hy as ->. lia.
  - destruct IH as [Hm Hmax]. split.
    + destruct (Z.max_spec x m) as [[_ ->]|[_ ->]];
        [apply list_elem_of_further, Hm | apply list_elem_of_here].
    + intros y Hy. apply elem_of_cons in Hy as [->|Hy]; [lia|].
      specialize (Hmax y Hy). lia.
Qed.

(** X22. The five most absent students of the page.  The list has the
    selected students by decreasing number of absences, five of them or
    all when there are fewer, so students without any absence are listed
    too.  When no student is selected the list is empty and the highest
    count is [-Infinity]; otherwise the highest count is the count of the
    first student of the list, and no selected student has more. *)
Theorem X22_page_top_absentees (absences : option (list Absence.t))
    (selected : list Student.t) :
  let count := λ st, getStudentAbsences absences (Student.id st) in
  let top := AbsenceReports.topAbsentees absences selected in
  length top = Nat.min 5 (length selected)
  ∧ (∀ st, st ∈ top → st ∈ selected)
  ∧ StronglySorted (λ a b, count b ≤ count a) top
  ∧ (selected = [] →
     top = [] ∧ highestAbsenceCount absences selected = MinusInfinity)
  ∧ (∀ first rest, top = first :: rest →
     highestAbsenceCount absences selected = Finite (count first)
     ∧ ∀ st, st ∈ selected → count st ≤ count first).
Proof.
  intros count top. subst top. unfold AbsenceReports.topAbsentees.
  rewrite slice0_nonneg by lia. change (Z.to_nat 5) with 5%nat.
  change (λ a b, getStudentAbsences absences (Student.id b)
                 - getStudentAbsences absences (Student.id a))
    with (λ a b : Student.t, count b - count a).
  set (cmp := λ a b : Student.t, count b - count a).
  assert (Hperm : Permutation (sort cmp selected) selected)
    by apply sort_perm.
  assert (Hsorted : StronglySorted (λ a b, count b ≤ count a)
                      (sort cmp selected)).
  { eapply StronglySorted_weaken; [|apply sort_sorted].
    - intros a b Hab. unfold cmp in Hab. lia.
    - intros a b. unfold cmp. lia.
    - intros a b c. unfold cmp. lia. }
  split_and!.
  - rewrite length_take, (Permutation_length Hperm). reflexivity.
  - intros st Hst. rewrite <- Hperm.
    eapply elem_of_sublist; [exact Hst | apply sublist_take].
  - eapply StronglySorted_sublist; [apply sublist_take | exact Hsorted].
  - intros ->. split; reflexivity.
  - intros first rest Htop.
    assert (Hfirst : ∀ st, st ∈ selected → count st ≤ count first).
    { intros st Hst. rewrite <- Hperm in Hst.
      destruct (sort cmp selected) as [|y l]; [discriminate Htop|].
      injection Htop as -> _.
      apply StronglySorted_cons in Hsorted as [Hy _].
      apply elem_of_cons in Hst as [->|Hst]; [lia|].
      rewrite Forall_forall in Hy. apply Hy, Hst. }
    split; [|exact Hfirst].
    assert (Hin : first ∈ selected).
    { rewrite <- Hperm. eapply elem_of_sublist; [|apply (sublist_take _ 5)].
      rewrite Htop. apply list_elem_of_here. }
    unfold highestAbsenceCount.
    pose proof (math_max_spec (map count selected)) as Hmax.
    change (map (λ student, getStudentAbsences absences (Student.id student))
              selected) with (map count selected).
    destruct (math_max (map count selected)) as [|m].
    + apply (f_equal length) in Hmax. rewrite length_map in Hmax.
      destruct selected; [apply elem_of_nil in Hin as [] | discriminate Hmax].
    + destruct Hmax as [Hm Hle]. f_equal.
      apply list_elem_of_fmap in Hm as (st & -> & Hst).
      specialize (Hfirst st Hst).
      specialize (Hle (count first)
                    (proj2 (list_elem_of_fmap _ _ _)
                       (ex_intro _ first (conj eq_refl Hin)))).
      lia.
Qed.

(** ** The chart of absences by course *)

Lemma count_members (ids : list Z) (rows : list Absence.t) :
  NoDup ids →
  Z.of_nat (length (List.filter
    (λ a, bool_decide (Absence.studentId a ∈ ids)
          && bool_decide (Absence.status a = ABSENT)) rows))
  = foldr Z.add 0 (map (getStudentAbsences (Some rows)) ids).
Proof.
  intros Hnd. induction rows as [|a rows IH].
  - cbn [List.filter length]. induction ids as [|i ids IHids]; [reflexivity|].
    apply NoDup_cons in Hnd as [_ Hnd]. cbn [map foldr].
    rewrite <- (IHids Hnd). reflexivity.
  - assert (Hstep : ∀ l,
      foldr Z.add 0 (map (getStudentAbsences (Some (a :: rows))) l)
      = foldr Z.add 0 (map (getStudentAbsences (Some rows)) l)
        + (if bool_decide (Absence.studentId a ∈ l)
              && bool_decide (Absence.status a = ABSENT)
           then 1 else 0) ∨ ¬ NoDup l).
    { intros l. induction l as [|i l IHl]; [left; reflexivity|].
      destruct (decide (NoDup (i :: l))) as [Hl|Hl]; [left | right; exact Hl].
      apply NoDup_cons in Hl as [Hi Hl].
      destruct IHl as [IHl|?]; [|contradiction].
      cbn [map foldr]. rewrite IHl.
      unfold getStudentAbsences at 1 3. cbn [List.filter].
      destruct (bool_decide (Absence.status a = ABSENT)) eqn:Hst;
        rewrite ?andb_true_r, ?andb_false_r.
      - destruct (decide (Absence.studentId a = i)) as [Heq|Hne].
        + rewrite (bool_decide_true (Absence.studentId a = i)) by exact Heq.
          rewrite (bool_decide_true (Absence.studentId a ∈ i :: l))
            by (rewrite Heq; apply list_elem_of_here).
          rewrite (bool_decide_false (Absence.studentId a ∈ l))
            by (rewrite Heq; exact Hi).
          cbn [length]. lia.
        + rewrite (bool_decide_false (Absence.studentId a = i)) by exact Hne.
          rewrite (bool_decide_ext (Absence.studentId a ∈ i :: l)
                     (Absence.studentId a ∈ l)); [lia|].
          rewrite elem_of_cons. tauto.
      - lia. }
    destruct (Hstep ids) as [->|?]; [|contradiction].
    rewrite <- IH. cbn [List.filter].
    destruct (_ && _); cbn [length]; lia.
Qed.

(** X23. The chart of absences by course.  When the students of the query
    have distinct identifiers, the number of absences of a course is the
    sum, over the students enrolled in it, of the count shown for the
    student; its number of students is the number of those students.
    While the query of the absences has no data the number is 0. *)
Theorem X23_course_chart (students : list Student.t)
    (absences : list Absence.t) (course : Course.t)
    (Hids : NoDup (map Student.id students)) :
  let enrolled :=
    List.filter (λ s, bool_decide (Student.courseId s = Course.id course))
      students in
  cd_absences (courseData (Some students) (Some absences) course)
  = foldr Z.add 0
      (map (λ st, getStudentAbsences (Some absences) (Student.id st))
         enrolled)
  ∧ cd_students (courseData (Some students) (Some absences) course)
    = Z.of_nat (length enrolled)
  ∧ cd_absences (courseData (Some students) None course) = 0
  ∧ cd_name (courseData (Some students) (Some absences) course)
    = Course.code course.
Proof.
  intros enrolled. unfold courseData. cbn [cd_absences cd_students cd_name].
  fold enrolled. split_and!; try reflexivity.
  rewrite count_members.
  - rewrite map_map. reflexivity.
  - eapply sublist_NoDup; [exact Hids|].
    apply (fmap_sublist Student.id). subst enrolled.
    clear. induction students as [|s l IH]; [constructor|].
    cbn [List.filter]. destruct (bool_decide _);
      [apply sublist_skip | apply sublist_cons]; exact IH.
Qed.

Lemma X23_course_chart_witness :
  NoDup (map Student.id [student_a; student_b])
  ∧ cd_absences (courseData (Some [student_a; student_b])
                   (Some term_absences) strict_course)
    = getStudentAbsences (Some term_absences) 1
      + getStudentAbsences (Some term_absences) 2.
Proof.
  assert (Hids : NoDup (map Student.id [student_a; student_b])).
  { apply (bool_decide_unpack _). vm_compute. exact I. }
  split; [exact Hids|].
  destruct (X23_course_chart [student_a; student_b] term_absences
              strict_course Hids) as [Hsum _].
  rewrite Hsum. reflexivity.
Defined.

(** ** The status options *)

(** X24. The option of a status.  [getStatusOption] answers an option
    whose [value] is the value asked for: the one of the table for
    ["present"], ["absent"], ["justified"] and ["unjustified"], which the
    table has once each, and for any other value a gray option labelled
    with the value itself. *)
Theorem X24_status_option (v : string) :
  Constants.value (Constants.getStatusOption v) = v
  ∧ NoDup (Constants.value <$> Constants.ABSENCE_STATUS_OPTIONS)
  ∧ (v ∈ Constants.value <$> Constants.ABSENCE_STATUS_OPTIONS →
     Constants.getStatusOption v ∈ Constants.ABSENCE_STATUS_OPTIONS)
  ∧ (v ∉ Constants.value <$> Constants.ABSENCE_STATUS_OPTIONS →
     Constants.getStatusOption v
     = Constants.mkStatusOption v v "text-gray-700 bg-gray-100").
Proof.
  unfold Constants.getStatusOption.
  destruct (find _ Constants.ABSENCE_STATUS_OPTIONS) as [o|] eqn:Hfind.
  - apply find_split in Hfind as (l1 & l2 & Hl & Ho & _).
    apply bool_decide_eq_true in Ho. split_and!.
    + exact Ho.
    + apply (bool_decide_unpack _). vm_compute. exact I.
    + intros _. rewrite Hl. apply elem_of_app. right.
      apply list_elem_of_here.
    + intros Hout. exfalso. apply Hout. apply list_elem_of_fmap.
      exists o. split; [symmetry; exact Ho|].
      rewrite Hl. apply elem_of_app. right. apply list_elem_of_here.
  - apply find_None_Forall in Hfind. rewrite Forall_forall in Hfind.
    split_and!.
    + reflexivity.
    + apply (bool_decide_unpack _). vm_compute. exact I.
    + intros Hin. apply list_elem_of_fmap in Hin as (o & -> & Ho).
      specialize (Hfind o Ho). apply bool_decide_eq_false in Hfind.
      contradiction.
    + reflexivity.
Qed.

(** * Further properties of the client *)

(** ** The router, the sidebar and the guards of the server *)

Lemma ProtectedRoute_children (prev : bool) (user : option App.User)
    (rs : option (list string)) :
  App.ProtectedRoute false prev user rs = App.Children
  ↔ ∃ u, user = Some u ∧ ∀ l, rs = Some l → App.role u ∈ l.
Proof.
  unfold App.ProtectedRoute. destruct user as [u|].
  - destruct rs as [l|].
    + destruct (decide (App.role u ∈ l)) as [Hin|Hout].
      * rewrite bool_decide_true by exact Hin. cbn [negb].
        split; [|reflexivity]. intros _. exists u. split; [reflexivity|].
        intros ? [= <-]. exact Hin.
      * rewrite bool_decide_false by exact Hout. cbn [negb].
        split; [discriminate|]. intros (v & [= <-] & Hl).
        destruct Hout. apply Hl. reflexivity.
    + split; [|reflexivity]. intros _. exists u. split; [reflexivity|].
      intros ? [=].
  - split; [discriminate | intros (u & [=] & _)].
Qed.

Lemma navItems_admin (i : Z) (n f e : string) (d : option Z) :
  Sidebar.navItems (Some (App.mkUser i n f e "admin" d))
  = ["/"; "/departments"; "/courses"; "/modules"; "/teachers"; "/students";
     "/student-groups"; "/absence-reports";
     "/my-modules"; "/record-absences"; "/absence-history"].
Proof. reflexivity. Qed.

Lemma navItems_head (i : Z) (n f e : string) (d : option Z) :
  Sidebar.navItems (Some (App.mkUser i n f e "departmentHead" d))
  = ["/"; "/student-groups"; "/absence-reports";
     "/my-modules"; "/record-absences"; "/absence-history"].
Proof. reflexivity. Qed.

Lemma navItems_teacher (i : Z) (n f e : string) (d : option Z) :
  Sidebar.navItems (Some (App.mkUser i n f e "teacher" d))
  = ["/"; "/my-modules"; "/record-absences"; "/absence-history"].
Proof. reflexivity. Qed.

Lemma navItems_other (u : App.User) :
  App.role u ∉ [Constants.ADMIN; Constants.DEPARTMENT_HEAD;
                Constants.TEACHER] →
  Sidebar.navItems (Some u) = [].
Proof.
  rewrite !elem_of_cons, elem_of_nil. intros Hout.
  unfold Sidebar.navItems. cbv zeta.
  rewrite !(bool_decide_false (App.role u = Constants.ADMIN)) by tauto.
  rewrite !(bool_decide_false (App.role u = Constants.DEPARTMENT_HEAD))
    by tauto.
  rewrite !(bool_decide_false (App.role u = Constants.TEACHER)) by tauto.
  reflexivity.
Qed.

(** X25. The sidebar and the router.  The sidebar lists no path twice, and
    every path it lists for a user is a protected route of the router whose
    roles admit the user.  For an admin, a department head or a teacher it
    lists every protected route that admits the role; for a user of any
    other role, and without a user, it lists nothing. *)
Theorem X25_sidebar_matches_router (u : App.User) (path : string) :
  let items := Sidebar.navItems (Some u) in
  NoDup items
  ∧ (path ∈ items →
     ∃ component rs,
       (path, App.Protected component rs) ∈ App.routes
       ∧ ∀ prev, App.ProtectedRoute false prev (Some u) rs = App.Children)
  ∧ (App.role u ∈ [Constants.ADMIN; Constants.DEPARTMENT_HEAD;
                   Constants.TEACHER] →
     ∀ component rs,
       (path, App.Protected component rs) ∈ App.routes →
       App.ProtectedRoute false false (Some u) rs = App.Children →
       path ∈ items)
  ∧ (App.role u ∉ [Constants.ADMIN; Constants.DEPARTMENT_HEAD;
                   Constants.TEACHER] →
     items = [])
  ∧ Sidebar.navItems None = [].
Proof.
  intros items. subst items.
  destruct (decide (App.role u ∈ [Constants.ADMIN; Constants.DEPARTMENT_HEAD;
                                  Constants.TEACHER])) as [Hin|Hout].
  - destruct u as [i n f e r d]. cbn [App.role] in Hin.
    rewrite !elem_of_cons, elem_of_nil in Hin.
    destruct Hin as [->|[->|[->|[]]]];
      unfold Constants.ADMIN, Constants.DEPARTMENT_HEAD, Constants.TEACHER;
      rewrite ?navItems_admin, ?navItems_head, ?navItems_teacher;
      (split_and!;
       [ apply (bool_decide_unpack _); vm_compute; exact I
       | intros Hin; rewrite !elem_of_cons, elem_of_nil in Hin;
         repeat (destruct Hin as [->|Hin];
                 [do 2 eexists; split; [list_member | reflexivity]|]);
         destruct Hin
       | intros _ component rs Hroute Hview; unfold App.routes in Hroute;
         rewrite !elem_of_cons, elem_of_nil in Hroute;
         repeat (destruct Hroute as [Hroute|Hroute];
                 [ first [ discriminate Hroute
                         | injection Hroute as -> ? ?; subst;
                           first [ vm_compute in Hview; discriminate Hview
                                 | list_member ] ] |]);
         destruct Hroute
       | intros Hout; exfalso; apply Hout; cbn [App.role]; list_member
       | reflexivity ]).
  - rewrite (navItems_other u Hout). split_and!.
    + constructor.
    + intros Hin. apply elem_of_nil in Hin as [].
    + intros Hin. contradiction.
    + reflexivity.
    + reflexivity.
Qed.

Lemma request_role (obj : Obj) (r : string) (g : Routes.Guard) :
  field obj "role" = Some (VStr r) →
  Routes.guard g (Routes.mkRequest true (Some obj)) = Routes.Next
  ↔ match g with
    | Routes.Open | Routes.Authenticated => True
    | Routes.Teacher => r ∈ ["admin"; "departmentHead"; "teacher"]
    | Routes.DepartmentHead => r ∈ ["admin"; "departmentHead"]
    | Routes.Admin => r ∈ ["admin"]
    end.
Proof.
  intros Hrole.
  destruct (guard_passes (Routes.mkRequest true (Some obj)))
    as (Hauth & Hteacher & Hhead & Hadmin).
  cbn [Routes.req_isAuthenticated Routes.req_user] in *.
  destruct g; cbn [Routes.guard];
    rewrite ?Hauth, ?Hteacher, ?Hhead, ?Hadmin,
      ?elem_of_cons, ?elem_of_nil; [tauto|tauto|..];
    (split;
     [ intros (_ & v & [= <-] & Hv); rewrite Hrole in Hv;
       repeat destruct Hv as [Hv|Hv]; injection Hv as ->; tauto
     | intros Hr; split; [reflexivity|]; exists obj;
       split; [reflexivity|]; rewrite Hrole;
       repeat destruct Hr as [Hr|Hr]; subst; tauto ]).
Qed.

(** X26. What a protected route renders.  While the session is loading
    the route renders its children when the browser holds the mark of an
    earlier login, whoever the user is and whatever the roles asked for,
    and the loading indicator otherwise.  Once loaded it renders the login
    form without a user, and its children exactly when there is a user
    whose role is one of the roles asked for, if any are.  For every
    protected route of the router there is a guard of the server, never
    the open one, that lets the requests of a logged-in user through
    exactly when the route renders its children for that user. *)
Theorem X26_protected_route (prev : bool) (user : option App.User)
    (rs : option (list string)) :
  App.ProtectedRoute true true user rs = App.Children
  ∧ App.ProtectedRoute true false user rs = App.Loading
  ∧ App.ProtectedRoute false prev None rs = App.LoginForm
  ∧ (App.ProtectedRoute false prev user rs = App.Children
     ↔ ∃ u, user = Some u ∧ ∀ l, rs = Some l → App.role u ∈ l)
  ∧ (∀ path component rs',
       (path, App.Protected component rs') ∈ App.routes →
       ∃ g, g ≠ Routes.Open
            ∧ ∀ u obj,
                field obj "role" = Some (VStr (App.role u)) →
                (App.ProtectedRoute false prev (Some u) rs' = App.Children
                 ↔ Routes.guard g (Routes.mkRequest true (Some obj))
                   = Routes.Next)).
Proof.
  split_and!; try reflexivity; [apply ProtectedRoute_children|].
  intros path component rs' Hroute. unfold App.routes in Hroute.
  rewrite !elem_of_cons, elem_of_nil in Hroute.
  assert (Hcases : rs' = None ∨ rs' = Some ["admin"]
                   ∨ rs' = Some ["admin"; "departmentHead"]
                   ∨ rs' = Some ["admin"; "departmentHead"; "teacher"]).
  { repeat (destruct Hroute as [Hroute|Hroute];
            [first [discriminate Hroute
                   | injection Hroute as _ _ ->; tauto]|]).
    destruct Hroute. }
  destruct Hcases as [->|[->|[->| ->]]];
    [ exists Routes.Authenticated | exists Routes.Admin
    | exists Routes.DepartmentHead | exists Routes.Teacher ];
    (split; [discriminate|]); intros u obj Hrole;
    rewrite ProtectedRoute_children, (request_role obj _ _ Hrole);
    (split;
     [ intros (v & [= <-] & Hl); try exact I; apply Hl; reflexivity
     | intros Hr; exists u; split; [reflexivity|];
       intros l [= <-]; exact Hr ]).
Qed.

(** ** Recording the absences of a session *)

Lemma js_filter_all {A} (p : A → bool) (l : list A) :
  Forall (λ x, p x = true) l → List.filter p l = l.
Proof.
  induction 1 as [|x l Hx _ IH]; [reflexivity|].
  cbn [List.filter]. rewrite Hx, IH. reflexivity.
Qed.

Lemma batch_lists (inputs : list Obj) (s : MemStorage) :
  store_ok s →
  (batchCreateAbsences inputs s).1
  = imap (λ i a, with_id a (next_absences (nextIds s) + Z.of_nat i)) inputs
  ∧ listAbsences (batchCreateAbsences inputs s).2
    = listAbsences s ++ (batchCreateAbsences inputs s).1
  ∧ sessions (batchCreateAbsences inputs s).2 = sessions s.
Proof.
  intros Hok. unfold batchCreateAbsences. rewrite batch_loop_spec.
  cbn [fst snd app]. split; [reflexivity|]. split.
  - unfold listAbsences, map_values.
    rewrite (run_creates_absences inputs s (Hok Absences)), map_app.
    f_equal. change (map snd) with (fmap (M:=list) (@snd Z Obj)).
    rewrite fmap_imap. reflexivity.
  - clear Hok. revert s. induction inputs as [|a l IH]; intros s;
      [reflexivity|].
    cbn [fmap list_fmap]. change (run (?c :: ?l) s) with (run l (exec c s).2).
    rewrite IH. reflexivity.
Qed.

Lemma payload_fields (session absence : Obj) (v : Val) (f : string) :
  field session "id" = Some v →
  field (match field session "id" with
         | Some id => <["sessionId" := id]> absence
         | None => delete "sessionId" absence
         end) f
  = if decide (f = "sessionId") then Some v else field absence f.
Proof.
  intros ->. unfold field. destruct (decide (f = "sessionId")) as [->|Hne].
  - apply lookup_insert_eq.
  - apply lookup_insert_ne. congruence.
Qed.

(** X27. Recording the absences of a session.  When the page's session is
    created and its payload (each absence with the [sessionId] of the
    session put in) is stored by [batchCreateAbsences] on a well-formed
    store, the session is stored under the identifier it got, one absence
    is stored for each entry of the form, every one of them with that
    [sessionId] and otherwise the fields of its entry, and the list of
    absences of the session is what it was before (nothing stops earlier
    rows from naming the identifier) followed by the new rows. *)
Theorem X27_record_absences (sessionData : Obj) (absencesData : list Obj)
    (s : MemStorage)
    (Hok : store_ok s) :
  let sid := next_sessions (nextIds s) in
  let session := (createSession sessionData s).1 in
  let s1 := (createSession sessionData s).2 in
  let payload := RecordAbsences.absencesPayload session absencesData in
  let rows := (batchCreateAbsences payload s1).1 in
  let s2 := (batchCreateAbsences payload s1).2 in
  getSession sid s2 = Some session
  ∧ length rows = length absencesData
  ∧ (∀ i a, absencesData !! i = Some a →
       ∃ r, rows !! i = Some r
            ∧ field r "sessionId" = Some (VNum sid)
            ∧ ∀ f, f ≠ "id" → f ≠ "sessionId" → field r f = field a f)
  ∧ listAbsences s2 = listAbsences s ++ rows
  ∧ listAbsencesBySession sid s2 = listAbsencesBySession sid s ++ rows.
Proof.
  intros sid session s1 payload rows s2.
  assert (Hok1 : store_ok s1)
    by (apply (exec_ok (CreateSession sessionData) s); [exact I | exact Hok]).
  destruct (batch_lists payload s1 Hok1) as (Hrows & Hlist & Hsessions).
  fold rows s2 in Hrows, Hlist, Hsessions.
  assert (Hid : field session "id" = Some (VNum sid)) by apply field_with_id.
  assert (Hrow : ∀ i a, absencesData !! i = Some a →
            ∃ r, rows !! i = Some r
                 ∧ field r "sessionId" = Some (VNum sid)
                 ∧ ∀ f, f ≠ "id" → f ≠ "sessionId" → field r f = field a f).
  { intros i a Ha. rewrite Hrows. eexists. split.
    - rewrite list_lookup_imap. unfold payload, RecordAbsences.absencesPayload.
      change (map ?g absencesData) with (g <$> absencesData).
      rewrite list_lookup_fmap, Ha. reflexivity.
    - split.
      + rewrite field_with_id_ne by discriminate.
        rewrite (payload_fields session a _ _ Hid), decide_True; reflexivity.
      + intros f Hf Hf'. rewrite field_with_id_ne by exact Hf.
        rewrite (payload_fields session a _ _ Hid), decide_False by exact Hf'.
        reflexivity. }
  assert (Hlen : length rows = length absencesData).
  { rewrite Hrows, length_imap. unfold payload, RecordAbsences.absencesPayload.
    apply length_map. }
  split_and!.
  - unfold getSession. rewrite Hsessions. subst s1. unfold createSession.
    cbn [snd sessions set_sessions set_nextIds].
    rewrite map_get_set, decide_True; reflexivity.
  - exact Hlen.
  - exact Hrow.
  - rewrite Hlist. reflexivity.
  - unfold listAbsencesBySession. fold (listAbsences s2) (listAbsences s).
    rewrite Hlist, js_filter_app. rewrite (js_filter_all _ rows);
      [reflexivity|].
    apply Forall_forall. intros r Hr.
    apply list_elem_of_lookup in Hr as [i Hi].
    assert (is_Some (absencesData !! i)) as [a Ha].
    { apply lookup_lt_is_Some. rewrite <- Hlen.
      apply lookup_lt_is_Some. eauto. }
    destruct (Hrow i a Ha) as (r' & Hr' & Hsid & _).
    rewrite Hi in Hr'. injection Hr' as <-.
    apply strict_eq_true, Hsid.
Qed.

Lemma X27_record_absences_witness :
  store_ok new_MemStorage
  ∧ length (listAbsencesBySession 1
      (batchCreateAbsences
         (RecordAbsences.absencesPayload
            (createSession sample_department new_MemStorage).1
            [sample_department; sample_course])
         (createSession sample_department new_MemStorage).2).2)
    = 2%nat.
Proof.
  split; [exact new_MemStorage_ok|].
  destruct (X27_record_absences sample_department
              [sample_department; sample_course] new_MemStorage
              new_MemStorage_ok) as (_ & Hlen & _ & _ & Hlist).
  change (next_sessions (nextIds new_MemStorage)) with 1 in Hlist.
  rewrite Hlist, length_app, Hlen. reflexivity.
Defined.

(** ** The history page *)

Lemma group_step_get (m : list (Z * list Absence.t)) (a : Absence.t)
    (k : Z) :
  default [] (map_get k (AbsenceHistory.group_step m a))
  = default [] (map_get k m)
    ++ (if bool_decide (Absence.sessionId a = k) then [a] else []).
Proof.
  unfold AbsenceHistory.group_step, map_has.
  destruct (map_get (Absence.sessionId a) m) as [l|] eqn:Hget; cbn [negb].
  - rewrite Hget, map_get_set.
    destruct (decide (Absence.sessionId a = k)) as [<-|Hne].
    + rewrite bool_decide_true by reflexivity. rewrite Hget. reflexivity.
    + rewrite bool_decide_false by exact Hne. rewrite app_nil_r. reflexivity.
  - rewrite map_get_set, decide_True by reflexivity. rewrite !map_get_set.
    destruct (decide (Absence.sessionId a = k)) as [<-|Hne].
    + rewrite bool_decide_true by reflexivity. rewrite Hget. reflexivity.
    + rewrite bool_decide_false by exact Hne. rewrite app_nil_r. reflexivity.
Qed.

Lemma group_fold_get (rows : list Absence.t) (k : Z) :
  ∀ m, default [] (map_get k (fold_left AbsenceHistory.group_step rows m))
       = default [] (map_get k m)
         ++ List.filter (λ a, bool_decide (Absence.sessionId a = k)) rows.
Proof.
  induction rows as [|a rows IH]; intros m; cbn [fold_left List.filter].
  - rewrite app_nil_r. reflexivity.
  - rewrite IH, group_step_get, <- app_assoc.
    destruct (bool_decide (Absence.sessionId a = k)); reflexivity.
Qed.

(** X28. The absences of a session on the history page.  The grouping
    gives for every session the absences of the query that name it, in the
    order of the query, and no absence for a session that none names or
    while the query has no data: the same list as the filter of the
    storage gives for the session. *)
Theorem X28_session_absences (rows : list Absence.t) (sessionId : Z) :
  AbsenceHistory.getSessionAbsences (Some rows) sessionId
  = List.filter (λ a, bool_decide (Absence.sessionId a = sessionId)) rows
  ∧ AbsenceHistory.getSessionAbsences None sessionId = []
  ∧ (∀ a, a ∈ rows →
       a ∈ AbsenceHistory.getSessionAbsences (Some rows)
             (Absence.sessionId a)).
Proof.
  assert (Hget : AbsenceHistory.getSessionAbsences (Some rows) sessionId
    = List.filter (λ a, bool_decide (Absence.sessionId a = sessionId)) rows).
  { pose proof (group_fold_get rows sessionId []) as Hfold.
    unfold AbsenceHistory.getSessionAbsences, AbsenceHistory.absencesBySession.
    cbn [map_get default app] in Hfold. rewrite <- Hfold.
    destruct (map_get sessionId _); reflexivity. }
  split_and!; [exact Hget | reflexivity |].
  intros a Ha.
  pose proof (group_fold_get rows (Absence.sessionId a) []) as Hfold.
  unfold AbsenceHistory.getSessionAbsences, AbsenceHistory.absencesBySession.
  cbn [map_get default app] in Hfold.
  assert (Hin : a ∈ List.filter
            (λ b, bool_decide (Absence.sessionId b = Absence.sessionId a))
            rows).
  { apply list_elem_of_In, filter_In. split; [apply list_elem_of_In, Ha|].
    apply bool_decide_eq_true. reflexivity. }
  rewrite <- Hfold in Hin.
  destruct (map_get (Absence.sessionId a) _); exact Hin.
Qed.

Lemma status_counts (rows : list Absence.t) :
  foldr Z.add 0 (snd <$> AbsenceHistory.absenceStatusData (Some rows))
  = Z.of_nat (length (List.filter
      (λ a, bool_decide (Absence.status a ∈ Constants.ABSENCE_STATUSES))
      rows)).
Proof.
  unfold AbsenceHistory.absenceStatusData, Constants.ABSENCE_STATUSES.
  cbn [map fmap list_fmap snd foldr].
  induction rows as [|a rows IH]; [reflexivity|].
  cbn [List.filter].
  destruct (decide (Absence.status a = "present")) as [Hp|Hp];
    [|destruct (decide (Absence.status a = "absent")) as [Ha|Ha];
      [|destruct (decide (Absence.status a = "justified")) as [Hj|Hj];
        [|destruct (decide (Absence.status a = "unjustified")) as [Hu|Hu]]]].
  1-4: rewrite (bool_decide_true (Absence.status a ∈ _))
         by (first [rewrite Hp | rewrite Ha | rewrite Hj | rewrite Hu];
             list_member).
  5: rewrite (bool_decide_false (Absence.status a ∈ _))
       by (rewrite !elem_of_cons, elem_of_nil; tauto).
  all: repeat match goal with
       | |- context [bool_decide (Absence.status ?y = ?x)] =>
           first [ rewrite (bool_decide_true (Absence.status y = x))
                     by assumption
                 | rewrite (bool_decide_false (Absence.status y = x))
                     by congruence ]
       end; cbn [length]; lia.
Qed.

(** X29. The status chart of the history page.  The chart has the four
    slices of the four statuses, in the order and with the labels of the
    status options, and their values add up to the number of absences of
    the query whose status is one of the four: to all of them when every
    status is.  While the query has no data the chart has no slice. *)
Theorem X29_status_chart (rows : list Absence.t) :
  fst <$> AbsenceHistory.absenceStatusData (Some rows)
  = Constants.label <$> Constants.ABSENCE_STATUS_OPTIONS
  ∧ Constants.ABSENCE_STATUSES
    = Constants.value <$> Constants.ABSENCE_STATUS_OPTIONS
  ∧ foldr Z.add 0 (snd <$> AbsenceHistory.absenceStatusData (Some rows))
    = Z.of_nat (length (List.filter
        (λ a, bool_decide (Absence.status a ∈ Constants.ABSENCE_STATUSES))
        rows))
  ∧ (Forall (λ a, Absence.status a ∈ Constants.ABSENCE_STATUSES) rows →
     foldr Z.add 0 (snd <$> AbsenceHistory.absenceStatusData (Some rows))
     = Z.of_nat (length rows))
  ∧ AbsenceHistory.absenceStatusData None = [].
Proof.
  split_and!; try reflexivity; [apply status_counts|].
  intros Hall. rewrite status_counts, js_filter_all; [reflexivity|].
  eapply Forall_impl; [exact Hall|]. intros a Ha.
  apply bool_decide_eq_true. exact Ha.
Qed.
